(** * HearSay backend: SSO identity resolution and onboarding

    A shallow embedding of [backend/users/services.py],
    [backend/users/models.py], [backend/users/views.py] and
    [backend/onboarding/views.py], followed by the properties of the
    identity resolver ([find_or_create_user]), of the authentication
    endpoint ([sso_authenticate]), of [generate_username], of
    [calculate_proficiency] and of [complete_onboarding].

    Python values are modelled as follows: [str] is [string] (one [ascii]
    per character), [int] is [Z], [None]-able values are [option], a
    [dict] with string keys is a [gmap string _].  A database table is the
    list of its rows, each row carrying its primary key. Code that raises
    runs in the monad [M]: a computation reads the environment (entropy,
    identity providers, database faults), threads the world (tables and the
    trace of executed statements) and ends by returning, by raising or by
    running out of loop fuel. *)

From Stdlib Require Import Ascii.
From stdpp Require Import base option numbers list strings gmap.

Local Open Scope string_scope.

(** ** Python built-ins used by the views *)

Module Py.

(** [bool(s)] for a [str]: empty strings are falsy. *)
Definition truthy (s : string) : bool :=
  match s with EmptyString => false | String _ _ => true end.

(** [bool(o)] for an optional [str]: [None] and [''] are falsy. *)
Definition truthy_opt (o : option string) : bool :=
  match o with None => false | Some s => truthy s end.

(** [a or b] for an optional [str] [a] and a [str] [b]. *)
Definition or_else (a : option string) (b : string) : string :=
  match a with
  | Some s => if truthy s then s else b
  | None => b
  end.

(** [s.split(sep)] for a one-character separator. *)
Fixpoint split (sep : ascii) (s : string) : list string :=
  match s with
  | EmptyString => [EmptyString]
  | String c rest =>
      if Ascii.eqb c sep then EmptyString :: split sep rest
      else match split sep rest with
           | [] => [String c EmptyString]
           | w :: ws => String c w :: ws
           end
  end.

(** [l[i]]: [None] stands for [IndexError]. *)
Definition item (l : list string) (i : nat) : option string := l !! i.

(** [s[:n]]. *)
Fixpoint slice_to (n : nat) (s : string) : string :=
  match n, s with
  | S m, String c rest => String c (slice_to m rest)
  | _, _ => EmptyString
  end.

(** [''.join(l)] for a list of characters. *)
Definition join (l : list ascii) : string := String.string_of_list_ascii l.

Definition ascii_lowercase : string := "abcdefghijklmnopqrstuvwxyz".
Definition ascii_uppercase : string := "ABCDEFGHIJKLMNOPQRSTUVWXYZ".
Definition digits : string := "0123456789".

(** [s] between double quotes. *)
Definition quoted (s : string) : string :=
  String (ascii_of_nat 34) s +:+ String (ascii_of_nat 34) EmptyString.

(** [s.startswith(p)]. *)
Definition startswith (p s : string) : bool := String.prefix p s.

End Py.

(** ** Exceptions and the computation monad *)

Inductive exn : Type :=
| IntegrityError            (* django.db: a unique constraint rejected the row *)
| DatabaseError             (* django.db: save(update_fields) touched no row *)
| OperationalError          (* django.db: the connection failed *)
| ValidationError           (* django.core: a field refused the value on save *)
| JWTError (msg : string)   (* jose *)
| RequestException (msg : string)  (* requests *)
| TokenVerificationError (msg : string)  (* users.services *)
| KeyError (key : string)
| IndexError
| AttributeError
| ValueError (msg : string)
| OverflowError.            (* a Python int that does not fit a C int *)

Inductive outcome (A : Type) : Type :=
| Returned (a : A)
| Raised (e : exn)
| Diverged.
Arguments Returned {A} a.
Arguments Raised {A} e.
Arguments Diverged {A}.

(** ** JSON values of request bodies

    Numbers are the integral ones; a body holding a number with a fraction
    or an exponent is outside this model. *)

#[warnings="-register-all"] Inductive json : Type :=
| JNull
| JBool (b : bool)
| JInt (n : Z)
| JStr (s : string)
| JList (items : list json)
| JDict (members : list (string * json)).

(** ** users/models.py *)

Module User.

(** A row of the [users_user] table. [password] is the field inherited
    from Django's [AbstractBaseUser]; the other inherited fields
    ([is_staff], [last_login], ...) and the two timestamps play no part
    in the views below and are left out. The [max_length] of a column is
    not enforced, as with SQLite, the default database of the settings. *)
Record t : Type := mk {
  id : nat;
  username : string;               (* unique (AbstractUser) *)
  email : string;                  (* unique=True *)
  first_name : string;
  last_name : string;
  password : string;
  sso_provider : option string;    (* null=True *)
  sso_id : option string;          (* null=True, unique=True *)
  onboarding_completed : bool      (* default=False *)
}.

(** The column names, as [save(update_fields=...)] names them. *)
Definition columns : list string :=
  ["username"; "email"; "first_name"; "last_name"; "password";
   "sso_provider"; "sso_id"; "onboarding_completed"].

(** [dst] with the columns named in [fields] taken from [src]: the row
    that [UPDATE ... SET fields WHERE id = dst.id] leaves behind. *)
Definition assign (fields : list string) (src dst : t) : t :=
  let pick {A} (name : string) (f : t -> A) : A :=
    if bool_decide (name ∈ fields) then f src else f dst in
  {| id := id dst;
     username := pick "username" username;
     email := pick "email" email;
     first_name := pick "first_name" first_name;
     last_name := pick "last_name" last_name;
     password := pick "password" password;
     sso_provider := pick "sso_provider" sso_provider;
     sso_id := pick "sso_id" sso_id;
     onboarding_completed := pick "onboarding_completed" onboarding_completed |}.

(** Whether writing the columns [fields] of [new] would collide with the
    row [other] on one of the three unique columns. NULLs never collide. *)
Definition collides (fields : list string) (new other : t) : bool :=
  (bool_decide ("username" ∈ fields) && String.eqb (username other) (username new))
  || (bool_decide ("email" ∈ fields) && String.eqb (email other) (email new))
  || (bool_decide ("sso_id" ∈ fields) &&
      match sso_id new with
      | Some s => bool_decide (sso_id other = Some s)
      | None => false
      end).

(** Django's [UNUSABLE_PASSWORD_PREFIX] and [is_password_usable], which
    [has_usable_password] applies to the [password] field. *)
Definition UNUSABLE_PASSWORD_PREFIX : string := "!".
Definition has_usable_password (u : t) : bool :=
  negb (Py.startswith UNUSABLE_PASSWORD_PREFIX (password u)).

End User.

Module UserProfile.

(** A row of the [users_userprofile] table (timestamps left out).
    [reminder_time] is (hour, minute). *)
Record t : Type := mk {
  id : nat;
  user_id : nat;                       (* OneToOneField: unique *)
  target_language : string;
  native_language : string;            (* default='en' *)
  proficiency_level : string;          (* default='beginner' *)
  goals : json;                        (* JSONField, default=list *)
  sessions_per_week : Z;               (* default=3 *)
  session_duration_minutes : Z;        (* default=15 *)
  notifications_enabled : bool;        (* default=True *)
  reminder_time : option (Z * Z);      (* null=True *)
  timezone : string;                   (* default='UTC' *)
  total_lessons_completed : Z;
  total_practice_minutes : Z;
  current_streak_days : Z;
  longest_streak_days : Z;
  last_activity_date : option string
}.

End UserProfile.

(** ** The world and the environment *)

(** The statements the ORM sends to the database, in the order sent. *)
Inductive Stmt : Type :=
| SelectUserBySso (provider sso_id : string)
| SelectUserByEmail (email : string)
| ExistsUserByUsername (username : string)
| InsertUser (row : User.t)
| UpdateUser (fields : list string) (row : User.t)
| SelectProfileByUser (user_id : nat)
| InsertProfile (row : UserProfile.t)
| UpdateProfile (row : UserProfile.t).

Definition is_write (s : Stmt) : bool :=
  match s with
  | InsertUser _ | UpdateUser _ _ | InsertProfile _ | UpdateProfile _ => true
  | _ => false
  end.

Record World : Type := mkWorld {
  users : list User.t;
  profiles : list UserProfile.t;
  trace : list Stmt;       (* every statement sent so far *)
  drawn : nat              (* how many values were taken from the entropy *)
}.

(** What [requests.get] can do: fail to connect or time out, or answer
    with a status code and a body that is JSON ([Some]) or is not. *)
Inductive HttpResult (A : Type) : Type :=
| ConnectionFailed (msg : string)
| HttpResponse (status_code : Z) (json_body : option A).
Arguments ConnectionFailed {A} msg.
Arguments HttpResponse {A} status_code json_body.

Record Env : Type := mkEnv {
  (* settings.py *)
  DEBUG : bool;
  APPLE_CLIENT_ID : string;
  GOOGLE_CLIENT_ID : string;
  (* the operating system's random source, as raw values *)
  entropy : nat -> nat;
  (* whether the n-th statement finds the database connection broken *)
  db_fault : nat -> bool;
  (* GET https://appleid.apple.com/auth/keys; the body is its 'keys' list *)
  apple_keys : HttpResult (list (gmap string string));
  (* GET https://oauth2.googleapis.com/tokeninfo?id_token=... *)
  google_tokeninfo : string -> HttpResult (gmap string string);
  (* jose.jwt: [inl msg] is a JWTError *)
  jwt_get_unverified_header : string -> string + gmap string string;
  jwt_decode : string -> gmap string string -> string -> string ->
               string + gmap string string;
  (* rest_framework_simplejwt: RefreshToken.for_user, (access, refresh) *)
  RefreshToken_for_user : User.t -> string * string
}.

Definition M (A : Type) : Type := Env -> World -> outcome A * World.

Definition ret {A} (a : A) : M A := fun _ w => (Returned a, w).

Definition bind {A B} (m : M A) (k : A -> M B) : M B := fun env w =>
  match m env w with
  | (Returned a, w') => k a env w'
  | (Raised e, w') => (Raised e, w')
  | (Diverged, w') => (Diverged, w')
  end.

Definition raise {A} (e : exn) : M A := fun _ w => (Raised e, w).
Definition diverge {A} : M A := fun _ w => (Diverged, w).
Definition ask : M Env := fun env w => (Returned env, w).
Definition get_world : M World := fun _ w => (Returned w, w).
Definition put_world (w : World) : M unit := fun _ _ => (Returned tt, w).

(** [try: body except ...: handler]. A handler answering [None] does not
    match the exception, which then propagates. Effects of [body] stay. *)
Definition try_except {A} (body : M A) (handler : exn -> option (M A)) : M A :=
  fun env w =>
    match body env w with
    | (Raised e, w') =>
        match handler e with
        | Some h => h env w'
        | None => (Raised e, w')
        end
    | r => r
    end.

Declare Scope py_scope.
Delimit Scope py_scope with py.
Notation "x <- c ;; k" := (bind c (fun x => k))
  (at level 100, c at next level, right associativity) : py_scope.
Notation "c ;;; k" := (bind c (fun _ => k))
  (at level 100, right associativity) : py_scope.
Local Open Scope py_scope.

(** [n] runs of [m], results in order. *)
Fixpoint repeatM {A} (n : nat) (m : M A) : M (list A) :=
  match n with
  | O => ret []
  | S n' => x <- m ;; xs <- repeatM n' m ;; ret (x :: xs)
  end.

(** ** The [secrets] module *)

Module Secrets.

(** [secrets.randbelow(n)]: the next raw value of the entropy, reduced. *)
Definition randbelow (n : nat) : M nat := fun env w =>
  (Returned (entropy env (drawn w) `mod` n),
   mkWorld (users w) (profiles w) (trace w) (S (drawn w))).

(** [secrets.choice(seq)]; an empty [seq] raises [IndexError]. *)
Definition choice (seq : string) : M ascii :=
  i <- randbelow (String.length seq) ;;
  match String.get i seq with
  | Some c => ret c
  | None => raise IndexError
  end.

End Secrets.

(** ** The ORM on the [User] table *)

Module Orm.

(** Send one statement: it is recorded, and raises when the connection
    is broken at that point. *)
Definition statement (s : Stmt) : M unit := fun env w =>
  let w' := mkWorld (users w) (profiles w) (trace w ++ [s]) (drawn w) in
  if db_fault env (length (trace w)) then (Raised OperationalError, w')
  else (Returned tt, w').

Definition set_users (rows : list User.t) : M unit := fun _ w =>
  (Returned tt, mkWorld rows (profiles w) (trace w) (drawn w)).

(** [QuerySet.first()] on an unordered queryset: the row of least
    primary key, [None] when there is none. *)
Definition first (rows : list User.t) : option User.t :=
  foldr (fun u acc =>
           match acc with
           | Some v => if (User.id v <? User.id u)%nat then Some v else Some u
           | None => Some u
           end) None rows.

(** [User.objects.filter(sso_provider=..., sso_id=...).first()] *)
Definition filter_sso_first (provider sso_id : string) : M (option User.t) :=
  statement (SelectUserBySso provider sso_id) ;;;
  w <- get_world ;;
  ret (first (filter (λ u, User.sso_provider u = Some provider
                           ∧ User.sso_id u = Some sso_id) (users w))).

(** [User.objects.filter(email=...).first()] *)
Definition filter_email_first (email : string) : M (option User.t) :=
  statement (SelectUserByEmail email) ;;;
  w <- get_world ;;
  ret (first (filter (λ u, User.email u = email) (users w))).

(** [User.objects.filter(username=...).exists()] *)
Definition filter_username_exists (username : string) : M bool :=
  statement (ExistsUserByUsername username) ;;;
  w <- get_world ;;
  ret (bool_decide (Exists (λ u, User.username u = username) (users w))).

(** The primary key the database gives the next inserted row. *)
Definition next_id (rows : list User.t) : nat :=
  S (max_list (User.id <$> rows)).

(** [User.objects.create(...)]: one INSERT of the whole row. The
    [password] column gets the field's default, the empty string. *)
Definition create (username email first_name last_name : string)
    (sso_provider sso_id : option string) : M User.t :=
  w <- get_world ;;
  let row := User.mk (next_id (users w)) username email first_name
               last_name EmptyString sso_provider sso_id false in
  statement (InsertUser row) ;;;
  if existsb (User.collides User.columns row) (users w)
  then raise IntegrityError
  else set_users (users w ++ [row]) ;;; ret row.

(** [user.save(update_fields=...)]: one UPDATE of the named columns
    ([None]: of all columns) of the row with the instance's primary key.
    An empty [update_fields] does nothing. When no row has that key, a
    plain [save()] falls back to an INSERT and a save with
    [update_fields] raises. *)
Definition save (update_fields : option (list string)) (u : User.t) : M unit :=
  match update_fields with
  | Some [] => ret tt
  | _ =>
    let fields := default User.columns update_fields in
    statement (UpdateUser fields u) ;;;
    w <- get_world ;;
    if bool_decide (Exists (λ r, User.id r = User.id u) (users w)) then
      if existsb (User.collides fields u)
           (filter (λ r, User.id r ≠ User.id u) (users w))
      then raise IntegrityError
      else set_users ((λ r, if bool_decide (User.id r = User.id u)
                            then User.assign fields u r else r) <$> users w)
    else
      match update_fields with
      | Some _ => raise DatabaseError
      | None =>
          statement (InsertUser u) ;;;
          if existsb (User.collides User.columns u) (users w)
          then raise IntegrityError
          else set_users (users w ++ [u])
      end
  end.

(** Django's [RANDOM_STRING_CHARS] and [UNUSABLE_PASSWORD_SUFFIX_LENGTH]. *)
Definition RANDOM_STRING_CHARS : string :=
  Py.ascii_lowercase +:+ Py.ascii_uppercase +:+ Py.digits.
Definition UNUSABLE_PASSWORD_SUFFIX_LENGTH : nat := 40.

(** [user.set_unusable_password()]: changes the instance only. *)
Definition set_unusable_password (u : User.t) : M User.t :=
  cs <- repeatM UNUSABLE_PASSWORD_SUFFIX_LENGTH (Secrets.choice RANDOM_STRING_CHARS) ;;
  ret (User.mk (User.id u) (User.username u) (User.email u)
         (User.first_name u) (User.last_name u)
         (User.UNUSABLE_PASSWORD_PREFIX +:+ Py.join cs)
         (User.sso_provider u) (User.sso_id u) (User.onboarding_completed u)).

End Orm.

(** ** users/services.py *)

Module SSOUserInfo.
Record t : Type := mk {
  provider : string;
  sso_id : string;
  email : string;
  first_name : option string;
  last_name : option string
}.
End SSOUserInfo.

Module Services.

(** [requests.get(url, timeout=10)] *)
Definition requests_get {A} (endpoint : Env -> HttpResult A) : M (Z * option A) :=
  env <- ask ;;
  match endpoint env with
  | ConnectionFailed msg => raise (RequestException msg)
  | HttpResponse status_code body => ret (status_code, body)
  end.

(** [response.raise_for_status()]: [HTTPError] is a [RequestException]. *)
Definition raise_for_status {A} (response : Z * option A) : M unit :=
  if bool_decide (400 ≤ response.1 < 600)%Z
  then raise (RequestException "HTTPError") else ret tt.

(** [response.json()]: [JSONDecodeError] is a [RequestException]. *)
Definition response_json {A} (response : Z * option A) : M A :=
  match response.2 with
  | Some body => ret body
  | None => raise (RequestException "JSONDecodeError")
  end.

Definition jose {A} (r : string + A) : M A :=
  match r with
  | inl msg => raise (JWTError msg)
  | inr a => ret a
  end.

(** [payload[key]] *)
Definition getitem (payload : gmap string string) (key : string) : M string :=
  match payload !! key with
  | Some v => ret v
  | None => raise (KeyError key)
  end.

Definition verify_apple_token (id_token : string) : M SSOUserInfo.t :=
  try_except
    (response <- requests_get apple_keys ;;
     raise_for_status response ;;;
     apple_keys <- response_json response ;;
     env <- ask ;;
     unverified_header <- jose (jwt_get_unverified_header env id_token) ;;
     let kid := unverified_header !! "kid" in
     let key := head (filter (λ k : gmap string string, k !! "kid" = kid) apple_keys) in
     match key with
     | Some key =>
         if bool_decide (key = ∅)
         then raise (TokenVerificationError "Apple public key not found")
         else
           let audience := if Py.truthy (APPLE_CLIENT_ID env)
                           then APPLE_CLIENT_ID env else "com.hearsay.app" in
           payload <- jose (jwt_decode env id_token key audience
                              "https://appleid.apple.com") ;;
           sub <- getitem payload "sub" ;;
           ret (SSOUserInfo.mk "apple" sub (default EmptyString (payload !! "email"))
                  None None)
     | None => raise (TokenVerificationError "Apple public key not found")
     end)
    (fun e =>
       match e with
       | JWTError msg =>
           Some (raise (TokenVerificationError ("Invalid Apple token: " +:+ msg)))
       | RequestException _ =>
           Some (raise (TokenVerificationError "Failed to verify Apple token"))
       | _ => None
       end).

Definition verify_google_token (id_token : string) : M SSOUserInfo.t :=
  try_except
    (response <- requests_get (fun env => google_tokeninfo env id_token) ;;
     if bool_decide (response.1 ≠ 200%Z)
     then raise (TokenVerificationError "Invalid Google token")
     else
       payload <- response_json response ;;
       env <- ask ;;
       let expected_audience := GOOGLE_CLIENT_ID env in
       if Py.truthy expected_audience
          && bool_decide (payload !! "aud" ≠ Some expected_audience)
       then raise (TokenVerificationError "Invalid Google token audience")
       else if bool_decide (payload !! "iss" ∉
                 [Some "accounts.google.com"; Some "https://accounts.google.com"])
       then raise (TokenVerificationError "Invalid Google token issuer")
       else
         sub <- getitem payload "sub" ;;
         ret (SSOUserInfo.mk "google" sub (default EmptyString (payload !! "email"))
                (payload !! "given_name") (payload !! "family_name")))
    (fun e =>
       match e with
       | RequestException _ =>
           Some (raise (TokenVerificationError "Failed to verify Google token"))
       | _ => None
       end).

Definition verify_sso_token (provider id_token : string) : M SSOUserInfo.t :=
  if String.eqb provider "apple" then verify_apple_token id_token
  else if String.eqb provider "google" then verify_google_token id_token
  else raise (ValueError ("Unsupported SSO provider: " +:+ provider)).

Definition verify_sso_token_dev (provider id_token : string)
    (email : option string) : M SSOUserInfo.t :=
  env <- ask ;;
  if negb (DEBUG env)
  then raise (TokenVerificationError "Dev verification not allowed in production")
  else
    ret (SSOUserInfo.mk provider
           (if Py.truthy id_token then "dev_" +:+ Py.slice_to 20 id_token
            else "dev_test_user")
           (Py.or_else email "dev@example.com")
           (Some "Dev") (Some "User")).

End Services.

(** ** users/serializers.py and HTTP responses *)

(** The fields [UserSerializer] renders (timestamps left out); [profile]
    is the nested [UserProfileSerializer] output, [None] when the user has
    no profile row. *)
Module UserData.
Record t : Type := mk {
  id : nat;
  email : string;
  username : string;
  first_name : string;
  last_name : string;
  sso_provider : option string;
  onboarding_completed : bool;
  profile : option UserProfile.t
}.
End UserData.

Inductive Body : Type :=
| Detail (detail : string)
| Tokens (access refresh : string) (user : UserData.t)
| Onboarded (user : UserData.t) (profile : UserProfile.t).

Record Response : Type := mkResponse { data : Body; status : Z }.

Definition HTTP_200_OK : Z := 200.
Definition HTTP_400_BAD_REQUEST : Z := 400.
Definition HTTP_401_UNAUTHORIZED : Z := 401.
Definition HTTP_500_INTERNAL_SERVER_ERROR : Z := 500.

(** [UserSerializer(user).data]: the instance's fields, and the profile
    row read through the reverse one-to-one relation. *)
Definition UserSerializer (user : User.t) : M UserData.t :=
  Orm.statement (SelectProfileByUser (User.id user)) ;;;
  w <- get_world ;;
  ret (UserData.mk (User.id user) (User.email user) (User.username user)
         (User.first_name user) (User.last_name user) (User.sso_provider user)
         (User.onboarding_completed user)
         (head (filter (λ p, UserProfile.user_id p = User.id user) (profiles w)))).

(** ** users/views.py *)

(** The keys of [request.data] that [sso_authenticate] reads, each absent
    ([None]) or a JSON string; [dev_mode] is the truthiness of that key. *)
Module SsoRequest.
Record t : Type := mk {
  provider : option string;
  id_token : option string;
  email : option string;
  first_name : option string;
  last_name : option string;
  dev_mode : bool
}.
End SsoRequest.

Module UsersViews.

Definition generate_username (email : string) : M string :=
  match Py.item (Py.split "@" email) 0 with
  | None => raise IndexError
  | Some local_part =>
      let prefix := Py.slice_to 20 local_part in
      cs <- repeatM 6 (Secrets.choice (Py.ascii_lowercase +:+ Py.digits)) ;;
      let suffix := Py.join cs in
      ret (prefix +:+ "_" +:+ suffix)
  end.

Definition get_tokens_for_user (user : User.t) : M (string * string) :=
  env <- ask ;;
  ret (RefreshToken_for_user env user).

(** The loop [while User.objects.filter(username=username).exists()]
    of [find_or_create_user]; it has no bound in the source, [fuel] bounds
    the number of tests of its condition here. *)
Fixpoint while_username_exists (fuel : nat) (email_or_user username : string)
    : M string :=
  match fuel with
  | O => diverge
  | S fuel' =>
      taken <- Orm.filter_username_exists username ;;
      if taken : bool then
        username <- generate_username email_or_user ;;
        while_username_exists fuel' email_or_user username
      else ret username
  end.

(** The last part of [find_or_create_user], from [# Create new user]. *)
Definition create_new_user (fuel : nat) (user_info : SSOUserInfo.t) : M User.t :=
  let email_or_user :=
    if Py.truthy (SSOUserInfo.email user_info)
    then SSOUserInfo.email user_info else "user" in
  username <- generate_username email_or_user ;;
  username <- while_username_exists fuel email_or_user username ;;
  user <- Orm.create username (SSOUserInfo.email user_info)
            (Py.or_else (SSOUserInfo.first_name user_info) EmptyString)
            (Py.or_else (SSOUserInfo.last_name user_info) EmptyString)
            (Some (SSOUserInfo.provider user_info))
            (Some (SSOUserInfo.sso_id user_info)) ;;
  user <- Orm.set_unusable_password user ;;
  Orm.save None user ;;;
  ret user.

Definition find_or_create_user (fuel : nat) (user_info : SSOUserInfo.t) : M User.t :=
  user <- Orm.filter_sso_first (SSOUserInfo.provider user_info)
            (SSOUserInfo.sso_id user_info) ;;
  match user with
  | Some user => ret user
  | None =>
      if Py.truthy (SSOUserInfo.email user_info) then
        user <- Orm.filter_email_first (SSOUserInfo.email user_info) ;;
        match user with
        | Some user =>
            let user :=
              User.mk (User.id user) (User.username user) (User.email user)
                (User.first_name user) (User.last_name user) (User.password user)
                (Some (SSOUserInfo.provider user_info))
                (Some (SSOUserInfo.sso_id user_info))
                (User.onboarding_completed user) in
            Orm.save (Some ["sso_provider"; "sso_id"]) user ;;;
            ret user
        | None => create_new_user fuel user_info
        end
      else create_new_user fuel user_info
  end.

(** The verification step of [sso_authenticate]: the development
    verifier when [settings.DEBUG] and the request asks for it, the real
    one otherwise. *)
Definition verified_user_info (provider id_token : string)
    (request : SsoRequest.t) : M SSOUserInfo.t :=
  env <- ask ;;
  if DEBUG env && SsoRequest.dev_mode request
  then Services.verify_sso_token_dev provider id_token (SsoRequest.email request)
  else Services.verify_sso_token provider id_token.

(** The three assignments of [sso_authenticate] that let the request
    override the names, and supply the email when the token has none. *)
Definition override_from_request (request : SsoRequest.t)
    (user_info : SSOUserInfo.t) : SSOUserInfo.t :=
  let user_info :=
    if Py.truthy_opt (SsoRequest.first_name request)
    then SSOUserInfo.mk (SSOUserInfo.provider user_info)
           (SSOUserInfo.sso_id user_info) (SSOUserInfo.email user_info)
           (SsoRequest.first_name request) (SSOUserInfo.last_name user_info)
    else user_info in
  let user_info :=
    if Py.truthy_opt (SsoRequest.last_name request)
    then SSOUserInfo.mk (SSOUserInfo.provider user_info)
           (SSOUserInfo.sso_id user_info) (SSOUserInfo.email user_info)
           (SSOUserInfo.first_name user_info) (SsoRequest.last_name request)
    else user_info in
  match SsoRequest.email request with
  | Some email =>
      if Py.truthy email && negb (Py.truthy (SSOUserInfo.email user_info))
      then SSOUserInfo.mk (SSOUserInfo.provider user_info)
             (SSOUserInfo.sso_id user_info) email
             (SSOUserInfo.first_name user_info)
             (SSOUserInfo.last_name user_info)
      else user_info
  | None => user_info
  end.

(** The handlers of [sso_authenticate]: [except TokenVerificationError],
    then [except Exception]. *)
Definition on_exception (e : exn) : option (M Response) :=
  match e with
  | TokenVerificationError msg =>
      Some (ret (mkResponse (Detail msg) HTTP_401_UNAUTHORIZED))
  | _ =>
      Some (ret (mkResponse (Detail "Authentication failed. Please try again.")
                   HTTP_500_INTERNAL_SERVER_ERROR))
  end.

Definition sso_authenticate (fuel : nat) (request : SsoRequest.t) : M Response :=
  let invalid_provider :=
    mkResponse (Detail ("Invalid provider. Must be " +:+ Py.quoted "apple"
                        +:+ " or " +:+ Py.quoted "google" +:+ "."))
      HTTP_400_BAD_REQUEST in
  let token_required :=
    mkResponse (Detail "id_token is required.") HTTP_400_BAD_REQUEST in
  match SsoRequest.provider request with
  | None => ret invalid_provider
  | Some provider =>
    if negb (Py.truthy provider)
       || negb (bool_decide (provider ∈ ["apple"; "google"]))
    then ret invalid_provider
    else
    match SsoRequest.id_token request with
    | None => ret token_required
    | Some id_token =>
    if negb (Py.truthy id_token) then ret token_required
    else
      try_except
        (user_info <- verified_user_info provider id_token request ;;
         let user_info := override_from_request request user_info in
         user <- find_or_create_user fuel user_info ;;
         tokens <- get_tokens_for_user user ;;
         user_data <- UserSerializer user ;;
         ret (mkResponse (Tokens tokens.1 tokens.2 user_data) HTTP_200_OK))
        on_exception
    end
  end.

(** [setattr(user, field, value)], for the two fields
    [update_current_user] sets. *)
Definition setattr (user : User.t) (field value : string) : User.t :=
  if String.eqb field "first_name" then
    User.mk (User.id user) (User.username user) (User.email user) value
      (User.last_name user) (User.password user) (User.sso_provider user)
      (User.sso_id user) (User.onboarding_completed user)
  else if String.eqb field "last_name" then
    User.mk (User.id user) (User.username user) (User.email user)
      (User.first_name user) value (User.password user) (User.sso_provider user)
      (User.sso_id user) (User.onboarding_completed user)
  else user.

(** [get_current_user] and [update_current_user] answer 200 with
    [UserSerializer(user).data], which is what they return here; [user] is
    [request.user], the row loaded for the request. The values of
    [request.data] are taken to be [str], as a form-encoded body has them
    and as a JSON body has them when the names are JSON strings. *)
Definition get_current_user (user : User.t) : M UserData.t :=
  UserSerializer user.

Definition update_current_user (user : User.t) (data : gmap string string)
    : M UserData.t :=
  let allowed_fields := ["first_name"; "last_name"] in
  let user :=
    foldl (λ user field,
             match data !! field with
             | Some value => setattr user field value
             | None => user
             end) user allowed_fields in
  Orm.save (Some (filter (λ f, is_Some (data !! f)) allowed_fields)) user ;;;
  UserSerializer user.

End UsersViews.

(** ** onboarding/views.py *)

Module Json.

(** [bool(v)] *)
Definition truthy (v : json) : bool :=
  match v with
  | JNull => false
  | JBool b => b
  | JInt n => negb (n =? 0)%Z
  | JStr s => Py.truthy s
  | JList l => match l with [] => false | _ => true end
  | JDict d => match d with [] => false | _ => true end
  end.

(** [isinstance(v, int)], with the value: [bool] is a subclass of [int]. *)
Definition as_int (v : json) : option Z :=
  match v with
  | JInt n => Some n
  | JBool b => Some (if b then 1 else 0)%Z
  | _ => None
  end.

(** [v in [a, b]] for two strings. *)
Definition is_one_of (v : json) (choices : list string) : bool :=
  match v with
  | JStr s => bool_decide (s ∈ choices)
  | _ => false
  end.

Definition is_list (v : json) : bool :=
  match v with JList _ => true | _ => false end.

(** Django's [BooleanField.to_python], applied when the row is saved;
    [None] stands for its [ValidationError]. *)
Definition boolean_to_python (v : json) : option bool :=
  match v with
  | JBool b => Some b
  | JInt 0 => Some false
  | JInt 1 => Some true
  | JStr s =>
      if bool_decide (s ∈ ["t"; "True"; "1"]) then Some true
      else if bool_decide (s ∈ ["f"; "False"; "0"]) then Some false
      else None
  | _ => None
  end.

End Json.

Module PyInt.

(** The characters [int()] and [str.strip()] take for white space. *)
Definition is_space (c : ascii) : bool :=
  let n := nat_of_ascii c in
  ((9 <=? n)%nat && (n <=? 13)%nat) || ((28 <=? n)%nat && (n <=? 32)%nat)
  || (n =? 133)%nat || (n =? 160)%nat.

Fixpoint lstrip (s : list ascii) : list ascii :=
  match s with
  | c :: rest => if is_space c then lstrip rest else s
  | [] => []
  end.

Definition strip (s : list ascii) : list ascii :=
  rev (lstrip (rev (lstrip s))).

Definition digit (c : ascii) : option Z :=
  let n := nat_of_ascii c in
  if (48 <=? n)%nat && (n <=? 57)%nat then Some (Z.of_nat (n - 48)) else None.

(** Decimal digits, single underscores allowed between two digits. *)
Fixpoint digits_value (acc : Z) (after_digit : bool) (s : list ascii) : option Z :=
  match s with
  | [] => if after_digit then Some acc else None
  | c :: rest =>
      match digit c with
      | Some d => digits_value (10 * acc + d) true rest
      | None =>
          if Ascii.eqb c "_" && after_digit then digits_value acc false rest
          else None
      end
  end.

(** [sys.int_info.default_max_str_digits]: [int()] refuses a text with
    more decimal digits than this (CPython 3.11, and 3.10 from 3.10.7). *)
Definition MAX_STR_DIGITS : nat := 4300.

(** The decimal digits of a text, underscores not counted. *)
Definition count_digits (s : list ascii) : nat :=
  length (List.filter (λ c, match digit c with Some _ => true | None => false end) s).

(** The digits after the sign: their value, unless they are malformed or
    more than [MAX_STR_DIGITS]. *)
Definition limited_digits_value (s : list ascii) : option Z :=
  match digits_value 0 false s with
  | Some n => if (MAX_STR_DIGITS <? count_digits s)%nat then None else Some n
  | None => None
  end.

(** [int(s)] for a [str]; [None] stands for [ValueError], which [int]
    raises for a malformed text and for one over the digit limit. *)
Definition int (s : string) : option Z :=
  match strip (String.list_ascii_of_string s) with
  | c :: rest =>
      if Ascii.eqb c "-" then Z.opp <$> limited_digits_value rest
      else if Ascii.eqb c "+" then limited_digits_value rest
      else limited_digits_value (c :: rest)
  | [] => None
  end.

End PyInt.

Module OnboardingViews.

Definition calculate_proficiency (quiz_score : Z) : string :=
  if (quiz_score <=? 1)%Z then "beginner"
  else if (quiz_score <=? 3)%Z then "elementary"
  else if (quiz_score =? 4)%Z then "intermediate"
  else "upper_intermediate".

(** The values of a C [int]. *)
Definition INT_MIN : Z := -2147483648.
Definition INT_MAX : Z := 2147483647.
Definition fits_c_int (n : Z) : bool := (INT_MIN <=? n)%Z && (n <=? INT_MAX)%Z.

(** [datetime.time(hour, minute)]: CPython converts both arguments to a
    C [int] first, with [OverflowError] for a value that does not fit, and
    then checks the ranges, with [ValueError]. *)
Definition time (hour minute : Z) : M (Z * Z) :=
  if negb (fits_c_int hour && fits_c_int minute) then raise OverflowError
  else if bool_decide (0 ≤ hour ≤ 23)%Z && bool_decide (0 ≤ minute ≤ 59)%Z
  then ret (hour, minute)
  else raise (ValueError "time out of range").

Definition int (s : string) : M Z :=
  match PyInt.int s with
  | Some n => ret n
  | None => raise (ValueError "invalid literal for int()")
  end.

Definition item (l : list string) (i : nat) : M string :=
  match Py.item l i with
  | Some x => ret x
  | None => raise IndexError
  end.

(** [time_str] is what [request.data.get('reminder_time')] gave; a value
    that is truthy and not a [str] has no [split]. The handler catches
    [ValueError] and [IndexError] only: the [OverflowError] of [time] gets
    out. *)
Definition parse_time (time_str : json) : M (option (Z * Z)) :=
  if negb (Json.truthy time_str) then ret None
  else
    try_except
      (match time_str with
       | JStr s =>
           let parts := Py.split ":" s in
           p0 <- item parts 0 ;;
           hour <- int p0 ;;
           p1 <- item parts 1 ;;
           minute <- int p1 ;;
           t <- time hour minute ;;
           ret (Some t)
       | _ => raise AttributeError
       end)
      (fun e =>
         match e with
         | ValueError _ | IndexError => Some (ret None)
         | _ => None
         end).

Definition set_profiles (rows : list UserProfile.t) : M unit := fun _ w =>
  (Returned tt, mkWorld (users w) rows (trace w) (drawn w)).

(** [UserProfile.objects.update_or_create(user=user, defaults={...})]:
    the profile of [user] is looked up, then updated with the defaults or
    inserted with them and the model's field defaults. *)
Definition update_or_create (user : User.t) (target_language proficiency_level : string)
    (goals : json) (sessions_per_week : Z) (notifications_enabled : json)
    (reminder_time : option (Z * Z)) : M (UserProfile.t * bool) :=
  Orm.statement (SelectProfileByUser (User.id user)) ;;;
  w <- get_world ;;
  match Json.boolean_to_python notifications_enabled with
  | None => raise ValidationError
  | Some notifications =>
      match head (filter (λ p, UserProfile.user_id p = User.id user) (profiles w)) with
      | Some p =>
          let p' :=
            UserProfile.mk (UserProfile.id p) (UserProfile.user_id p)
              target_language (UserProfile.native_language p) proficiency_level
              goals sessions_per_week (UserProfile.session_duration_minutes p)
              notifications reminder_time (UserProfile.timezone p)
              (UserProfile.total_lessons_completed p)
              (UserProfile.total_practice_minutes p)
              (UserProfile.current_streak_days p)
              (UserProfile.longest_streak_days p)
              (UserProfile.last_activity_date p) in
          Orm.statement (UpdateProfile p') ;;;
          set_profiles ((λ r, if bool_decide (UserProfile.id r = UserProfile.id p)
                              then p' else r) <$> profiles w) ;;;
          ret (p', false)
      | None =>
          let p' :=
            UserProfile.mk (S (max_list (UserProfile.id <$> profiles w)))
              (User.id user) target_language "en" proficiency_level goals
              sessions_per_week 15 notifications reminder_time "UTC"
              0 0 0 0 None in
          Orm.statement (InsertProfile p') ;;;
          set_profiles (profiles w ++ [p']) ;;;
          ret (p', true)
      end
  end.

(** [request.user] is the authenticated user's row as loaded for the
    request; [data] is [request.data]. *)
Definition complete_onboarding (user : User.t) (data : gmap string json) : M Response :=
  if User.onboarding_completed user then
    ret (mkResponse (Detail "Onboarding already completed.") HTTP_400_BAD_REQUEST)
  else
  let target_language := default JNull (data !! "target_language") in
  if negb (Json.truthy target_language)
     || negb (Json.is_one_of target_language ["es"; "fr"])
  then ret (mkResponse
              (Detail ("Invalid target_language. Must be " +:+ Py.quoted "es"
                       +:+ " or " +:+ Py.quoted "fr" +:+ "."))
              HTTP_400_BAD_REQUEST)
  else
  let quiz_score := default (JInt 0) (data !! "quiz_score") in
  match Json.as_int quiz_score with
  | None =>
      ret (mkResponse (Detail "Invalid quiz_score. Must be integer 0-5.")
             HTTP_400_BAD_REQUEST)
  | Some quiz_score =>
  if (quiz_score <? 0)%Z || (quiz_score >? 5)%Z
  then ret (mkResponse (Detail "Invalid quiz_score. Must be integer 0-5.")
              HTTP_400_BAD_REQUEST)
  else
  let goals := default (JList []) (data !! "goals") in
  if negb (Json.is_list goals)
  then ret (mkResponse (Detail "Invalid goals. Must be a list.")
              HTTP_400_BAD_REQUEST)
  else
  let sessions_per_week :=
    match Json.as_int (default (JInt 3) (data !! "sessions_per_week")) with
    | Some n => if (n <? 1)%Z || (n >? 7)%Z then 3%Z else n
    | None => 3%Z
    end in
  let notifications_enabled :=
    default (JBool true) (data !! "notifications_enabled") in
  let reminder_time_str := default JNull (data !! "reminder_time") in
  reminder_time <- parse_time reminder_time_str ;;
  let proficiency_level := calculate_proficiency quiz_score in
  try_except
    (pc <- update_or_create user
             (match target_language with JStr s => s | _ => EmptyString end)
             proficiency_level goals sessions_per_week notifications_enabled
             reminder_time ;;
     let user :=
       User.mk (User.id user) (User.username user) (User.email user)
         (User.first_name user) (User.last_name user) (User.password user)
         (User.sso_provider user) (User.sso_id user) true in
     Orm.save (Some ["onboarding_completed"]) user ;;;
     user_data <- UserSerializer user ;;
     ret (mkResponse (Onboarded user_data pc.1) HTTP_200_OK))
    (fun _ =>
       Some (ret (mkResponse
                    (Detail "Failed to complete onboarding. Please try again.")
                    HTTP_500_INTERNAL_SERVER_ERROR)))
  end.

End OnboardingViews.

(** ** Vocabulary of the specifications *)

#[global] Instance User_eq_dec : EqDecision User.t.
Proof. solve_decision. Defined.

#[global] Instance Stmt_is_sso_lookup_dec (s : Stmt) :
  Decision (∃ p i, s = SelectUserBySso p i).
Proof.
  destruct s; try (right; intros (? & ? & ?); discriminate).
  left; eauto.
Defined.

(** The world after one more statement, after [n] more draws, and with
    another [User] table. *)
Definition log (s : Stmt) (w : World) : World :=
  mkWorld (users w) (profiles w) (trace w ++ [s]) (drawn w).
Definition draw (n : nat) (w : World) : World :=
  mkWorld (users w) (profiles w) (trace w) (n + drawn w).
Definition with_users (rows : list User.t) (w : World) : World :=
  mkWorld rows (profiles w) (trace w) (drawn w).

(** The database connection never breaks. *)
Definition healthy (env : Env) : Prop := ∀ n, db_fault env n = false.

(** The write statements of a trace. *)
Definition writes (t : list Stmt) : list Stmt := List.filter is_write t.

(** How many times a trace starts the lookup sequence of the resolver. *)
Definition lookups (t : list Stmt) : nat :=
  length (filter (λ s, ∃ p i, s = SelectUserBySso p i) t).

(** How many INSERTs into the [User] table a trace holds. *)
Definition inserts (t : list Stmt) : nat :=
  length (List.filter (λ s, match s with InsertUser _ => true | _ => false end) t).

(** An account matches the assertion on (provider, subject id). *)
Definition sso_match (user_info : SSOUserInfo.t) (u : User.t) : Prop :=
  User.sso_provider u = Some (SSOUserInfo.provider user_info)
  ∧ User.sso_id u = Some (SSOUserInfo.sso_id user_info).

#[global] Instance sso_match_dec user_info u : Decision (sso_match user_info u).
Proof. unfold sso_match. apply _. Defined.

(** Two rows agree on the primary key or on a unique column. *)
Definition same_key (a b : User.t) : Prop :=
  User.id a = User.id b
  ∨ User.username a = User.username b
  ∨ User.email a = User.email b
  ∨ ∃ s, User.sso_id a = Some s ∧ User.sso_id b = Some s.

(** The constraints of the [User] table hold: rows at different positions
    differ on the primary key and on every unique column. *)
Definition consistent (rows : list User.t) : Prop :=
  ∀ i j a b, rows !! i = Some a → rows !! j = Some b → same_key a b → i = j.

(** [user] with the SSO link of the assertion, the other fields kept. *)
Definition linked (user_info : SSOUserInfo.t) (user : User.t) : User.t :=
  User.mk (User.id user) (User.username user) (User.email user)
    (User.first_name user) (User.last_name user) (User.password user)
    (Some (SSOUserInfo.provider user_info)) (Some (SSOUserInfo.sso_id user_info))
    (User.onboarding_completed user).

(** The table after the UPDATE that links the row of [user]'s primary key. *)
Definition relink (user_info : SSOUserInfo.t) (user : User.t)
    (rows : list User.t) : list User.t :=
  (λ r, if bool_decide (User.id r = User.id user) then linked user_info r else r)
    <$> rows.

(** Another row than [user]'s already holds the assertion's subject id. *)
Definition sso_id_held_elsewhere (user_info : SSOUserInfo.t) (user : User.t)
    (rows : list User.t) : Prop :=
  ∃ r, r ∈ rows ∧ User.id r ≠ User.id user
       ∧ User.sso_id r = Some (SSOUserInfo.sso_id user_info).

(** The accounts the two lookups of the resolver find. *)
Definition by_sso (user_info : SSOUserInfo.t) (rows : list User.t) : option User.t :=
  Orm.first (filter (sso_match user_info) rows).
Definition by_email (user_info : SSOUserInfo.t) (rows : list User.t) : option User.t :=
  Orm.first (filter (λ u, User.email u = SSOUserInfo.email user_info) rows).

(** The part of an address before its first '@' (all of it without one). *)
Fixpoint local_part (email : string) : string :=
  match email with
  | EmptyString => EmptyString
  | String c rest => if Ascii.eqb c "@" then EmptyString else String c (local_part rest)
  end.

(** The character [secrets.choice] takes from a non-empty [seq] on the raw
    entropy value [r], and the [n] characters taken from draw [start] on. *)
Definition pick (alphabet : string) (r : nat) : ascii :=
  default "?"%char (String.get (r `mod` String.length alphabet) alphabet).
Definition picks (env : Env) (alphabet : string) (start n : nat) : list ascii :=
  (λ i, pick alphabet (entropy env i)) <$> seq start n.

Definition username_alphabet : string := Py.ascii_lowercase +:+ Py.digits.

(** The text [generate_username] is called on. *)
Definition email_or_user (user_info : SSOUserInfo.t) : string :=
  if Py.truthy (SSOUserInfo.email user_info)
  then SSOUserInfo.email user_info else "user".

(** The username generated from [email] when [start] values of the
    entropy have been used. *)
Definition candidate (env : Env) (email : string) (start : nat) : string :=
  Py.slice_to 20 (local_part email) +:+ "_"
  +:+ Py.join (picks env username_alphabet start 6).

(** A suffix as [generate_username] makes them. *)
Definition suffix_ok (suffix : string) : Prop :=
  String.length suffix = 6
  ∧ ∀ i c, String.get i suffix = Some c →
           ∃ j, String.get j "abcdefghijklmnopqrstuvwxyz0123456789" = Some c.

Definition taken (rows : list User.t) (username : string) : Prop :=
  Exists (λ u, User.username u = username) rows.

(** The account [create_new_user] inserts under [username], and the
    instance it returns once the unusable password is set, when [start]
    values of the entropy were used before. *)
Definition inserted_row (rows : list User.t) (user_info : SSOUserInfo.t)
    (username : string) : User.t :=
  User.mk (Orm.next_id rows) username (SSOUserInfo.email user_info)
    (Py.or_else (SSOUserInfo.first_name user_info) EmptyString)
    (Py.or_else (SSOUserInfo.last_name user_info) EmptyString)
    EmptyString
    (Some (SSOUserInfo.provider user_info)) (Some (SSOUserInfo.sso_id user_info))
    false.
Definition with_password (password : string) (u : User.t) : User.t :=
  User.mk (User.id u) (User.username u) (User.email u) (User.first_name u)
    (User.last_name u) password (User.sso_provider u) (User.sso_id u)
    (User.onboarding_completed u).
Definition unusable_password (env : Env) (start : nat) : string :=
  User.UNUSABLE_PASSWORD_PREFIX
  +:+ Py.join (picks env Orm.RANDOM_STRING_CHARS start Orm.UNUSABLE_PASSWORD_SUFFIX_LENGTH).

(** The identity provider's endpoint cannot be reached: the request for
    Apple's keys, or for Google's verdict on the token, fails to connect or
    times out. *)
Definition provider_unreachable (env : Env) (provider id_token : string) : Prop :=
  (provider = "apple" ∧ ∃ msg, apple_keys env = ConnectionFailed msg)
  ∨ (provider = "google"
     ∧ ∃ msg, google_tokeninfo env id_token = ConnectionFailed msg).

(** The provider answers, and what it answers cannot be used: an HTTP
    error status or a body that is not JSON from Apple's key endpoint, a
    200 with a body that is not JSON from Google. [requests] raises a
    [RequestException] for these, as it does for a provider out of
    reach. *)
Definition provider_unusable (env : Env) (provider id_token : string) : Prop :=
  (provider = "apple"
   ∧ ∃ status body,
       apple_keys env = HttpResponse status body
       ∧ ((400 ≤ status < 600)%Z ∨ body = None))
  ∨ (provider = "google" ∧ google_tokeninfo env id_token = HttpResponse 200 None).

(** The provider answers and the token is not a valid one, with the
    message the verifier gives: for Apple, the header or the token cannot
    be decoded, or no key (or an empty one) has the header's key id; for
    Google, the verdict is not a 200, or its audience or its issuer is not
    the expected one. *)
Definition token_rejected (env : Env) (provider id_token msg : string) : Prop :=
  (provider = "apple"
   ∧ ∃ status keys,
       apple_keys env = HttpResponse status (Some keys)
       ∧ ¬ (400 ≤ status < 600)%Z
       ∧ ((∃ m, jwt_get_unverified_header env id_token = inl m
                ∧ msg = "Invalid Apple token: " +:+ m)
          ∨ ∃ header,
              jwt_get_unverified_header env id_token = inr header
              ∧ ((head (filter (λ k : gmap string string, k !! "kid" = header !! "kid")
                          keys) = None
                  ∨ head (filter (λ k : gmap string string,
                                    k !! "kid" = header !! "kid") keys) = Some ∅)
                 ∧ msg = "Apple public key not found"
                 ∨ ∃ key m,
                     head (filter (λ k : gmap string string,
                                     k !! "kid" = header !! "kid") keys) = Some key
                     ∧ key ≠ ∅
                     ∧ jwt_decode env id_token key
                         (if Py.truthy (APPLE_CLIENT_ID env)
                          then APPLE_CLIENT_ID env else "com.hearsay.app")
                         "https://appleid.apple.com" = inl m
                     ∧ msg = "Invalid Apple token: " +:+ m)))
  ∨ (provider = "google"
     ∧ ((∃ status body,
           google_tokeninfo env id_token = HttpResponse status body
           ∧ status ≠ 200%Z
           ∧ msg = "Invalid Google token")
        ∨ ∃ payload,
            google_tokeninfo env id_token = HttpResponse 200 (Some payload)
            ∧ (Py.truthy (GOOGLE_CLIENT_ID env) = true
               ∧ payload !! "aud" ≠ Some (GOOGLE_CLIENT_ID env)
               ∧ msg = "Invalid Google token audience"
               ∨ (Py.truthy (GOOGLE_CLIENT_ID env) = false
                  ∨ payload !! "aud" = Some (GOOGLE_CLIENT_ID env))
                 ∧ (payload !! "iss"
                      ∉ [Some "accounts.google.com"; Some "https://accounts.google.com"])
                 ∧ msg = "Invalid Google token issuer"))).

Definition provider_name (provider : string) : string :=
  if String.eqb provider "apple" then "Apple" else "Google".

(** A computation that never changes the world, whatever its outcome. *)
Definition read_only {A} (m : M A) : Prop :=
  ∀ env w r w1, m env w = (r, w1) → w1 = w.

(** A statement of the username loop. *)
Definition is_exists_stmt (s : Stmt) : Prop := ∃ n, s = ExistsUserByUsername n.

(** The store does not refuse the resolution of the assertion: an
    account carries its (provider, subject id); or none does, its email is
    not empty and the account with that email can take the subject id; or
    no account has its (provider, subject id), its email or its subject id,
    and one of the first [fuel] generated usernames is free. *)
Definition resolvable (env : Env) (fuel : nat) (user_info : SSOUserInfo.t)
    (w : World) : Prop :=
  (∃ a, a ∈ users w ∧ sso_match user_info a)
  ∨ ((∀ a, a ∈ users w → ¬ sso_match user_info a)
     ∧ Py.truthy (SSOUserInfo.email user_info) = true
     ∧ ∃ b, b ∈ users w ∧ User.email b = SSOUserInfo.email user_info
            ∧ ¬ sso_id_held_elsewhere user_info b (users w))
  ∨ ((∀ a, a ∈ users w → ¬ sso_match user_info a)
     ∧ (∀ a, a ∈ users w → User.email a ≠ SSOUserInfo.email user_info)
     ∧ (∀ a, a ∈ users w → User.sso_id a ≠ Some (SSOUserInfo.sso_id user_info))
     ∧ ∃ k, (k < fuel)%nat
            ∧ ¬ taken (users w)
                  (candidate env (email_or_user user_info) (drawn w + 6 * k))).

(** ** Example data *)

Module Example.

(** Alice signed in with Google before; Bob registered without SSO. *)
Definition alice : User.t :=
  User.mk 1 "alice_k3x9qa" "alice@example.com" "Alice" "Liddell"
    "!Zq0" (Some "google") (Some "sub-123") true.
Definition bob : User.t :=
  User.mk 2 "bob_77aa01" "bob@example.com" "Bob" EmptyString
    "pbkdf2_sha256$x" None None false.

Definition store : World := mkWorld [alice; bob] [] [] 0.

(** Apple serves one key and the token [tok] verifies under it as subject
    [sub-123] of carol@example.com; Google answers for [tok] with subject
    [sub-900] of bob@example.com. The database never fails. *)
Definition env : Env :=
  mkEnv false EmptyString EmptyString
    (fun n => 7 * n + 3)%nat
    (fun _ => false)
    (HttpResponse 200 (Some [{[ "kid" := "k1" ]}]))
    (fun _ => HttpResponse 200
                (Some {[ "iss" := "accounts.google.com"; "sub" := "sub-900";
                         "email" := "bob@example.com" ]}))
    (fun _ => inr {[ "kid" := "k1" ]})
    (fun _ _ _ _ => inr {[ "sub" := "sub-123"; "email" := "carol@example.com" ]})
    (fun _ => ("access", "refresh")).

(** The same, with both identity providers out of reach. *)
Definition env_unreachable : Env :=
  mkEnv false EmptyString EmptyString (entropy env) (db_fault env)
    (ConnectionFailed "timed out") (fun _ => ConnectionFailed "timed out")
    (jwt_get_unverified_header env) (jwt_decode env) (RefreshToken_for_user env).

(** The same, with a token neither provider accepts. *)
Definition env_invalid : Env :=
  mkEnv false EmptyString EmptyString (entropy env) (db_fault env)
    (apple_keys env) (fun _ => HttpResponse 400 None)
    (fun _ => inl "Error decoding token headers.") (jwt_decode env)
    (RefreshToken_for_user env).

(** The same as [env], with the connection lost at the statement of
    index [n]. *)
Definition env_outage (n : nat) : Env :=
  mkEnv false EmptyString EmptyString (entropy env) (fun i => i =? n)%nat
    (apple_keys env) (google_tokeninfo env)
    (jwt_get_unverified_header env) (jwt_decode env) (RefreshToken_for_user env).

(** Assertions: Alice again; Apple subject [sub-123] with Bob's address;
    the same subject with an unknown address; a new Google user. *)
Definition alice_again : SSOUserInfo.t :=
  SSOUserInfo.mk "google" "sub-123" "alice@example.com" None None.
Definition apple_bob : SSOUserInfo.t :=
  SSOUserInfo.mk "apple" "sub-123" "bob@example.com" None None.
Definition google_bob : SSOUserInfo.t :=
  SSOUserInfo.mk "google" "sub-900" "bob@example.com" None None.
Definition apple_carol : SSOUserInfo.t :=
  SSOUserInfo.mk "apple" "sub-123" "carol@example.com" None None.
Definition google_dave : SSOUserInfo.t :=
  SSOUserInfo.mk "google" "sub-456" "dave@example.com" (Some "Dave") None.

Definition request (provider : string) : SsoRequest.t :=
  SsoRequest.mk (Some provider) (Some "tok") None None None false.

End Example.

(** ** Vocabulary of the further properties *)

(** Whatever the computation returns satisfies [P]. *)
Definition yields {A} (P : A → Prop) (m : M A) : Prop :=
  ∀ env w a w1, m env w = (Returned a, w1) → P a.

(** A request that passes the two checks at the head of
    [sso_authenticate]. *)
Definition valid_sso_request (request : SsoRequest.t) : Prop :=
  ∃ provider id_token,
    SsoRequest.provider request = Some provider
    ∧ provider ∈ ["apple"; "google"]
    ∧ SsoRequest.id_token request = Some id_token
    ∧ Py.truthy id_token = true.

(** Google answers 200 with a verdict that has an issuer and no subject. *)
Definition env_no_subject : Env :=
  mkEnv false EmptyString EmptyString (λ n, n) (λ _, false)
    (ConnectionFailed "down")
    (λ _, HttpResponse 200 (Some {[ "iss" := "accounts.google.com" ]}))
    (λ _, inl "none") (λ _ _ _ _, inl "none")
    (λ _, ("access", "refresh")).


(** The text [HH:MM] of a time of day, two decimal digits each. *)
Definition two_digits (n : nat) : string :=
  String (ascii_of_nat (48 + n / 10))
    (String (ascii_of_nat (48 + n `mod` 10)) EmptyString).
Definition hh_mm (hour minute : nat) : string :=
  two_digits hour +:+ ":" +:+ two_digits minute.

(** What [parse_time] makes of a text, seen as a function of the text. *)
Definition parsed_time (s : string) : outcome (option (Z * Z)) :=
  match Py.split ":" s with
  | p0 :: p1 :: _ =>
      match PyInt.int p0, PyInt.int p1 with
      | Some hour, Some minute =>
          if negb (OnboardingViews.fits_c_int hour
                   && OnboardingViews.fits_c_int minute)
          then Raised OverflowError
          else if bool_decide (0 ≤ hour ≤ 23)%Z && bool_decide (0 ≤ minute ≤ 59)%Z
          then Returned (Some (hour, minute)) else Returned None
      | _, _ => Returned None
      end
  | _ => Returned None
  end.

(** The first two parts of a text, split at the colons, are integers of
    which one does not fit a C [int]. *)
Definition overflowing_time (time_str : json) : Prop :=
  ∃ s p0 p1 rest hour minute,
    time_str = JStr s
    ∧ Py.split ":" s = p0 :: p1 :: rest
    ∧ PyInt.int p0 = Some hour
    ∧ PyInt.int p1 = Some minute
    ∧ OnboardingViews.fits_c_int hour && OnboardingViews.fits_c_int minute = false.

(** The profile row of [user], as the ORM looks it up. *)
Definition profile_of (user : User.t) (rows : list UserProfile.t)
    : option UserProfile.t :=
  head (filter (λ p, UserProfile.user_id p = User.id user) rows).

(** The constraints of the profile table: distinct primary keys, and at
    most one profile per user (the one-to-one relation of the model). *)
Definition profiles_consistent (rows : list UserProfile.t) : Prop :=
  NoDup (UserProfile.id <$> rows) ∧ NoDup (UserProfile.user_id <$> rows).

(** [user] with the onboarding flag set. *)
Definition onboarded (user : User.t) : User.t :=
  User.mk (User.id user) (User.username user) (User.email user)
    (User.first_name user) (User.last_name user) (User.password user)
    (User.sso_provider user) (User.sso_id user) true.

(** The table after the UPDATE that sets the flag on [user]'s row. *)
Definition flag_onboarded (user : User.t) (rows : list User.t) : list User.t :=
  (λ r, if bool_decide (User.id r = User.id user) then onboarded r else r) <$> rows.

(** What the view stores as [sessions_per_week] for a request body. *)
Definition sessions_stored (data : gmap string json) : Z :=
  match Json.as_int (default (JInt 3) (data !! "sessions_per_week")) with
  | Some n => if (n <? 1)%Z || (n >? 7)%Z then 3%Z else n
  | None => 3%Z
  end.

(** A request body that passes the three checks of [complete_onboarding]:
    a supported target language, an integer score in 0..5 (0 when absent)
    and goals that are a list (the empty one when absent). *)
Definition valid_onboarding_request (data : gmap string json)
    (target_language : string) (quiz_score : Z) : Prop :=
  data !! "target_language" = Some (JStr target_language)
  ∧ target_language ∈ ["es"; "fr"]
  ∧ Json.as_int (default (JInt 0) (data !! "quiz_score")) = Some quiz_score
  ∧ (0 ≤ quiz_score ≤ 5)%Z
  ∧ Json.is_list (default (JList []) (data !! "goals")) = true.

(** A request body of a new learner of French who scored 4 of 5 and asks
    for a reminder at 07:30. *)
Definition french_learner : gmap string json :=
  {[ "target_language" := JStr "fr"; "quiz_score" := JInt 4;
     "sessions_per_week" := JInt 9; "reminder_time" := JStr "07:30" ]}.


(** Bob's profile, as a first attempt at onboarding that failed after the
    profile was written has left it; and the store holding it. *)
Definition bob_profile : UserProfile.t :=
  UserProfile.mk 1 2 "es" "en" "beginner" (JList []) 3 15 true None "UTC"
    0 0 0 0 None.
Definition store_with_profile : World :=
  mkWorld [Example.alice; Example.bob] [bob_profile] [] 0.

(** [user] as [update_current_user] holds it after the assignments. *)
Definition renamed (data : gmap string string) (user : User.t) : User.t :=
  User.mk (User.id user) (User.username user) (User.email user)
    (default (User.first_name user) (data !! "first_name"))
    (default (User.last_name user) (data !! "last_name"))
    (User.password user) (User.sso_provider user) (User.sso_id user)
    (User.onboarding_completed user).

(** A request that tries to change more than the names. *)
Definition rename_and_more : gmap string string :=
  {[ "first_name" := "Robert"; "email" := "root@example.com";
     "onboarding_completed" := "true"; "sso_id" := "sub-123" ]}.

(** The table after the UPDATE that writes the names given in [data] to
    the rows with [user]'s primary key. *)
Definition rename_rows (data : gmap string string) (user : User.t)
    (rows : list User.t) : list User.t :=
  (λ row, if bool_decide (User.id row = User.id user) then renamed data row else row)
    <$> rows.

(** What [UserSerializer] shows of [user] when the profile table is [rows]. *)
Definition serialized (user : User.t) (rows : list UserProfile.t) : UserData.t :=
  UserData.mk (User.id user) (User.email user) (User.username user)
    (User.first_name user) (User.last_name user) (User.sso_provider user)
    (User.onboarding_completed user) (profile_of user rows).

(** The settings of a development server. *)
Definition env_debug : Env :=
  mkEnv true EmptyString EmptyString (λ n, n) (λ _, false)
    (ConnectionFailed "offline") (λ _, ConnectionFailed "offline")
    (λ _, inl "none") (λ _ _ _ _, inl "none")
    (λ _, ("access", "refresh")).

(** ** Python built-ins: facts *)

Lemma split_at_head email :
  ∃ rest, Py.split "@" email = local_part email :: rest.
Proof.
  induction email as [|c s [rest IH]]; simpl; [by exists []|].
  destruct (Ascii.eqb c "@"); [by eexists|].
  rewrite IH. by eexists.
Qed.

Lemma split_at_item0 email :
  Py.item (Py.split "@" email) 0 = Some (local_part email).
Proof. destruct (split_at_head email) as [rest ->]. reflexivity. Qed.

Lemma local_part_spec email :
  ∃ rest, email = local_part email +:+ rest
          ∧ (rest = EmptyString ∨ ∃ r, rest = String "@" r)
          ∧ ∀ i, String.get i (local_part email) ≠ Some "@"%char.
Proof.
  induction email as [|c s (rest & Hs & Hrest & Hno)]; simpl.
  - exists EmptyString. split_and!; [done | by left | by intros []].
  - destruct (Ascii.eqb c "@") eqn:Hc.
    + apply Ascii.eqb_eq in Hc. subst. exists (String "@" s).
      split_and!; [done | right; eauto | by intros []].
    + exists rest. split_and!; [|done|].
      { change (String c s = String c (local_part s +:+ rest)). by rewrite <- Hs. }
      intros [|i]; simpl; [|apply Hno].
      intros [= ->]. by rewrite Ascii.eqb_refl in Hc.
Qed.

Lemma slice_to_length n s :
  String.length (Py.slice_to n s) = n `min` String.length s.
Proof.
  revert s. induction n as [|n IH]; intros [|c s]; simpl; auto.
Qed.

Lemma slice_to_prefix n s : ∃ rest, s = Py.slice_to n s +:+ rest.
Proof.
  revert s. induction n as [|n IH]; intros [|c s]; simpl; eauto.
  destruct (IH s) as [rest Hrest]. exists rest.
  change (String c s = String c (Py.slice_to n s +:+ rest)). by rewrite <- Hrest.
Qed.

Lemma get_lt i s : (i < String.length s)%nat → is_Some (String.get i s).
Proof.
  revert i. induction s as [|c s IH]; simpl; intros i Hi; [lia|].
  destruct i; simpl; [eauto | apply IH; lia].
Qed.

Lemma get_pick seq r :
  seq ≠ EmptyString →
  String.get (r `mod` String.length seq) seq = Some (pick seq r).
Proof.
  intros Hseq. unfold pick.
  destruct (get_lt (r `mod` String.length seq) seq) as [c ->]; [|done].
  apply Nat.mod_upper_bound. by destruct seq.
Qed.

(** ** Running computations *)

Lemma bind_returned {A B} (m : M A) (k : A → M B) env w a w1 :
  m env w = (Returned a, w1) → bind m k env w = k a env w1.
Proof. unfold bind. by intros ->. Qed.

Lemma bind_raised {A B} (m : M A) (k : A → M B) env w e w1 :
  m env w = (Raised e, w1) → bind m k env w = (Raised e, w1).
Proof. unfold bind. by intros ->. Qed.

Lemma bind_inv {A B} (m : M A) (k : A → M B) env w r w' :
  bind m k env w = (r, w') →
  (∃ a w1, m env w = (Returned a, w1) ∧ k a env w1 = (r, w'))
  ∨ (∃ e, m env w = (Raised e, w') ∧ r = Raised e)
  ∨ (m env w = (Diverged, w') ∧ r = Diverged).
Proof.
  unfold bind. destruct (m env w) as [[a|e|] w1]; intros H.
  - left. eauto.
  - right. left. inversion H. eauto.
  - right. right. by inversion H.
Qed.

Lemma statement_run s env w :
  Orm.statement s env w
  = (if db_fault env (length (trace w)) then Raised OperationalError else Returned tt,
     log s w).
Proof. unfold Orm.statement, log. by destruct (db_fault _ _). Qed.

Lemma statement_healthy s env w :
  healthy env → Orm.statement s env w = (Returned tt, log s w).
Proof. intros H. by rewrite statement_run, H. Qed.

Lemma choice_run alphabet env w :
  alphabet ≠ EmptyString →
  Secrets.choice alphabet env w
  = (Returned (pick alphabet (entropy env (drawn w))), draw 1 w).
Proof.
  intros Ha. unfold Secrets.choice, bind, Secrets.randbelow.
  by rewrite (get_pick _ _ Ha).
Qed.

Lemma repeat_choice_run n alphabet env w :
  alphabet ≠ EmptyString →
  repeatM n (Secrets.choice alphabet) env w
  = (Returned (picks env alphabet (drawn w) n), draw n w).
Proof.
  intros Ha. revert w. induction n as [|n IH]; intros w.
  - by destruct w.
  - cbn [repeatM]. rewrite (bind_returned _ _ _ _ _ _ (choice_run _ _ _ Ha)).
    rewrite (bind_returned _ _ _ _ _ _ (IH _)).
    unfold ret, draw, picks. cbn. do 2 f_equal. lia.
Qed.

Lemma generate_username_run email env w :
  UsersViews.generate_username email env w
  = (Returned (candidate env email (drawn w)), draw 6 w).
Proof.
  unfold UsersViews.generate_username. rewrite split_at_item0.
  erewrite bind_returned; [|by apply repeat_choice_run].
  reflexivity.
Qed.

Lemma set_unusable_password_run u env w :
  Orm.set_unusable_password u env w
  = (Returned (with_password (unusable_password env (drawn w)) u), draw 40 w).
Proof.
  unfold Orm.set_unusable_password.
  erewrite bind_returned; [|by apply repeat_choice_run].
  reflexivity.
Qed.

(** ** [QuerySet.first] *)

Lemma first_cons a rows :
  Orm.first (a :: rows)
  = match Orm.first rows with
    | Some v => if (User.id v <? User.id a)%nat then Some v else Some a
    | None => Some a
    end.
Proof. reflexivity. Qed.

Lemma first_nil_iff rows : Orm.first rows = None ↔ rows = [].
Proof.
  destruct rows as [|u rows]; [done|]. split; [|done].
  rewrite first_cons. by destruct (Orm.first rows) as [v|]; [destruct (_ <? _)%nat|].
Qed.

Lemma first_elem_of rows u : Orm.first rows = Some u → u ∈ rows.
Proof.
  revert u. induction rows as [|a rows IH]; intros u; [done|].
  rewrite first_cons. destruct (Orm.first rows) as [v|].
  - destruct (_ <? _)%nat; intros [= <-]; [right; by apply IH | left].
  - intros [= <-]. left.
Qed.

Lemma first_least rows u v :
  Orm.first rows = Some u → v ∈ rows → (User.id u ≤ User.id v)%nat.
Proof.
  revert u. induction rows as [|a rows IH]; intros u Hu Hv; [by inversion Hv|].
  rewrite first_cons in Hu.
  destruct (Orm.first rows) as [x|] eqn:Hx.
  - destruct (User.id x <? User.id a)%nat eqn:Hlt; injection Hu as <-.
    + apply Nat.ltb_lt in Hlt. inversion Hv; subst; [lia | by apply IH].
    + apply Nat.ltb_ge in Hlt. inversion Hv; subst; [lia|].
      specialize (IH x eq_refl ltac:(done)). lia.
  - injection Hu as <-. apply first_nil_iff in Hx. subst.
    inversion Hv; subst; [lia | by exfalso; eapply not_elem_of_nil].
Qed.

Lemma first_all_eq rows u :
  u ∈ rows → (∀ v, v ∈ rows → v = u) → Orm.first rows = Some u.
Proof.
  intros Hu Hall. destruct (Orm.first rows) as [x|] eqn:Hx.
  - f_equal. apply Hall. by apply first_elem_of.
  - apply first_nil_iff in Hx. subst. by inversion Hu.
Qed.

(** ** Consistent tables *)

Lemma consistent_eq rows a b :
  consistent rows → a ∈ rows → b ∈ rows → same_key a b → a = b.
Proof.
  intros Hc [i Hi]%list_elem_of_lookup [j Hj]%list_elem_of_lookup Hk.
  assert (i = j) by eauto. subst. congruence.
Qed.

Lemma next_id_fresh rows u : u ∈ rows → (User.id u < Orm.next_id rows)%nat.
Proof.
  intros Hu. unfold Orm.next_id.
  assert (User.id u ≤ max_list (User.id <$> rows))%nat; [|lia].
  apply max_list_elem_of_le, list_elem_of_fmap. eauto.
Qed.

(** ** The ORM operations, run *)

Lemma filter_sso_first_run p s env w :
  Orm.filter_sso_first p s env w
  = (if db_fault env (length (trace w)) then Raised OperationalError
     else Returned (Orm.first (filter (λ u, User.sso_provider u = Some p
                                            ∧ User.sso_id u = Some s) (users w))),
     log (SelectUserBySso p s) w).
Proof.
  unfold Orm.filter_sso_first, bind. rewrite statement_run.
  by destruct (db_fault _ _).
Qed.

Lemma filter_email_first_run email env w :
  Orm.filter_email_first email env w
  = (if db_fault env (length (trace w)) then Raised OperationalError
     else Returned (Orm.first (filter (λ u, User.email u = email) (users w))),
     log (SelectUserByEmail email) w).
Proof.
  unfold Orm.filter_email_first, bind. rewrite statement_run.
  by destruct (db_fault _ _).
Qed.

Lemma filter_username_exists_run username env w :
  Orm.filter_username_exists username env w
  = (if db_fault env (length (trace w)) then Raised OperationalError
     else Returned (bool_decide (taken (users w) username)),
     log (ExistsUserByUsername username) w).
Proof.
  unfold Orm.filter_username_exists, bind. rewrite statement_run.
  by destruct (db_fault _ _).
Qed.

Lemma create_run username email first_name last_name sso_provider sso_id env w :
  let row := User.mk (Orm.next_id (users w)) username email first_name last_name
               EmptyString sso_provider sso_id false in
  Orm.create username email first_name last_name sso_provider sso_id env w
  = if db_fault env (length (trace w))
    then (Raised OperationalError, log (InsertUser row) w)
    else if existsb (User.collides User.columns row) (users w)
         then (Raised IntegrityError, log (InsertUser row) w)
         else (Returned row, with_users (users w ++ [row]) (log (InsertUser row) w)).
Proof.
  intros row. unfold Orm.create, bind, get_world. rewrite statement_run.
  destruct (db_fault _ _); [done|].
  change (users (log (InsertUser row) w)) with (users w).
  by destruct (existsb _ _).
Qed.

Lemma save_run fields u env w :
  fields ≠ [] →
  ∀ update_fields, update_fields = None ∧ fields = User.columns
                   ∨ update_fields = Some fields →
  Exists (λ r, User.id r = User.id u) (users w) →
  Orm.save update_fields u env w
  = if db_fault env (length (trace w))
    then (Raised OperationalError, log (UpdateUser fields u) w)
    else if existsb (User.collides fields u)
              (filter (λ r, User.id r ≠ User.id u) (users w))
         then (Raised IntegrityError, log (UpdateUser fields u) w)
         else (Returned tt,
               with_users ((λ r, if bool_decide (User.id r = User.id u)
                                 then User.assign fields u r else r) <$> users w)
                 (log (UpdateUser fields u) w)).
Proof.
  intros Hne update_fields Hf Hex.
  assert (Orm.save update_fields u env w
          = bind (Orm.statement (UpdateUser fields u))
              (fun _ => bind get_world (fun w =>
                 if bool_decide (Exists (λ r, User.id r = User.id u) (users w)) then
                   if existsb (User.collides fields u)
                        (filter (λ r, User.id r ≠ User.id u) (users w))
                   then raise IntegrityError
                   else Orm.set_users
                          ((λ r, if bool_decide (User.id r = User.id u)
                                 then User.assign fields u r else r) <$> users w)
                 else match update_fields with
                      | Some _ => raise DatabaseError
                      | None =>
                          bind (Orm.statement (InsertUser u))
                            (fun _ => if existsb (User.collides User.columns u) (users w)
                                      then raise IntegrityError
                                      else Orm.set_users (users w ++ [u]))
                      end)) env w) as ->.
  { destruct Hf as [[-> ->]| ->]; [done|]. by destruct fields. }
  unfold bind, get_world. rewrite statement_run.
  destruct (db_fault _ _); [done|].
  change (users (log (UpdateUser fields u) w)) with (users w).
  rewrite bool_decide_eq_true_2 by done.
  by destruct (existsb _ _).
Qed.

(** ** Columns written and unique columns *)

Lemma assign_sso src dst :
  User.assign ["sso_provider"; "sso_id"] src dst
  = User.mk (User.id dst) (User.username dst) (User.email dst)
      (User.first_name dst) (User.last_name dst) (User.password dst)
      (User.sso_provider src) (User.sso_id src) (User.onboarding_completed dst).
Proof. reflexivity. Qed.

Lemma assign_columns src dst :
  User.id src = User.id dst → User.assign User.columns src dst = src.
Proof. destruct src. cbn. by intros ->. Qed.

Lemma collides_sso new other :
  User.collides ["sso_provider"; "sso_id"] new other
  = match User.sso_id new with
    | Some s => bool_decide (User.sso_id other = Some s)
    | None => false
    end.
Proof. reflexivity. Qed.

Lemma collides_columns new other :
  User.collides User.columns new other = true
  ↔ User.username other = User.username new
    ∨ User.email other = User.email new
    ∨ ∃ s, User.sso_id new = Some s ∧ User.sso_id other = Some s.
Proof.
  unfold User.collides.
  change (bool_decide ("username" ∈ User.columns)) with true.
  change (bool_decide ("email" ∈ User.columns)) with true.
  change (bool_decide ("sso_id" ∈ User.columns)) with true.
  cbn [andb]. rewrite !orb_true_iff, !String.eqb_eq.
  destruct (User.sso_id new) as [s|].
  - rewrite bool_decide_eq_true. split.
    + intros [[?|?]|?]; eauto.
    + intros [?|[?|(s' & [= <-] & ?)]]; auto.
  - split.
    + intros [[?|?]|?]; [auto | auto | done].
    + intros [?|[?|(s' & ? & ?)]]; [auto | auto | done].
Qed.

Lemma existsb_false {A} (f : A → bool) l :
  existsb f l = false ↔ ∀ x, x ∈ l → f x = false.
Proof.
  induction l as [|a l IH]; cbn.
  - split; [intros _ x Hx; inversion Hx | done].
  - rewrite orb_false_iff, IH. split.
    + intros [Ha Hl] x Hx. inversion Hx; subst; auto.
    + intros H. split; [apply H; left | intros x Hx; apply H; by right].
Qed.

Lemma existsb_true {A} (f : A → bool) l :
  existsb f l = true ↔ ∃ x, x ∈ l ∧ f x = true.
Proof.
  rewrite existsb_exists. by setoid_rewrite list_elem_of_In.
Qed.

Lemma filter_all {A} (P : A → Prop) `{∀ x, Decision (P x)} (l : list A) :
  (∀ x, x ∈ l → P x) → filter P l = l.
Proof.
  induction l as [|a l IH]; intros Hall; [done|].
  rewrite filter_cons_True by (apply Hall; left).
  f_equal. apply IH. intros x Hx. apply Hall. by right.
Qed.

Lemma filter_none {A} (P : A → Prop) `{∀ x, Decision (P x)} (l : list A) :
  (∀ x, x ∈ l → ¬ P x) → filter P l = [].
Proof.
  induction l as [|a l IH]; intros Hall; [done|].
  rewrite filter_cons_False by (apply Hall; left).
  apply IH. intros x Hx. apply Hall. by right.
Qed.

Lemma filter_others_fresh rows row :
  User.id row = Orm.next_id rows →
  filter (λ r, User.id r ≠ User.id row) (rows ++ [row])%list = rows.
Proof.
  intros Hid. rewrite filter_app, filter_cons_False, filter_nil, app_nil_r by tauto.
  apply filter_all. intros r Hr%next_id_fresh. lia.
Qed.

Lemma replace_fresh rows row (f : User.t → User.t) :
  User.id row = Orm.next_id rows →
  (λ r, if bool_decide (User.id r = User.id row) then f r else r) <$> (rows ++ [row])%list
  = (rows ++ [f row])%list.
Proof.
  intros Hid. rewrite fmap_app. cbn. rewrite bool_decide_eq_true_2 by done.
  f_equal. rewrite <- (list_fmap_id rows) at 2. apply list_fmap_ext.
  intros i r Hr%list_elem_of_lookup_2%next_id_fresh.
  rewrite bool_decide_eq_false_2; [done | lia].
Qed.

(** ** Traces *)

Lemma lookups_app t1 t2 : lookups (t1 ++ t2)%list = (lookups t1 + lookups t2)%nat.
Proof. unfold lookups. by rewrite filter_app, length_app. Qed.

Lemma writes_app t1 t2 : writes (t1 ++ t2)%list = (writes t1 ++ writes t2)%list.
Proof. apply List.filter_app. Qed.

Lemma writes_log s w :
  writes (trace (log s w))
  = (writes (trace w) ++ if is_write s then [s] else [])%list.
Proof.
  change (trace (log s w)) with (trace w ++ [s])%list. rewrite writes_app.
  f_equal.
Qed.

Lemma lookups_exists t : Forall is_exists_stmt t → lookups t = 0%nat.
Proof.
  induction 1 as [|s t [n ->] _ IH]; [done|].
  change (_ :: t) with ([ExistsUserByUsername n] ++ t)%list.
  by rewrite (lookups_app [_] t), IH.
Qed.

Lemma writes_exists t : Forall is_exists_stmt t → writes t = [].
Proof. induction 1 as [|s t [n ->] _ IH]; [done|]. exact IH. Qed.

(** ** The username loop *)

Lemma while_username_exists_inv fuel e env name w r w' :
  (∃ start, name = candidate env e start) →
  UsersViews.while_username_exists fuel e name env w = (r, w') →
  users w' = users w ∧ profiles w' = profiles w
  ∧ (∃ t, trace w' = (trace w ++ t)%list ∧ Forall is_exists_stmt t)
  ∧ match r with
    | Returned n => ¬ taken (users w) n ∧ ∃ start, n = candidate env e start
    | Raised err => err = OperationalError ∧ ¬ healthy env
    | Diverged => True
    end.
Proof.
  revert name w. induction fuel as [|fuel IH]; intros name w Hname Hrun.
  - injection Hrun as <- <-. split_and!; [done..| |done].
    exists []. by rewrite app_nil_r.
  - cbn [UsersViews.while_username_exists] in Hrun. unfold bind at 1 in Hrun.
    rewrite filter_username_exists_run in Hrun.
    destruct (db_fault env _) eqn:Hdb.
    { injection Hrun as <- <-. split_and!; [done | done | | done |].
      - exists [ExistsUserByUsername name]. split; [done|].
        repeat constructor. by exists name.
      - intros Hh. by rewrite Hh in Hdb. }
    destruct (bool_decide (taken (users w) name)) eqn:Htaken.
    + unfold bind at 1 in Hrun. rewrite generate_username_run in Hrun.
      apply IH in Hrun as (Hu & Hp & (t & Ht & Hall) & Hr); [|by eexists].
      split_and!; [exact Hu | exact Hp | | exact Hr].
      exists (ExistsUserByUsername name :: t). split.
      * rewrite Ht. cbn. by rewrite <- app_assoc.
      * constructor; [by exists name | done].
    + injection Hrun as <- <-. apply bool_decide_eq_false in Htaken.
      split_and!; [done | done | | done | done].
      exists [ExistsUserByUsername name]. split; [done|].
      repeat constructor. by exists name.
Qed.

Lemma while_username_exists_returns env e k :
  healthy env →
  ∀ fuel start w,
    (k < fuel)%nat → drawn w = (start + 6)%nat →
    ¬ taken (users w) (candidate env e (start + 6 * k)) →
    ∃ n w', UsersViews.while_username_exists fuel e (candidate env e start) env w
            = (Returned n, w').
Proof.
  intros Henv. induction k as [|k IH]; intros [|fuel] start w Hk Hdrawn Hfree; try lia.
  - cbn [UsersViews.while_username_exists]. unfold bind at 1.
    rewrite filter_username_exists_run, Henv.
    rewrite Nat.mul_0_r, Nat.add_0_r in Hfree.
    rewrite bool_decide_eq_false_2 by done. by eexists _, _.
  - cbn [UsersViews.while_username_exists]. unfold bind at 1.
    rewrite filter_username_exists_run, Henv.
    destruct (bool_decide _); [|by eexists _, _].
    unfold bind at 1. rewrite generate_username_run.
    change (drawn (log _ w)) with (drawn w). rewrite Hdrawn.
    apply IH; [lia | cbn; lia |].
    change (users (draw 6 (log _ w))) with (users w).
    by replace (start + 6 + 6 * k)%nat with (start + 6 * S k)%nat by lia.
Qed.

(** ** Provisioning, for every run *)

Lemma has_unusable_password env start u :
  User.has_usable_password (with_password (unusable_password env start) u) = false.
Proof. reflexivity. Qed.

Lemma create_new_user_inv fuel info env w r w' :
  UsersViews.create_new_user fuel info env w = (r, w') →
  profiles w' = profiles w
  ∧ lookups (trace w') = lookups (trace w)
  ∧ ((users w' = users w
      ∧ (r = Diverged
           ∧ UsersViews.while_username_exists fuel (email_or_user info)
               (candidate env (email_or_user info) (drawn w)) env (draw 6 w)
             = (Diverged, w')
         ∨ r = Raised OperationalError ∧ ¬ healthy env
         ∨ r = Raised IntegrityError
           ∧ ∃ name, ¬ taken (users w) name
                     ∧ existsb (User.collides User.columns
                                  (inserted_row (users w) info name)) (users w) = true
                     ∧ writes (trace w')
                       = (writes (trace w)
                          ++ [InsertUser (inserted_row (users w) info name)])%list))
     ∨ ∃ name start pstart,
         let row := inserted_row (users w) info name in
         let u := with_password (unusable_password env pstart) row in
         name = candidate env (email_or_user info) start
         ∧ ¬ taken (users w) name
         ∧ existsb (User.collides User.columns row) (users w) = false
         ∧ writes (trace w')
           = (writes (trace w) ++ [InsertUser row; UpdateUser User.columns u])%list
         ∧ (r = Raised OperationalError ∧ ¬ healthy env
              ∧ users w' = (users w ++ [row])%list
            ∨ r = Returned u ∧ users w' = (users w ++ [u])%list)).
Proof.
  unfold UsersViews.create_new_user. fold (email_or_user info).
  intros Hrun. unfold bind at 1 in Hrun. rewrite generate_username_run in Hrun.
  unfold bind at 1 in Hrun.
  destruct (UsersViews.while_username_exists _ _ _ _ _) as [r1 w1] eqn:Hloop.
  apply while_username_exists_inv in Hloop
    as (Hu1 & Hp1 & (t & Ht & Hall) & Hr1); [|by eexists].
  change (users (draw 6 w)) with (users w) in *.
  change (profiles (draw 6 w)) with (profiles w) in *.
  change (trace (draw 6 w)) with (trace w) in *.
  assert (Hl1 : lookups (trace w1) = lookups (trace w)).
  { rewrite Ht, lookups_app, (lookups_exists t) by done. lia. }
  assert (Hw1 : writes (trace w1) = writes (trace w)).
  { by rewrite Ht, writes_app, (writes_exists t), app_nil_r. }
  destruct r1 as [name|e|].
  2:{ injection Hrun as <- <-. destruct Hr1 as [-> ?].
      split_and!; [done..|]. left. split; [done|]. right. left. done. }
  2:{ injection Hrun as <- <-. split_and!; [done..|]. left. split; [done|].
      left. done. }
  destruct Hr1 as [Hfree [start Hstart]].
  unfold bind at 1 in Hrun. rewrite create_run in Hrun.
  rewrite Hu1 in Hrun. fold (inserted_row (users w) info name) in Hrun.
  set (row := inserted_row (users w) info name) in *.
  assert (Hl2 : ∀ s, lookups (trace (log (InsertUser s) w1)) = lookups (trace w)).
  { intros s. change (trace (log (InsertUser s) w1)) with (trace w1 ++ [InsertUser s])%list.
    rewrite lookups_app, Hl1. change (lookups [InsertUser s]) with 0%nat. lia. }
  assert (Hfault : ∀ n, db_fault env n = true → ¬ healthy env).
  { intros n Hn Hh. by rewrite Hh in Hn. }
  destruct (db_fault env (length (trace w1))) eqn:Hdb1.
  { injection Hrun as <- <-. split_and!; [done | apply Hl2 |].
    left. split; [by rewrite <- Hu1|]. right. left. eauto. }
  destruct (existsb _ (users w)) eqn:Hcol.
  { injection Hrun as <- <-. split_and!; [done | apply Hl2 |].
    left. split; [by rewrite <- Hu1|]. right. right. split; [done|].
    exists name. split_and!; [done..|]. by rewrite writes_log, Hw1. }
  unfold bind at 1 in Hrun. rewrite set_unusable_password_run in Hrun.
  unfold bind at 1 in Hrun.
  rewrite (save_run User.columns) in Hrun; [|done|by left|]; cycle 1.
  { apply Exists_exists. exists row. split; [|done].
    cbn. apply elem_of_app. right. left. }
  cbn [users with_users draw log trace profiles drawn] in Hrun.
  change (User.id (with_password _ row)) with (User.id row) in Hrun.
  rewrite filter_others_fresh, replace_fresh in Hrun by done.
  change (existsb (User.collides User.columns (with_password _ row)) (users w))
    with (existsb (User.collides User.columns row) (users w)) in Hrun.
  rewrite Hcol in Hrun.
  rewrite assign_columns in Hrun by done.
  match type of Hrun with
  | context [db_fault env ?n] => destruct (db_fault env n) eqn:Hdb2
  end; injection Hrun as <- <-.
  - split_and!; [done | |].
    + cbn [trace with_users log draw]. rewrite !lookups_app, Hl1.
      change (lookups [InsertUser row]) with 0%nat.
      change (lookups [UpdateUser _ _]) with 0%nat. lia.
    + right. exists name, start, (drawn w1). split_and!; [done..| |].
      * cbn [trace with_users log draw].
        by rewrite !writes_app, Hw1, <- app_assoc.
      * left. eauto.
  - split_and!; [done | |].
    + cbn [trace with_users log draw]. rewrite !lookups_app, Hl1.
      change (lookups [InsertUser row]) with 0%nat.
      change (lookups [UpdateUser _ _]) with 0%nat. lia.
    + right. exists name, start, (drawn w1). split_and!; [done..| |].
      * cbn [trace with_users log draw].
        by rewrite !writes_app, Hw1, <- app_assoc.
      * right. done.
Qed.


(** ** The resolver, for every run *)

Lemma link_collision user_info b rows :
  existsb (User.collides ["sso_provider"; "sso_id"] (linked user_info b))
    (filter (λ r, User.id r ≠ User.id (linked user_info b)) rows) = true
  ↔ sso_id_held_elsewhere user_info b rows.
Proof.
  rewrite existsb_true. unfold sso_id_held_elsewhere.
  split.
  - intros (r & [Hid Hr]%list_elem_of_filter & Hc).
    rewrite collides_sso in Hc. apply bool_decide_eq_true in Hc. eauto.
  - intros (r & Hr & Hid & Hs). exists r. split.
    + apply list_elem_of_filter. eauto.
    + rewrite collides_sso. by apply bool_decide_eq_true.
Qed.

Lemma filter_sso_first_by_sso user_info env w :
  Orm.filter_sso_first (SSOUserInfo.provider user_info)
    (SSOUserInfo.sso_id user_info) env w
  = (if db_fault env (length (trace w)) then Raised OperationalError
     else Returned (by_sso user_info (users w)),
     log (SelectUserBySso (SSOUserInfo.provider user_info)
            (SSOUserInfo.sso_id user_info)) w).
Proof. exact (filter_sso_first_run _ _ env w). Qed.

Lemma filter_email_first_by_email user_info env w :
  Orm.filter_email_first (SSOUserInfo.email user_info) env w
  = (if db_fault env (length (trace w)) then Raised OperationalError
     else Returned (by_email user_info (users w)),
     log (SelectUserByEmail (SSOUserInfo.email user_info)) w).
Proof. exact (filter_email_first_run _ env w). Qed.

Lemma find_or_create_user_exact fuel user_info env w u :
  db_fault env (length (trace w)) = false →
  by_sso user_info (users w) = Some u →
  UsersViews.find_or_create_user fuel user_info env w
  = (Returned u,
     log (SelectUserBySso (SSOUserInfo.provider user_info)
            (SSOUserInfo.sso_id user_info)) w).
Proof.
  intros Hdb Hu. unfold UsersViews.find_or_create_user, bind.
  by rewrite filter_sso_first_by_sso, Hdb, Hu.
Qed.

Lemma find_or_create_user_inv fuel user_info env w r w' :
  UsersViews.find_or_create_user fuel user_info env w = (r, w') →
  profiles w' = profiles w
  ∧ lookups (trace w') = S (lookups (trace w))
  ∧ ((r = Raised OperationalError ∧ users w' = users w ∧ ¬ healthy env)
     ∨ (∃ u, by_sso user_info (users w) = Some u ∧ r = Returned u
             ∧ users w' = users w ∧ writes (trace w') = writes (trace w))
     ∨ (∃ b, by_sso user_info (users w) = None
             ∧ Py.truthy (SSOUserInfo.email user_info) = true
             ∧ by_email user_info (users w) = Some b
             ∧ writes (trace w')
               = (writes (trace w)
                  ++ [UpdateUser ["sso_provider"; "sso_id"] (linked user_info b)])%list
             ∧ (r = Raised IntegrityError ∧ users w' = users w
                  ∧ sso_id_held_elsewhere user_info b (users w)
                ∨ r = Returned (linked user_info b)
                  ∧ users w' = relink user_info b (users w)
                  ∧ ¬ sso_id_held_elsewhere user_info b (users w)))
     ∨ (by_sso user_info (users w) = None
        ∧ (Py.truthy (SSOUserInfo.email user_info) = false
           ∨ by_email user_info (users w) = None)
        ∧ ∃ w2, users w2 = users w ∧ profiles w2 = profiles w
                ∧ drawn w2 = drawn w
                ∧ lookups (trace w2) = S (lookups (trace w))
                ∧ writes (trace w2) = writes (trace w)
                ∧ UsersViews.create_new_user fuel user_info env w2 = (r, w'))).
Proof.
  unfold UsersViews.find_or_create_user. intros Hrun.
  unfold bind at 1 in Hrun. rewrite filter_sso_first_by_sso in Hrun.
  set (w1 := log _ w) in Hrun.
  assert (Hl1 : lookups (trace w1) = S (lookups (trace w))).
  { unfold w1. change (trace (log ?s w)) with (trace w ++ [s])%list.
    rewrite lookups_app. change (lookups [_]) with 1%nat. lia. }
  assert (Hfault : ∀ n, db_fault env n = true → ¬ healthy env).
  { intros n Hn Hh. by rewrite Hh in Hn. }
  destruct (db_fault env (length (trace w))) eqn:Hdb0.
  { injection Hrun as <- <-. split_and!; [done..|]. left. eauto. }
  remember (by_sso user_info (users w)) as o eqn:Hsso in Hrun.
  symmetry in Hsso. destruct o as [u|].
  { injection Hrun as <- <-. split_and!; [done..|]. right. left.
    exists u. split_and!; [done..|]. unfold w1. rewrite writes_log. apply app_nil_r. }
  match goal with |- ?G =>
    assert (Hprov : ∀ w2, users w2 = users w → profiles w2 = profiles w →
              drawn w2 = drawn w →
              lookups (trace w2) = S (lookups (trace w)) →
              writes (trace w2) = writes (trace w) →
              Py.truthy (SSOUserInfo.email user_info) = false
              ∨ by_email user_info (users w) = None →
              UsersViews.create_new_user fuel user_info env w2 = (r, w') → G)
  end.
  { intros w2 Hu2 Hp2 Hd2 Hl2 Hw2 Hwhy Hc.
    destruct (create_new_user_inv _ _ _ _ _ _ Hc) as (Hp & Hl & _).
    split_and!; [congruence | congruence |].
    right. right. right. split_and!; [done..|]. exists w2. done. }
  remember (Py.truthy (SSOUserInfo.email user_info)) as t eqn:Hemail in Hrun.
  symmetry in Hemail. destruct t; cycle 1.
  { apply (Hprov w1); auto.
    unfold w1. rewrite writes_log. apply app_nil_r. }
  unfold bind at 1 in Hrun. rewrite filter_email_first_by_email in Hrun.
  change (users w1) with (users w) in Hrun.
  set (w2 := log _ w1) in Hrun.
  assert (Hl2 : lookups (trace w2) = S (lookups (trace w))).
  { unfold w2. change (trace (log ?s w1)) with (trace w1 ++ [s])%list.
    rewrite lookups_app, Hl1. change (lookups [_]) with 0%nat. lia. }
  destruct (db_fault env (length (trace w1))) eqn:Hdb1.
  { injection Hrun as <- <-. split_and!; [done..|]. left. eauto. }
  remember (by_email user_info (users w)) as o eqn:Hb in Hrun.
  symmetry in Hb. destruct o as [b|]; cycle 1.
  { apply (Hprov w2); auto.
    unfold w2, w1. rewrite !writes_log. cbn [is_write]. by rewrite !app_nil_r. }
  fold (linked user_info b) in Hrun.
  unfold bind at 1 in Hrun.
  rewrite (save_run ["sso_provider"; "sso_id"]) in Hrun; [|done|by right|]; cycle 1.
  { apply Exists_exists. exists b. split; [|done].
    apply first_elem_of in Hb. by apply list_elem_of_filter in Hb as [_ Hb]. }
  change (users w2) with (users w) in Hrun.
  set (w3 := log _ w2) in Hrun.
  assert (Hl3 : lookups (trace w3) = S (lookups (trace w))).
  { unfold w3. change (trace (log ?s w2)) with (trace w2 ++ [s])%list.
    rewrite lookups_app, Hl2. change (lookups [_]) with 0%nat. lia. }
  assert (Hw3 : writes (trace w3)
                = (writes (trace w)
                   ++ [UpdateUser ["sso_provider"; "sso_id"] (linked user_info b)])%list).
  { unfold w3, w2, w1. rewrite !writes_log. cbn [is_write]. by rewrite !app_nil_r. }
  destruct (db_fault env (length (trace w2))) eqn:Hdb2.
  { injection Hrun as <- <-. split_and!; [done..|]. left. eauto. }
  destruct (existsb _ _) eqn:Hcol.
  - injection Hrun as <- <-. split_and!; [done..|].
    right. right. left. exists b. split_and!; [done..|].
    left. split_and!; [done..|]. by apply link_collision.
  - injection Hrun as <- <-. split_and!; [done..|].
    right. right. left. exists b. split_and!; [done..|].
    right. split_and!; [done|done|].
    rewrite <- link_collision. by rewrite Hcol.
Qed.


(** ** The token verifier *)

Lemma read_only_ret {A} (a : A) : read_only (ret a).
Proof. intros env w r w1 [= _ <-]. done. Qed.

Lemma read_only_raise {A} e : read_only (raise e : M A).
Proof. intros env w r w1 [= _ <-]. done. Qed.

Lemma read_only_ask : read_only ask.
Proof. intros env w r w1 [= _ <-]. done. Qed.

Lemma read_only_bind {A B} (m : M A) (k : A → M B) :
  read_only m → (∀ a, read_only (k a)) → read_only (bind m k).
Proof.
  intros Hm Hk env w r w1 Hrun.
  apply bind_inv in Hrun as [(a & w2 & Ha & Hr)|[(e & He & _)|[Hd _]]].
  - apply Hm in Ha as ->. by apply Hk in Hr.
  - by apply Hm in He.
  - by apply Hm in Hd.
Qed.

Lemma read_only_try_except {A} (body : M A) handler :
  read_only body → (∀ e h, handler e = Some h → read_only h) →
  read_only (try_except body handler).
Proof.
  intros Hb Hh env w r w1. unfold try_except.
  destruct (body env w) as [[a|e|] w2] eqn:Hbody; apply Hb in Hbody as ->.
  - by intros [= _ <-].
  - destruct (handler e) as [h|] eqn:He; [by apply (Hh e)|]. by intros [= _ <-].
  - by intros [= _ <-].
Qed.

Ltac read_only_step :=
  first
    [ apply read_only_ret | apply read_only_raise | apply read_only_ask
    | apply read_only_bind; [|intros ?]
    | apply read_only_try_except; [|intros ? ? ?] ].

Lemma read_only_verify_apple_token id_token :
  read_only (Services.verify_apple_token id_token).
Proof.
  unfold Services.verify_apple_token, Services.requests_get,
    Services.raise_for_status, Services.response_json.
  read_only_step.
  - repeat (read_only_step || case_match);
      unfold Services.jose, Services.getitem;
      repeat (read_only_step || case_match).
  - repeat case_match; simplify_eq; read_only_step.
Qed.

Lemma read_only_verify_google_token id_token :
  read_only (Services.verify_google_token id_token).
Proof.
  unfold Services.verify_google_token, Services.requests_get,
    Services.response_json, Services.getitem.
  read_only_step.
  - repeat (read_only_step || case_match).
  - repeat case_match; simplify_eq; read_only_step.
Qed.

Lemma read_only_verified_user_info provider id_token request :
  read_only (UsersViews.verified_user_info provider id_token request).
Proof.
  unfold UsersViews.verified_user_info, Services.verify_sso_token_dev,
    Services.verify_sso_token.
  repeat (apply read_only_verify_apple_token
          || apply read_only_verify_google_token
          || read_only_step || case_match).
Qed.

(** ** Generated usernames *)

Lemma get_join l i : String.get i (Py.join l) = l !! i.
Proof.
  revert i. induction l as [|c l IH]; intros [|i]; simpl; auto.
Qed.

Lemma length_join l : String.length (Py.join l) = length l.
Proof. induction l as [|c l IH]; simpl; auto. Qed.

Lemma suffix_ok_picks env start :
  suffix_ok (Py.join (picks env username_alphabet start 6)).
Proof.
  split; [by rewrite length_join|].
  intros i c. rewrite get_join. unfold picks.
  rewrite list_lookup_fmap. destruct (seq start 6 !! i) as [j|]; [|done].
  intros [= <-]. eexists. by apply (get_pick username_alphabet).
Qed.

(** ** What a resolution does to the table *)

Lemma find_or_create_user_table fuel user_info env w r w' :
  UsersViews.find_or_create_user fuel user_info env w = (r, w') →
  (users w' = users w
   ∧ ∀ u, r = Returned u → by_sso user_info (users w) = Some u)
  ∨ (∃ b, by_sso user_info (users w) = None
          ∧ b ∈ users w
          ∧ ¬ sso_id_held_elsewhere user_info b (users w)
          ∧ r = Returned (linked user_info b)
          ∧ users w' = relink user_info b (users w))
  ∨ (∃ x, by_sso user_info (users w) = None
          ∧ users w' = (users w ++ [x])%list
          ∧ sso_match user_info x
          ∧ User.id x = Orm.next_id (users w)
          ∧ existsb (User.collides User.columns x) (users w) = false
          ∧ ¬ taken (users w) (User.username x)
          ∧ ∀ u, r = Returned u → u = x).
Proof.
  intros Hrun. apply find_or_create_user_inv in Hrun as (_ & _ & Hcases).
  destruct Hcases as [(-> & Hu & _)|[(u & Hsso & -> & Hu & _)|[Hlink|Hprov]]].
  - left. split; [done|]. by intros u.
  - left. split; [done|]. by intros ? [= <-].
  - destruct Hlink as (b & Hnone & _ & Hb & _ & [(-> & Hu & _)|(-> & Hu & Hfree)]).
    + left. split; [done|]. by intros u.
    + right. left. exists b. split_and!; try done.
      by apply first_elem_of in Hb as [_ Hb]%list_elem_of_filter.
  - destruct Hprov as (Hnone & _ & w2 & Hu2 & _ & _ & _ & _ & Hrun).
    apply create_new_user_inv in Hrun as (_ & _ & Hcases). rewrite Hu2 in Hcases.
    destruct Hcases as [[Hu Hr]|Hdone].
    + left. split; [done|]. intros u ->.
      by destruct Hr as [[? _]|[[? _]|[? _]]].
    + destruct Hdone as (name & start & pstart & _ & Hname & Hcol & _ & Hr).
      right. right. destruct Hr as [(-> & _ & Hu)|(-> & Hu)].
      * exists (inserted_row (users w) user_info name).
        split_and!; try done. 
      * eexists. split_and!; [done | exact Hu | done | done | exact Hcol | done |].
        by intros ? [= <-].
Qed.

Lemma find_or_create_user_adds_at_most_one fuel user_info env w r w' :
  UsersViews.find_or_create_user fuel user_info env w = (r, w') →
  (length (users w) ≤ length (users w') ≤ S (length (users w)))%nat.
Proof.
  intros [[-> _]|[(b & _ & _ & _ & _ & ->)|(x & _ & -> & _)]]%find_or_create_user_table.
  - lia.
  - unfold relink. rewrite length_fmap. lia.
  - rewrite length_app. cbn. lia.
Qed.

Lemma by_sso_relink user_info b rows :
  consistent rows → by_sso user_info rows = None → b ∈ rows →
  by_sso user_info (relink user_info b rows) = Some (linked user_info b).
Proof.
  intros Hcons Hnone%first_nil_iff Hb. apply first_all_eq.
  - apply list_elem_of_filter. split; [done|].
    apply list_elem_of_fmap. exists b. by rewrite bool_decide_eq_true_2.
  - intros v [Hvm (r & -> & Hr)%list_elem_of_fmap]%list_elem_of_filter.
    case_bool_decide as Hid.
    + f_equal. apply (consistent_eq rows); [done..|]. by left.
    + assert (r ∈ filter (sso_match user_info) rows) as Hin
        by by apply list_elem_of_filter.
      rewrite Hnone in Hin. by inversion Hin.
Qed.

Lemma by_sso_app user_info rows x :
  by_sso user_info rows = None → sso_match user_info x →
  by_sso user_info (rows ++ [x])%list = Some x.
Proof.
  intros Hnone%first_nil_iff Hx. apply first_all_eq.
  - apply list_elem_of_filter. split; [done|]. apply elem_of_app. right. left.
  - intros v [Hvm [Hv|Hv]%elem_of_app]%list_elem_of_filter.
    + assert (v ∈ filter (sso_match user_info) rows) as Hin
        by by apply list_elem_of_filter.
      rewrite Hnone in Hin. by inversion Hin.
    + by apply list_elem_of_singleton in Hv.
Qed.

(** ** The constraints of the table are kept *)

Lemma consistent_app rows x :
  consistent rows →
  (∀ a, a ∈ rows → ¬ same_key a x) →
  consistent (rows ++ [x])%list.
Proof.
  intros Hcons Hx i j a b Ha Hb Hk.
  apply lookup_app_Some in Ha as [Ha|[Hi Ha]], Hb as [Hb|[Hj Hb]].
  - by apply (Hcons i j a b).
  - apply list_lookup_singleton_Some in Hb as [_ <-].
    destruct (Hx a); [by eapply list_elem_of_lookup_2 | done].
  - apply list_lookup_singleton_Some in Ha as [_ <-].
    destruct (Hx b); [by eapply list_elem_of_lookup_2 |].
    destruct Hk as [?|[?|[?|(s & ? & ?)]]]; [by left | by right; left
      | by right; right; left | right; right; right; eauto].
  - apply list_lookup_singleton_Some in Ha as [Ha _], Hb as [Hb _]. lia.
Qed.

Lemma consistent_relink user_info b rows :
  consistent rows → b ∈ rows →
  ¬ sso_id_held_elsewhere user_info b rows →
  consistent (relink user_info b rows).
Proof.
  intros Hcons Hb Hfree i j a' c' Ha Hc Hk. unfold relink in Ha, Hc.
  apply list_lookup_fmap_Some in Ha as (a & -> & Ha), Hc as (c & -> & Hc).
  pose proof (list_elem_of_lookup_2 _ _ _ Ha) as Hain.
  pose proof (list_elem_of_lookup_2 _ _ _ Hc) as Hcin.
  apply (Hcons i j a c Ha Hc).
  repeat case_bool_decide; cbn in Hk.
  - left. congruence.
  - destruct Hk as [?|[?|[?|(s & [= <-] & ?)]]];
      [by left | by right; left | by right; right; left |].
    destruct Hfree. exists c. split_and!; [done| congruence |done].
  - destruct Hk as [?|[?|[?|(s & ? & [= <-])]]];
      [by left | by right; left | by right; right; left |].
    destruct Hfree. exists a. split_and!; [done| congruence |done].
  - done.
Qed.

Lemma find_or_create_user_consistent fuel user_info env w r w' :
  consistent (users w) →
  UsersViews.find_or_create_user fuel user_info env w = (r, w') →
  consistent (users w').
Proof.
  intros Hcons [[-> _]|[(b & _ & Hb & Hfree & _ & ->)|Happ]]%find_or_create_user_table.
  - done.
  - by apply consistent_relink.
  - destruct Happ as (x & _ & -> & _ & Hid & Hcol & Hname & _).
    apply consistent_app; [done|]. intros a Ha Hk.
    pose proof (next_id_fresh _ _ Ha) as Hlt.
    assert (User.collides User.columns x a = true) as Hc; [|].
    { destruct Hk as [?|Hk]; [lia|]. apply collides_columns.
      destruct Hk as [Hk|[?|(s & ? & ?)]]; [|by right; left|right; right; eauto].
      destruct Hname. apply Exists_exists. eauto. }
    rewrite existsb_false in Hcol. rewrite (Hcol a Ha) in Hc. done.
Qed.

(** ** Resolutions that are not refused *)

Lemma find_or_create_user_provisions fuel user_info env w k :
  healthy env →
  (∀ a, a ∈ users w → ¬ sso_match user_info a) →
  (∀ a, a ∈ users w → User.email a ≠ SSOUserInfo.email user_info) →
  (∀ a, a ∈ users w → User.sso_id a ≠ Some (SSOUserInfo.sso_id user_info)) →
  (k < fuel)%nat →
  ¬ taken (users w) (candidate env (email_or_user user_info) (drawn w + 6 * k)) →
  ∃ u w' suffix,
    UsersViews.find_or_create_user fuel user_info env w = (Returned u, w')
    ∧ users w' = (users w ++ [u])%list
    ∧ User.username u
      = Py.slice_to 20 (local_part (email_or_user user_info)) +:+ "_" +:+ suffix
    ∧ suffix_ok suffix.
Proof.
  intros Henv Hnone Hnoemail Hnosso Hk Hfree.
  destruct (UsersViews.find_or_create_user fuel user_info env w) as [r w'] eqn:Hrun.
  apply find_or_create_user_inv in Hrun as (_ & _ & Hcases).
  destruct Hcases as [(_ & _ & Hbad)|[(u & Hu & _)|[Hlink|Hprov]]].
  - done.
  - apply first_elem_of in Hu as [Hm Hu]%list_elem_of_filter. by destruct (Hnone u).
  - destruct Hlink as (b & _ & _ & Hb & _).
    apply first_elem_of in Hb as [Hbe Hb]%list_elem_of_filter. by destruct (Hnoemail b).
  - destruct Hprov as (_ & _ & w2 & Hu2 & _ & Hd2 & _ & Hw2 & Hrun).
    apply create_new_user_inv in Hrun as (_ & _ & Hcases). rewrite Hu2, Hw2 in Hcases.
    destruct Hcases as [[_ [[_ Hloop]|[[_ Hbad]|[_ Hcol]]]]|Hdone].
    + destruct (while_username_exists_returns env (email_or_user user_info) k Henv
                  fuel (drawn w2) (draw 6 w2)) as (n & w3 & Hret);
        [done | cbn; lia
        | change (users (draw 6 w2)) with (users w2); by rewrite Hu2, Hd2 |].
      rewrite Hret in Hloop. discriminate.
    + done.
    + destruct Hcol as (name & Hname & (x & Hx & Hc)%existsb_true & _).
      apply collides_columns in Hc as [Hc|[Hc|(s & [= <-] & Hc)]].
      * destruct Hname. apply Exists_exists. eauto.
      * by destruct (Hnoemail x).
      * by destruct (Hnosso x).
    + destruct Hdone as (name & start & pstart & -> & _ & _ & _
                         & [(_ & Hbad & _)|(-> & Hu)]); [done|].
      eexists _, w', _. split_and!; [done | done | reflexivity | apply suffix_ok_picks].
Qed.

Lemma find_or_create_user_returns fuel user_info env w :
  healthy env → consistent (users w) → resolvable env fuel user_info w →
  ∃ u w', UsersViews.find_or_create_user fuel user_info env w = (Returned u, w').
Proof.
  intros Henv Hcons [(a & Ha & Hm)|[(Hnone & Hemail & b & Hb & Hbe & Hfree)
                                   |(Hnone & Hnoemail & Hnosso & k & Hk & Hfree)]].
  - destruct (by_sso user_info (users w)) as [u|] eqn:Hu.
    + eexists _, _. by apply find_or_create_user_exact.
    + apply first_nil_iff in Hu.
      assert (a ∈ filter (sso_match user_info) (users w)) as Hin
        by by apply list_elem_of_filter.
      rewrite Hu in Hin. by apply elem_of_nil in Hin.
  - destruct (UsersViews.find_or_create_user fuel user_info env w) as [r w'] eqn:Hrun.
    apply find_or_create_user_inv in Hrun as (_ & _ & Hcases).
    assert (by_email user_info (users w) = Some b) as Hbyemail.
    { apply first_all_eq.
      - by apply list_elem_of_filter.
      - intros v [Hve Hv]%list_elem_of_filter.
        apply (consistent_eq (users w)); [done..|]. right. right. left. congruence. }
    destruct Hcases as [(_ & _ & Hbad)|[(u & Hu & _)|[Hlink|(_ & [He|He] & _)]]].
    + done.
    + apply first_elem_of in Hu as [Hm Hu]%list_elem_of_filter. by destruct (Hnone u).
    + destruct Hlink as (b' & _ & _ & Hb' & _ & [(_ & _ & Hheld)|(-> & _)]);
        rewrite Hbyemail in Hb'; injection Hb' as <-; [done|]. by eexists _, _.
    + congruence.
    + congruence.
  - destruct (find_or_create_user_provisions fuel user_info env w k)
      as (u & w' & _ & Hrun & _); [done..|]. by exists u, w'.
Qed.

Lemma resolving_again fuel user_info env w r w' :
  consistent (users w) →
  UsersViews.find_or_create_user fuel user_info env w = (r, w') →
  (length (users w') ≤ S (length (users w)))%nat
  ∧ ∀ fuel2 env2,
      (length (users (UsersViews.find_or_create_user fuel2 user_info env2 w').2)
       ≤ S (length (users w)))%nat
      ∧ ∀ u, r = Returned u →
             db_fault env2 (length (trace w')) = false →
             ∃ w'',
               UsersViews.find_or_create_user fuel2 user_info env2 w'
               = (Returned u, w'')
               ∧ users w'' = users w'
               ∧ profiles w'' = profiles w'
               ∧ writes (trace w'') = writes (trace w').
Proof.
  intros Hcons Hrun.
  assert ((∀ u, r = Returned u → by_sso user_info (users w') = Some u)
          ∧ (length (users w') = length (users w)
             ∨ length (users w') = S (length (users w))
               ∧ by_sso user_info (users w') ≠ None)) as [Hsame Hgrew].
  { apply find_or_create_user_table in Hrun
      as [[-> Hu]|[(b & Hnone & Hb & _ & -> & ->)|(x & Hnone & -> & Hx & _ & _ & _ & Hu)]].
    - split; [done | by left].
    - split; [|left; unfold relink; by rewrite length_fmap].
      intros ? [= <-]. by apply by_sso_relink.
    - rewrite (by_sso_app _ _ _ Hnone Hx). split.
      + intros u ->%Hu. done.
      + right. split; [|done]. rewrite length_app. cbn. lia. }
  split; [destruct Hgrew as [?|[? _]]; lia|].
  intros fuel2 env2. split.
  - destruct (UsersViews.find_or_create_user fuel2 user_info env2 w')
      as [r2 w''] eqn:Hrun2. cbn [snd].
    destruct Hgrew as [Hlen|[Hlen Hsome]].
    + apply find_or_create_user_adds_at_most_one in Hrun2. lia.
    + apply find_or_create_user_table in Hrun2
        as [[-> _]|[(? & ? & _)|(? & ? & _)]]; [lia | done | done].
  - intros u Hr Hdb. eexists.
    split; [apply find_or_create_user_exact; auto|].
    split_and!; [done | done |]. rewrite writes_log. apply app_nil_r.
Qed.

(** * The properties *)

(** C1. When an account already carries the assertion's (provider,
    subject id) and the database answers the lookup, [find_or_create_user]
    returns such an account, the one of least primary key and, in a
    consistent table, the only one. It sends the lookup and nothing else:
    the tables are unchanged and the trace gains no write. *)
Theorem exact_match_is_read_only fuel user_info env w a :
  db_fault env (length (trace w)) = false →
  a ∈ users w → sso_match user_info a →
  ∃ u w',
    UsersViews.find_or_create_user fuel user_info env w = (Returned u, w')
    ∧ u ∈ users w ∧ sso_match user_info u
    ∧ (∀ v, v ∈ users w → sso_match user_info v → (User.id u ≤ User.id v)%nat)
    ∧ (consistent (users w) → u = a)
    ∧ users w' = users w ∧ profiles w' = profiles w
    ∧ trace w' = (trace w ++ [SelectUserBySso (SSOUserInfo.provider user_info)
                                (SSOUserInfo.sso_id user_info)])%list
    ∧ writes (trace w') = writes (trace w).
Proof.
  intros Hdb Ha Hm.
  destruct (by_sso user_info (users w)) as [u|] eqn:Hu.
  2:{ apply first_nil_iff in Hu.
      assert (a ∈ filter (sso_match user_info) (users w)) as Hin
        by by apply list_elem_of_filter.
      rewrite Hu in Hin. by inversion Hin. }
  pose proof (first_elem_of _ _ Hu) as [Hum Huw]%list_elem_of_filter.
  exists u, (log (SelectUserBySso (SSOUserInfo.provider user_info)
                    (SSOUserInfo.sso_id user_info)) w).
  split_and!; try done.
  - by apply find_or_create_user_exact.
  - intros v Hv Hvm. apply (first_least _ _ _ Hu). by apply list_elem_of_filter.
  - intros Hc. apply (consistent_eq (users w)); [done..|].
    destruct Hum as [_ Hs], Hm as [_ Hs']. do 3 right. eauto.
  - rewrite writes_log. apply app_nil_r.
Qed.

Lemma exact_match_is_read_only_witness :
  db_fault Example.env (length (trace Example.store)) = false
  ∧ Example.alice ∈ users Example.store
  ∧ sso_match Example.alice_again Example.alice
  ∧ ∃ u w',
      UsersViews.find_or_create_user 0 Example.alice_again Example.env Example.store
      = (Returned u, w')
      ∧ u = Example.alice ∧ users w' = users Example.store.
Proof.
  assert (Hin : Example.alice ∈ users Example.store) by left.
  assert (Hm : sso_match Example.alice_again Example.alice) by (by split).
  split_and!; [done..|].
  destruct (exact_match_is_read_only 0 Example.alice_again Example.env
              Example.store Example.alice eq_refl Hin Hm)
    as (u & w' & Hrun & _ & _ & _ & _ & Hu & _).
  exists u, w'. split_and!; [done| |done].
  injection Hrun as <- _. reflexivity.
Defined.

(** C8. [generate_username] returns the part of the address before its
    first '@', cut to its first 20 characters, then an underscore, then 6
    characters drawn from the lowercase letters and the digits; it uses six
    values of the entropy and nothing else. The cut keeps 20 characters
    when there are that many, as for the address of the example. On the
    literal [user] it returns [user_] and the six characters. The resolver
    calls it on the assertion's email, or on [user] when the email is
    empty: when it provisions an account (no account has the assertion's
    identity, email or subject id, the database answers, and one of the
    first [fuel] generated usernames is free) the account it returns and
    stores has the username made from the email's local part, or from
    [user] for an empty email; and no run of the provisioning returns an
    account with another kind of username. *)
Theorem generated_username_format :
  (∀ email env w,
     ∃ suffix,
       UsersViews.generate_username email env w
       = (Returned (Py.slice_to 20 (local_part email) +:+ "_" +:+ suffix), draw 6 w)
       ∧ suffix_ok suffix)
  ∧ (∀ email,
       String.length (Py.slice_to 20 (local_part email))
       = 20 `min` String.length (local_part email)
       ∧ (∃ rest, local_part email = Py.slice_to 20 (local_part email) +:+ rest)
       ∧ ∃ rest, email = local_part email +:+ rest
                 ∧ (rest = EmptyString ∨ ∃ r, rest = String "@" r)
                 ∧ ∀ i, String.get i (local_part email) ≠ Some "@"%char)
  ∧ (Py.slice_to 20
       (local_part "alice.wonderland12345678901234567890@example.com")
     = "alice.wonderland1234"
     ∧ String.length "alice.wonderland1234" = 20%nat)
  ∧ (∀ env w,
       ∃ suffix,
         UsersViews.generate_username "user" env w
         = (Returned ("user_" +:+ suffix), draw 6 w)
         ∧ suffix_ok suffix)
  ∧ (∀ fuel user_info env w k,
       healthy env →
       (∀ a, a ∈ users w → ¬ sso_match user_info a) →
       (∀ a, a ∈ users w → User.email a ≠ SSOUserInfo.email user_info) →
       (∀ a, a ∈ users w → User.sso_id a ≠ Some (SSOUserInfo.sso_id user_info)) →
       (k < fuel)%nat →
       ¬ taken (users w)
           (candidate env
              (if Py.truthy (SSOUserInfo.email user_info)
               then SSOUserInfo.email user_info else "user")
              (drawn w + 6 * k)) →
       ∃ u w' suffix,
         UsersViews.find_or_create_user fuel user_info env w = (Returned u, w')
         ∧ u ∈ users w'
         ∧ suffix_ok suffix
         ∧ User.username u
           = (if Py.truthy (SSOUserInfo.email user_info)
              then Py.slice_to 20 (local_part (SSOUserInfo.email user_info))
              else "user") +:+ "_" +:+ suffix)
  ∧ (∀ fuel user_info env w u w',
       UsersViews.create_new_user fuel user_info env w = (Returned u, w') →
       ∃ suffix,
         suffix_ok suffix
         ∧ User.username u
           = (if Py.truthy (SSOUserInfo.email user_info)
              then Py.slice_to 20 (local_part (SSOUserInfo.email user_info))
              else "user") +:+ "_" +:+ suffix).
Proof.
  split; [|split; [|split; [|split; [|split]]]].
  - intros email env w. eexists. split; [apply generate_username_run|].
    apply suffix_ok_picks.
  - intros email. split; [|split].
    + apply slice_to_length.
    + apply slice_to_prefix.
    + apply local_part_spec.
  - done.
  - intros env w. exists (Py.join (picks env username_alphabet (drawn w) 6)).
    split; [by rewrite generate_username_run | apply suffix_ok_picks].
  - intros fuel user_info env w k Henv Hnone Hnoemail Hnosso Hk Hfree.
    destruct (find_or_create_user_provisions fuel user_info env w k)
      as (u & w' & suffix & Hrun & Hu & Hname & Hsuffix); [done..|].
    exists u, w', suffix. split_and!; [done | | done |].
    + rewrite Hu. apply elem_of_app. right. left.
    + rewrite Hname. unfold email_or_user.
      by destruct (Py.truthy (SSOUserInfo.email user_info)).
  - intros fuel user_info env w u w' Hrun.
    apply create_new_user_inv in Hrun as (_ & _ & [[_ [[? _]|[[? _]|[? _]]]]|Hrun]);
      [done..|].
    destruct Hrun as (name & start & pstart & -> & _ & _ & _ & [[? _]|[[= ->] _]]);
      [done|].
    eexists. split; [apply suffix_ok_picks|]. cbn [User.username].
    unfold candidate, email_or_user.
    by destruct (Py.truthy (SSOUserInfo.email user_info)).
Qed.

Lemma generated_username_format_witness :
  ∃ u w' suffix,
    UsersViews.find_or_create_user 1
      (SSOUserInfo.mk "apple" "sub-777" EmptyString None None) Example.env
      Example.store = (Returned u, w')
    ∧ u ∈ users w'
    ∧ suffix_ok suffix
    ∧ User.username u = "user_" +:+ suffix.
Proof.
  destruct generated_username_format as (_ & _ & _ & _ & Hprovision & _).
  apply (Hprovision 1 (SSOUserInfo.mk "apple" "sub-777" EmptyString None None)
           Example.env Example.store 0).
  - intros n. reflexivity.
  - intros a Ha [_ Hs].
    apply elem_of_cons in Ha as [->|Ha]; [done|].
    apply list_elem_of_singleton in Ha as ->. done.
  - intros a Ha.
    apply elem_of_cons in Ha as [->|Ha]; [done|].
    apply list_elem_of_singleton in Ha as ->. done.
  - intros a Ha.
    apply elem_of_cons in Ha as [->|Ha]; [done|].
    apply list_elem_of_singleton in Ha as ->. done.
  - lia.
  - intros [x [Hx Hn]]%Exists_exists.
    apply elem_of_cons in Hx as [->|Hx]; [done|].
    apply list_elem_of_singleton in Hx as ->. done.
Defined.

(** C9. [calculate_proficiency] is a function of the score alone; on the
    scores 0 to 5 it gives beginner for 0 and 1, elementary for 2 and 3,
    intermediate for 4 and upper_intermediate for 5. *)
Theorem calculate_proficiency_table quiz_score :
  (0 ≤ quiz_score ≤ 5)%Z →
  OnboardingViews.calculate_proficiency quiz_score
  = match quiz_score with
    | 0%Z | 1%Z => "beginner"
    | 2%Z | 3%Z => "elementary"
    | 4%Z => "intermediate"
    | _ => "upper_intermediate"
    end.
Proof.
  intros Hq.
  assert (quiz_score = 0 ∨ quiz_score = 1 ∨ quiz_score = 2 ∨ quiz_score = 3
          ∨ quiz_score = 4 ∨ quiz_score = 5)%Z as Hcases by lia.
  by destruct Hcases as [->|[->|[->|[->|[->| ->]]]]].
Qed.

Lemma calculate_proficiency_table_witness :
  (0 ≤ 3 ≤ 5)%Z ∧ OnboardingViews.calculate_proficiency 3 = "elementary".
Proof.
  split; [lia|]. apply (calculate_proficiency_table 3). lia.
Defined.

(** C10. A user whose onboarding is already completed gets the 400
    response whatever the request holds, and nothing else happens: no
    statement is sent, so the user's flag and any profile stay as they
    were. *)
Theorem completed_onboarding_is_rejected user data env w :
  User.onboarding_completed user = true →
  OnboardingViews.complete_onboarding user data env w
  = (Returned (mkResponse (Detail "Onboarding already completed.")
                 HTTP_400_BAD_REQUEST), w).
Proof. intros Hdone. unfold OnboardingViews.complete_onboarding. by rewrite Hdone. Qed.

Lemma completed_onboarding_is_rejected_witness :
  User.onboarding_completed Example.alice = true
  ∧ OnboardingViews.complete_onboarding Example.alice
      {[ "target_language" := JStr "fr"; "quiz_score" := JInt 5 ]}
      Example.env Example.store
    = (Returned (mkResponse (Detail "Onboarding already completed.") 400),
       Example.store).
Proof.
  split; [reflexivity|].
  apply (completed_onboarding_is_rejected Example.alice). reflexivity.
Defined.

(** C2, counterexample. Bob's address matches and no
    account carries (apple, sub-123), yet the link is refused, because
    Alice holds the subject id sub-123 under Google and [sso_id] is unique
    on its own. Nothing is written to the table. *)
Lemma email_link_refused_example :
  (∀ a, a ∈ users Example.store → ¬ sso_match Example.apple_bob a)
  ∧ Py.truthy (SSOUserInfo.email Example.apple_bob) = true
  ∧ Example.bob ∈ users Example.store
  ∧ User.email Example.bob = SSOUserInfo.email Example.apple_bob
  ∧ ∀ fuel,
      ∃ w', UsersViews.find_or_create_user fuel Example.apple_bob Example.env
              Example.store = (Raised IntegrityError, w')
            ∧ users w' = users Example.store.
Proof.
  split_and!.
  - intros a Ha [Hp _].
    apply elem_of_cons in Ha as [->|Ha]; [done|].
    apply list_elem_of_singleton in Ha as ->. done.
  - reflexivity.
  - right. left.
  - reflexivity.
  - intros fuel. eexists. split; [by vm_compute|]. reflexivity.
Qed.

(** C2, amended. When no account carries the assertion's (provider,
    subject id), the assertion has a non-empty email, an account [b] has
    that email and no other account holds the subject id, the resolver
    returns [b] with its provider and subject id set to the assertion's and
    every other field as it was, and the table differs from the old one in
    that row only; the one write sent is the UPDATE of these two columns. *)
Theorem email_link_sets_only_sso_fields fuel user_info env w b :
  healthy env → consistent (users w) →
  (∀ a, a ∈ users w → ¬ sso_match user_info a) →
  Py.truthy (SSOUserInfo.email user_info) = true →
  b ∈ users w → User.email b = SSOUserInfo.email user_info →
  ¬ sso_id_held_elsewhere user_info b (users w) →
  ∃ u w',
    UsersViews.find_or_create_user fuel user_info env w = (Returned u, w')
    ∧ User.sso_provider u = Some (SSOUserInfo.provider user_info)
    ∧ User.sso_id u = Some (SSOUserInfo.sso_id user_info)
    ∧ User.id u = User.id b
    ∧ User.email u = User.email b
    ∧ User.username u = User.username b
    ∧ User.first_name u = User.first_name b
    ∧ User.last_name u = User.last_name b
    ∧ User.password u = User.password b
    ∧ User.onboarding_completed u = User.onboarding_completed b
    ∧ users w' = ((λ r, if bool_decide (r = b) then u else r) <$> users w)
    ∧ profiles w' = profiles w
    ∧ writes (trace w')
      = (writes (trace w) ++ [UpdateUser ["sso_provider"; "sso_id"] u])%list.
Proof.
  intros Henv Hcons Hnone Hemail Hb Hbe Hfree.
  destruct (UsersViews.find_or_create_user fuel user_info env w) as [r w'] eqn:Hrun.
  apply find_or_create_user_inv in Hrun as (Hp & _ & Hcases).
  assert (by_email user_info (users w) = Some b) as Hbyemail.
  { apply first_all_eq.
    - by apply list_elem_of_filter.
    - intros v [Hve Hv]%list_elem_of_filter.
      apply (consistent_eq (users w)); [done..|]. right. right. left. congruence. }
  destruct Hcases as [(_ & _ & Hbad)|[(u & Hu & _)|[Hlink|(_ & [He|He] & _)]]].
  - done.
  - apply first_elem_of in Hu as [Hm Hu]%list_elem_of_filter. by destruct (Hnone u).
  - destruct Hlink as (b' & _ & _ & Hb' & Hw & [(_ & _ & Hheld)|(-> & Hu & _)]);
      rewrite Hbyemail in Hb'; injection Hb' as <-; [done|].
    exists (linked user_info b), w'. split_and!; try done.
    rewrite Hu. unfold relink. apply list_fmap_ext. intros i r Hr.
    apply list_elem_of_lookup_2 in Hr.
    destruct (decide (r = b)) as [->|Hne].
    + by rewrite !bool_decide_eq_true_2.
    + rewrite !bool_decide_eq_false_2; [done..|].
      intros Hid. apply Hne. apply (consistent_eq (users w)); [done..|]. by left.
  - congruence.
  - congruence.
Qed.

Lemma email_link_sets_only_sso_fields_witness :
  ∃ u w',
    UsersViews.find_or_create_user 0 Example.google_bob Example.env Example.store
    = (Returned u, w')
    ∧ User.sso_id u = Some "sub-900"
    ∧ User.username u = "bob_77aa01"
    ∧ users w' = [Example.alice; u].
Proof.
  assert (Hhealthy : healthy Example.env) by (intros n; reflexivity).
  assert (Hcons : consistent (users Example.store)).
  { intros [|[|i]] [|[|j]] a c Ha Hc Hk; try done;
      cbn in Ha, Hc; simplify_eq; exfalso;
      destruct Hk as [?|[?|[?|(? & ? & ?)]]]; done. }
  assert (Hnone : ∀ a, a ∈ users Example.store → ¬ sso_match Example.google_bob a).
  { intros a Ha [_ Hs].
    apply elem_of_cons in Ha as [->|Ha]; [done|].
    apply list_elem_of_singleton in Ha as ->. done. }
  assert (Hin : Example.bob ∈ users Example.store) by (right; left).
  assert (Hfree : ¬ sso_id_held_elsewhere Example.google_bob Example.bob
                      (users Example.store)).
  { intros (r & Hr & Hid & Hs).
    apply elem_of_cons in Hr as [->|Hr]; [done|].
    apply list_elem_of_singleton in Hr as ->. done. }
  destruct (email_link_sets_only_sso_fields 0 Example.google_bob Example.env
              Example.store Example.bob Hhealthy Hcons Hnone eq_refl Hin eq_refl Hfree)
    as (u & w' & Hrun & _ & Hs & _ & _ & Hn & _ & _ & _ & _ & Hw & _).
  exists u, w'. split_and!; [done..|].
  rewrite Hw. reflexivity.
Defined.

(** C3, counterexample. No account carries (apple, sub-123)
    and none has Carol's address, yet no account is created, because Alice
    holds the subject id sub-123 under Google: the INSERT is refused. *)
Lemma provisioning_refused_example :
  (∀ a, a ∈ users Example.store → ¬ sso_match Example.apple_carol a)
  ∧ (∀ a, a ∈ users Example.store
          → User.email a ≠ SSOUserInfo.email Example.apple_carol)
  ∧ ∃ w', UsersViews.find_or_create_user 5 Example.apple_carol Example.env
            Example.store = (Raised IntegrityError, w')
          ∧ users w' = users Example.store.
Proof.
  split_and!.
  - intros a Ha [Hp _].
    apply elem_of_cons in Ha as [->|Ha]; [done|].
    apply list_elem_of_singleton in Ha as ->. done.
  - intros a Ha.
    apply elem_of_cons in Ha as [->|Ha]; [done|].
    apply list_elem_of_singleton in Ha as ->. done.
  - eexists. split; [by vm_compute|]. reflexivity.
Qed.

(** C3, amended. When no account carries the assertion's (provider,
    subject id), none has its email, none holds its subject id under any
    provider, and one of the first [fuel] usernames the entropy yields is
    free, the resolver adds exactly one account to the table and returns
    it: its primary key is new, its provider, subject id and email are the
    assertion's, its names are the assertion's or blank, its username is of
    the generated form and was not in use, and its stored password is an
    unusable one. It is written by an INSERT followed by an UPDATE. *)
Theorem provisioning_creates_one_account fuel user_info env w k :
  healthy env →
  (∀ a, a ∈ users w → ¬ sso_match user_info a) →
  (∀ a, a ∈ users w → User.email a ≠ SSOUserInfo.email user_info) →
  (∀ a, a ∈ users w → User.sso_id a ≠ Some (SSOUserInfo.sso_id user_info)) →
  (k < fuel)%nat →
  ¬ taken (users w) (candidate env (email_or_user user_info) (drawn w + 6 * k)) →
  ∃ u w' suffix,
    UsersViews.find_or_create_user fuel user_info env w = (Returned u, w')
    ∧ users w' = (users w ++ [u])%list
    ∧ (∀ a, a ∈ users w → User.id a ≠ User.id u)
    ∧ User.sso_provider u = Some (SSOUserInfo.provider user_info)
    ∧ User.sso_id u = Some (SSOUserInfo.sso_id user_info)
    ∧ User.email u = SSOUserInfo.email user_info
    ∧ User.first_name u = Py.or_else (SSOUserInfo.first_name user_info) EmptyString
    ∧ User.last_name u = Py.or_else (SSOUserInfo.last_name user_info) EmptyString
    ∧ User.onboarding_completed u = false
    ∧ ¬ taken (users w) (User.username u)
    ∧ User.username u
      = Py.slice_to 20 (local_part (email_or_user user_info)) +:+ "_" +:+ suffix
    ∧ suffix_ok suffix
    ∧ User.has_usable_password u = false
    ∧ profiles w' = profiles w
    ∧ writes (trace w')
      = (writes (trace w)
         ++ [InsertUser (with_password EmptyString u); UpdateUser User.columns u])%list.
Proof.
  intros Henv Hnone Hnoemail Hnosso Hk Hfree.
  destruct (UsersViews.find_or_create_user fuel user_info env w) as [r w'] eqn:Hrun.
  apply find_or_create_user_inv in Hrun as (Hp & _ & Hcases).
  destruct Hcases as [(_ & _ & Hbad)|[(u & Hu & _)|[Hlink|Hprov]]].
  - done.
  - apply first_elem_of in Hu as [Hm Hu]%list_elem_of_filter. by destruct (Hnone u).
  - destruct Hlink as (b & _ & _ & Hb & _).
    apply first_elem_of in Hb as [Hbe Hb]%list_elem_of_filter. by destruct (Hnoemail b).
  - destruct Hprov as (_ & _ & w2 & Hu2 & Hp2 & Hd2 & _ & Hw2 & Hrun).
    apply create_new_user_inv in Hrun as (_ & _ & Hcases). rewrite Hu2, Hw2 in Hcases.
    destruct Hcases as [[_ [[_ Hloop]|[[_ Hbad]|[_ Hcol]]]]|Hdone].
    + destruct (while_username_exists_returns env (email_or_user user_info) k Henv
                  fuel (drawn w2) (draw 6 w2)) as (n & w3 & Hret);
        [done | cbn; lia
        | change (users (draw 6 w2)) with (users w2); by rewrite Hu2, Hd2 |].
      rewrite Hret in Hloop. discriminate.
    + done.
    + destruct Hcol as (name & Hname & (x & Hx & Hc)%existsb_true & _).
      apply collides_columns in Hc as [Hc|[Hc|(s & [= <-] & Hc)]].
      * destruct Hname. apply Exists_exists. eauto.
      * by destruct (Hnoemail x).
      * by destruct (Hnosso x).
    + destruct Hdone as (name & start & pstart & -> & Hname & _ & Hw
                         & [(_ & Hbad & _)|(-> & Hu)]); [done|].
      eexists _, w', _. split_and!; try done.
      * intros a Ha%next_id_fresh. cbn. lia.
      * apply suffix_ok_picks.
Qed.

Lemma provisioning_creates_one_account_witness :
  ∃ u w',
    UsersViews.find_or_create_user 1 Example.google_dave Example.env Example.store
    = (Returned u, w')
    ∧ users w' = [Example.alice; Example.bob; u]
    ∧ User.first_name u = "Dave" ∧ User.last_name u = EmptyString
    ∧ User.has_usable_password u = false.
Proof.
  assert (Hhealthy : healthy Example.env) by (intros n; reflexivity).
  assert (Hnone : ∀ a, a ∈ users Example.store → ¬ sso_match Example.google_dave a).
  { intros a Ha [_ Hs].
    apply elem_of_cons in Ha as [->|Ha]; [done|].
    apply list_elem_of_singleton in Ha as ->. done. }
  assert (Hnoemail : ∀ a, a ∈ users Example.store
                          → User.email a ≠ SSOUserInfo.email Example.google_dave).
  { intros a Ha.
    apply elem_of_cons in Ha as [->|Ha]; [done|].
    apply list_elem_of_singleton in Ha as ->. done. }
  assert (Hnosso : ∀ a, a ∈ users Example.store
                        → User.sso_id a ≠ Some (SSOUserInfo.sso_id Example.google_dave)).
  { intros a Ha.
    apply elem_of_cons in Ha as [->|Ha]; [done|].
    apply list_elem_of_singleton in Ha as ->. done. }
  assert (Hfree : ¬ taken (users Example.store)
                      (candidate Example.env (email_or_user Example.google_dave)
                         (drawn Example.store + 6 * 0))).
  { intros [x [Hx Hn]]%Exists_exists.
    apply elem_of_cons in Hx as [->|Hx]; [done|].
    apply list_elem_of_singleton in Hx as ->. done. }
  destruct (provisioning_creates_one_account 1 Example.google_dave Example.env
              Example.store 0 Hhealthy Hnone Hnoemail Hnosso (Nat.lt_0_succ 0) Hfree)
    as (u & w' & suffix & Hrun & Hu & _ & _ & _ & _ & Hf & Hl & _ & _ & _ & _ & Hpw & _).
  exists u, w'. split_and!; done.
Defined.

(** C4, counterexample. Resolving the Apple assertion of subject sub-123
    with Carol's address twice in a row, on a table that satisfies its
    constraints and a database that answers: no account is yielded the
    first time nor the second, because Alice holds that subject id under
    Google and both INSERTs are refused. *)
Lemma resolving_twice_is_refused_example :
  consistent (users Example.store)
  ∧ healthy Example.env
  ∧ ∃ w' w'',
      UsersViews.find_or_create_user 5 Example.apple_carol Example.env Example.store
      = (Raised IntegrityError, w')
      ∧ UsersViews.find_or_create_user 5 Example.apple_carol Example.env w'
        = (Raised IntegrityError, w'')
      ∧ users w'' = users Example.store.
Proof.
  split_and!.
  - intros [|[|i]] [|[|j]] a c Ha Hc Hk; try done;
      cbn in Ha, Hc; simplify_eq; exfalso;
      destruct Hk as [?|[?|[?|(? & ? & ?)]]]; done.
  - intros n. reflexivity.
  - eexists _, _. split_and!; [vm_compute; reflexivity | vm_compute; reflexivity
                              | reflexivity].
Qed.

(** C4, amended. Resolving the same assertion twice in a row, on a table
    that satisfies its constraints. Whatever the two outcomes are, the two
    resolutions together add at most one account. When the database
    answers and the store does not refuse the first resolution (an account
    has the assertion's provider and subject id; or none has, and the
    account with its email can take the subject id; or no account has its
    identity, email or subject id and a generated username is free), the
    first resolution returns an account and the second one (with any fuel
    and entropy, the database answering the lookup) returns the same
    account through the exact match, writes nothing and leaves the table as
    the first left it. *)
Theorem resolving_twice_returns_the_same_account fuel user_info env w :
  consistent (users w) →
  (∀ r w' fuel2 env2,
     UsersViews.find_or_create_user fuel user_info env w = (r, w') →
     (length (users (UsersViews.find_or_create_user fuel2 user_info env2 w').2)
      ≤ S (length (users w)))%nat
     ∧ ∀ u, r = Returned u →
            db_fault env2 (length (trace w')) = false →
            ∃ w'',
              UsersViews.find_or_create_user fuel2 user_info env2 w'
              = (Returned u, w'')
              ∧ users w'' = users w'
              ∧ profiles w'' = profiles w'
              ∧ writes (trace w'') = writes (trace w'))
  ∧ (healthy env → resolvable env fuel user_info w →
     ∃ u w',
       UsersViews.find_or_create_user fuel user_info env w = (Returned u, w')
       ∧ u ∈ users w'
       ∧ (length (users w') ≤ S (length (users w)))%nat
       ∧ ∀ fuel2 env2,
           db_fault env2 (length (trace w')) = false →
           ∃ w'',
             UsersViews.find_or_create_user fuel2 user_info env2 w'
             = (Returned u, w'')
             ∧ users w'' = users w'
             ∧ profiles w'' = profiles w'
             ∧ writes (trace w'') = writes (trace w')).
Proof.
  intros Hcons. split.
  - intros r w' fuel2 env2 Hrun.
    by destruct (resolving_again _ _ _ _ _ _ Hcons Hrun) as [_ Hagain].
  - intros Henv Hres.
    destruct (find_or_create_user_returns _ _ _ _ Henv Hcons Hres) as (u & w' & Hrun).
    destruct (resolving_again _ _ _ _ _ _ Hcons Hrun) as [Hlen Hagain].
    exists u, w'. split_and!; [done | | done |].
    + apply find_or_create_user_table in Hrun
        as [[-> Hu]|[(b & _ & Hb & _ & [= ->] & ->)|(x & _ & -> & _ & _ & _ & _ & Hu)]].
      * specialize (Hu u eq_refl).
        by apply first_elem_of, list_elem_of_filter in Hu as [_ Hu].
      * apply list_elem_of_fmap. exists b. by rewrite bool_decide_eq_true_2.
      * rewrite (Hu u eq_refl). apply elem_of_app. right. left.
    + intros fuel2 env2 Hdb. by apply (Hagain fuel2 env2).
Qed.

Lemma resolving_twice_returns_the_same_account_witness :
  ∃ u w' w'',
    UsersViews.find_or_create_user 1 Example.google_dave Example.env Example.store
    = (Returned u, w')
    ∧ UsersViews.find_or_create_user 0 Example.google_dave Example.env w'
      = (Returned u, w'')
    ∧ users w'' = users w'
    ∧ (length (users w'') ≤ 3)%nat.
Proof.
  assert (Hcons : consistent (users Example.store)).
  { intros [|[|i]] [|[|j]] a c Ha Hc Hk; try done;
      cbn in Ha, Hc; simplify_eq; exfalso;
      destruct Hk as [?|[?|[?|(? & ? & ?)]]]; done. }
  assert (Hhealthy : healthy Example.env) by (intros n; reflexivity).
  assert (Hres : resolvable Example.env 1 Example.google_dave Example.store).
  { right. right. split_and!.
    - intros a Ha [_ Hs].
      apply elem_of_cons in Ha as [->|Ha]; [done|].
      apply list_elem_of_singleton in Ha as ->. done.
    - intros a Ha.
      apply elem_of_cons in Ha as [->|Ha]; [done|].
      apply list_elem_of_singleton in Ha as ->. done.
    - intros a Ha.
      apply elem_of_cons in Ha as [->|Ha]; [done|].
      apply list_elem_of_singleton in Ha as ->. done.
    - exists 0%nat. split; [lia|].
      intros [x [Hx Hn]]%Exists_exists.
      apply elem_of_cons in Hx as [->|Hx]; [done|].
      apply list_elem_of_singleton in Hx as ->. done. }
  destruct (resolving_twice_returns_the_same_account 1 Example.google_dave
              Example.env Example.store Hcons) as [_ Htotal].
  destruct (Htotal Hhealthy Hres) as (u & w' & Hrun & _ & Hlen & Hsame).
  destruct (Hsame 0%nat Example.env eq_refl) as (w'' & Hrun2 & Hu & _).
  exists u, w', w''. split; [done|]. split; [exact Hrun2|]. split; [exact Hu|].
  rewrite Hu. exact Hlen.
Defined.

(** ** The authentication endpoint *)

Lemma sso_authenticate_valid fuel request provider id_token :
  SsoRequest.provider request = Some provider →
  provider ∈ ["apple"; "google"] →
  SsoRequest.id_token request = Some id_token →
  Py.truthy id_token = true →
  UsersViews.sso_authenticate fuel request
  = try_except
      (user_info <- UsersViews.verified_user_info provider id_token request ;;
       let user_info := UsersViews.override_from_request request user_info in
       user <- UsersViews.find_or_create_user fuel user_info ;;
       tokens <- UsersViews.get_tokens_for_user user ;;
       user_data <- UserSerializer user ;;
       ret (mkResponse (Tokens tokens.1 tokens.2 user_data) HTTP_200_OK))
      UsersViews.on_exception.
Proof.
  intros Hp Hin Ht Htruthy. unfold UsersViews.sso_authenticate.
  rewrite Hp, Ht, Htruthy, (bool_decide_eq_true_2 _ Hin).
  apply elem_of_cons in Hin as [->|Hin]; [done|].
  apply list_elem_of_singleton in Hin as ->. done.
Qed.

Lemma sso_authenticate_token_error fuel request provider id_token env w msg :
  SsoRequest.provider request = Some provider →
  provider ∈ ["apple"; "google"] →
  SsoRequest.id_token request = Some id_token →
  Py.truthy id_token = true →
  DEBUG env && SsoRequest.dev_mode request = false →
  Services.verify_sso_token provider id_token env w
  = (Raised (TokenVerificationError msg), w) →
  UsersViews.sso_authenticate fuel request env w
  = (Returned (mkResponse (Detail msg) HTTP_401_UNAUTHORIZED), w).
Proof.
  intros Hp Hin Ht Htruthy Hdev Hverify.
  rewrite (sso_authenticate_valid _ _ _ _ Hp Hin Ht Htruthy).
  assert (UsersViews.verified_user_info provider id_token request env w
          = (Raised (TokenVerificationError msg), w)) as Hv.
  { unfold UsersViews.verified_user_info, bind, ask. by rewrite Hdev. }
  unfold try_except. by rewrite (bind_raised _ _ _ _ _ _ Hv).
Qed.

Lemma find_or_create_user_raises fuel user_info env w e w' :
  UsersViews.find_or_create_user fuel user_info env w = (Raised e, w') →
  e = OperationalError ∨ e = IntegrityError.
Proof.
  intros (_ & _ & Hcases)%find_or_create_user_inv.
  destruct Hcases as [([= ->] & _)|[(u & _ & ? & _)|[Hlink|Hprov]]]; [by left | done | |].
  - destruct Hlink as (b & _ & _ & _ & _ & [([= ->] & _)|(? & _)]); [by right | done].
  - destruct Hprov as (_ & _ & w2 & _ & _ & _ & _ & _ & Hrun).
    apply create_new_user_inv in Hrun as (_ & _ & [[_ Hr]|Hdone]).
    + destruct Hr as [[? _]|[[[= ->] _]|[[= ->] _]]]; [done | by left | by right].
    + destruct Hdone as (? & ? & ? & _ & _ & _ & _ & [([= ->] & _)|(? & _)]);
        [by left | done].
Qed.

Lemma verified_user_info_real provider id_token request env w :
  DEBUG env && SsoRequest.dev_mode request = false →
  UsersViews.verified_user_info provider id_token request env w
  = Services.verify_sso_token provider id_token env w.
Proof. intros Hdev. unfold UsersViews.verified_user_info, bind, ask. by rewrite Hdev. Qed.

(** The ways a run of the endpoint on a valid request ends. *)
Lemma sso_authenticate_inv fuel request provider id_token env w r w' :
  SsoRequest.provider request = Some provider →
  provider ∈ ["apple"; "google"] →
  SsoRequest.id_token request = Some id_token →
  Py.truthy id_token = true →
  UsersViews.sso_authenticate fuel request env w = (r, w') →
  profiles w' = profiles w
  ∧ (r = Diverged
     ∨ (∃ msg, r = Returned (mkResponse (Detail msg) HTTP_401_UNAUTHORIZED)
               ∧ w' = w
               ∧ UsersViews.verified_user_info provider id_token request env w
                 = (Raised (TokenVerificationError msg), w))
     ∨ (r = Returned (mkResponse (Detail "Authentication failed. Please try again.")
                        HTTP_500_INTERNAL_SERVER_ERROR)
        ∧ ∃ e,
            (∀ msg, e ≠ TokenVerificationError msg)
            ∧ (UsersViews.verified_user_info provider id_token request env w
               = (Raised e, w) ∧ w' = w
               ∨ ∃ user_info,
                   UsersViews.verified_user_info provider id_token request env w
                   = (Returned user_info, w)
                   ∧ (UsersViews.find_or_create_user fuel
                        (UsersViews.override_from_request request user_info) env w
                      = (Raised e, w')
                      ∨ ∃ user w1,
                          UsersViews.find_or_create_user fuel
                            (UsersViews.override_from_request request user_info) env w
                          = (Returned user, w1)
                          ∧ UserSerializer user env w1 = (Raised e, w'))))
     ∨ (∃ user_info user w1,
          UsersViews.verified_user_info provider id_token request env w
          = (Returned user_info, w)
          ∧ UsersViews.find_or_create_user fuel
              (UsersViews.override_from_request request user_info) env w
            = (Returned user, w1)
          ∧ w' = log (SelectProfileByUser (User.id user)) w1
          ∧ r = Returned
                  (mkResponse
                     (Tokens (RefreshToken_for_user env user).1
                        (RefreshToken_for_user env user).2
                        (UserData.mk (User.id user) (User.email user)
                           (User.username user) (User.first_name user)
                           (User.last_name user) (User.sso_provider user)
                           (User.onboarding_completed user)
                           (head (filter (λ p, UserProfile.user_id p = User.id user)
                                    (profiles w)))))
                     HTTP_200_OK))).
Proof.
  intros Hp Hin Ht Htruthy.
  rewrite (sso_authenticate_valid _ _ _ _ Hp Hin Ht Htruthy).
  unfold try_except.
  destruct (UsersViews.verified_user_info provider id_token request env w)
    as [[user_info|e|] w0] eqn:Hv;
    pose proof (read_only_verified_user_info _ _ _ _ _ _ _ Hv) as ->.
  2:{ rewrite (bind_raised _ _ _ _ _ _ Hv).
      destruct e; cbn; intros [= <- <-]; (split; [done|]);
        first
          [ right; left; eexists; split_and!; reflexivity
          | right; right; left; (split; [reflexivity|]); eexists;
            (split; [|left; split; reflexivity]);
            intros ?; discriminate ]. }
  2:{ unfold bind at 1. rewrite Hv. intros [= <- <-]. split; [done|]. by left. }
  rewrite (bind_returned _ _ _ _ _ _ Hv). cbv zeta.
  destruct (UsersViews.find_or_create_user fuel
              (UsersViews.override_from_request request user_info) env w)
    as [[user|e|] w1] eqn:Hf;
    pose proof (find_or_create_user_inv _ _ _ _ _ _ Hf) as (Hprof & _).
  2:{ rewrite (bind_raised _ _ _ _ _ _ Hf).
      apply find_or_create_user_raises in Hf as He.
      destruct He as [->| ->]; cbn; intros [= <- <-]; (split; [done|]);
        right; right; left; (split; [reflexivity|]); eexists;
        (split; [|right; exists user_info; split; [reflexivity|left; exact Hf]]);
        intros ?; discriminate. }
  2:{ unfold bind at 1. rewrite Hf. intros [= <- <-]. split; [done|]. by left. }
  rewrite (bind_returned _ _ _ _ _ _ Hf).
  unfold UsersViews.get_tokens_for_user.
  unfold bind at 1 2, ask, ret. unfold bind at 1.
  destruct (UserSerializer user env w1) as [rs ws] eqn:Hser.
  assert (Hs := Hser). unfold UserSerializer in Hs. unfold bind at 1 in Hs.
  rewrite statement_run in Hs.
  destruct (db_fault env (length (trace w1))); injection Hs as <- <-; cbn.
  - intros [= <- <-]. split; [done|].
    right; right; left. split; [done|]. exists OperationalError. split; [done|].
    right. exists user_info. split; [done|]. right. by exists user, w1.
  - intros [= <- <-]. split; [done|].
    do 3 right. exists user_info, user, w1. rewrite <- Hprof. done.
Qed.

(** ** Why the verifier raises *)

Lemma provider_failure_raises provider id_token env w :
  provider_unreachable env provider id_token
  ∨ provider_unusable env provider id_token →
  Services.verify_sso_token provider id_token env w
  = (Raised (TokenVerificationError
               ("Failed to verify " +:+ provider_name provider +:+ " token")), w).
Proof.
  intros [[[-> [m Hm]]|[-> [m Hm]]]
         |[(-> & status & body & Hk & Hbad)|[-> Hg]]].
  - change (Services.verify_sso_token "apple" id_token)
      with (Services.verify_apple_token id_token).
    unfold Services.verify_apple_token, Services.requests_get,
      try_except, bind, ask. by rewrite Hm.
  - change (Services.verify_sso_token "google" id_token)
      with (Services.verify_google_token id_token).
    unfold Services.verify_google_token, Services.requests_get,
      try_except, bind, ask. by rewrite Hm.
  - change (Services.verify_sso_token "apple" id_token)
      with (Services.verify_apple_token id_token).
    unfold Services.verify_apple_token, Services.requests_get,
      Services.raise_for_status, Services.response_json, try_except, bind, ask.
    rewrite Hk. unfold ret, raise. cbn [fst snd].
    case_bool_decide as Hstatus; [done|].
    destruct Hbad as [? | ->]; done.
  - change (Services.verify_sso_token "google" id_token)
      with (Services.verify_google_token id_token).
    unfold Services.verify_google_token, Services.requests_get,
      Services.response_json, try_except, bind, ask.
    rewrite Hg. unfold ret, raise. cbn [fst snd].
    by rewrite bool_decide_eq_false_2 by (by intros []).
Qed.

Lemma token_rejected_raises provider id_token msg env w :
  token_rejected env provider id_token msg →
  Services.verify_sso_token provider id_token env w
  = (Raised (TokenVerificationError msg), w).
Proof.
  intros [(-> & status & keys & Hk & Hstatus & Hwhy)|(-> & Hwhy)].
  - change (Services.verify_sso_token "apple" id_token)
      with (Services.verify_apple_token id_token).
    unfold Services.verify_apple_token, Services.requests_get,
      Services.raise_for_status, Services.response_json, Services.jose,
      Services.getitem, try_except, bind, ask, ret, raise.
    rewrite Hk. cbn [fst snd]. rewrite (bool_decide_eq_false_2 _ Hstatus).
    destruct Hwhy as [(m & -> & ->)|(header & -> & Hkey)]; [done|].
    destruct Hkey as [[[-> | ->] ->]|(key & m & -> & Hne & -> & ->)].
    + done.
    + by rewrite bool_decide_eq_true_2.
    + by rewrite (bool_decide_eq_false_2 _ Hne).
  - change (Services.verify_sso_token "google" id_token)
      with (Services.verify_google_token id_token).
    unfold Services.verify_google_token, Services.requests_get,
      Services.response_json, Services.getitem, try_except, bind, ask, ret, raise.
    destruct Hwhy as [(status & body & -> & Hstatus & ->)|(payload & -> & Hwhy)];
      cbn [fst snd].
    { by rewrite (bool_decide_eq_true_2 _ Hstatus). }
    rewrite bool_decide_eq_false_2 by (by intros []).
    destruct Hwhy as [(-> & Haud & ->)|(Haud & Hiss & ->)].
    + by rewrite (bool_decide_eq_true_2 _ Haud).
    + assert (Py.truthy (GOOGLE_CLIENT_ID env)
              && bool_decide (payload !! "aud" ≠ Some (GOOGLE_CLIENT_ID env)) = false)
        as ->.
      { destruct Haud as [->|Haud]; [done|].
        rewrite (bool_decide_eq_false_2 _ (λ H, H Haud)). apply andb_false_r. }
      by rewrite (bool_decide_eq_true_2 _ Hiss).
Qed.

Lemma verify_sso_token_raises provider id_token env w e w' :
  provider ∈ ["apple"; "google"] →
  Services.verify_sso_token provider id_token env w = (Raised e, w') →
  w' = w
  ∧ (e = TokenVerificationError
           ("Failed to verify " +:+ provider_name provider +:+ " token")
     ∧ (provider_unreachable env provider id_token
        ∨ provider_unusable env provider id_token)
     ∨ (∃ msg, e = TokenVerificationError msg
               ∧ token_rejected env provider id_token msg)
     ∨ e = KeyError "sub").
Proof.
  intros Hin. apply elem_of_cons in Hin as [->|Hin].
  - change (Services.verify_sso_token "apple" id_token)
      with (Services.verify_apple_token id_token).
    unfold Services.verify_apple_token, Services.requests_get,
      Services.raise_for_status, Services.response_json, Services.jose,
      Services.getitem, try_except, bind, ask, ret, raise.
    destruct (apple_keys env) as [m|status body] eqn:Hk; cbn [fst snd].
    { intros [= <- <-]. split; [done|]. left. split; [done|].
      left. left. split; [done|]. by exists m. }
    case_bool_decide as Hstatus.
    { intros [= <- <-]. split; [done|]. left. split; [done|].
      right. left. split; [done|]. exists status, body. split; [done|]. by left. }
    destruct body as [keys|].
    2:{ intros [= <- <-]. split; [done|]. left. split; [done|].
        right. left. split; [done|]. exists status, None. split; [done|]. by right. }
    destruct (jwt_get_unverified_header env id_token) as [m|header] eqn:Hh.
    { intros [= <- <-]. split; [done|]. right. left. eexists. split; [done|].
      left. split; [done|]. exists status, keys. split_and!; [done..|].
      left. by exists m. }
    destruct (head (filter _ keys)) as [key|] eqn:Hkey.
    2:{ intros [= <- <-]. split; [done|]. right. left. eexists. split; [done|].
        left. split; [done|]. exists status, keys. split_and!; [done..|].
        right. exists header. split; [done|]. left. split; [by left | done]. }
    case_bool_decide as Hempty.
    { intros [= <- <-]. split; [done|]. right. left. eexists. split; [done|].
      left. split; [done|]. exists status, keys. split_and!; [done..|].
      right. exists header. split; [done|]. left. subst key.
      split; [by right | done]. }
    destruct (jwt_decode env id_token key _ _) as [m|payload] eqn:Hd.
    { intros [= <- <-]. split; [done|]. right. left. eexists. split; [done|].
      left. split; [done|]. exists status, keys. split_and!; [done..|].
      right. exists header. split; [done|]. right. by exists key, m. }
    destruct (payload !! "sub") as [sub|]; intros [= <- <-].
    split; [done|]. by right; right.
  - apply list_elem_of_singleton in Hin as ->.
    change (Services.verify_sso_token "google" id_token)
      with (Services.verify_google_token id_token).
    unfold Services.verify_google_token, Services.requests_get,
      Services.response_json, Services.getitem, try_except, bind, ask, ret, raise.
    destruct (google_tokeninfo env id_token) as [m|status body] eqn:Hg;
      cbn [fst snd].
    { intros [= <- <-]. split; [done|]. left. split; [done|].
      left. right. split; [done|]. by exists m. }
    case_bool_decide as Hstatus.
    { intros [= <- <-]. split; [done|]. right. left. eexists. split; [done|].
      right. split; [done|]. left. by exists status, body. }
    subst status. destruct body as [payload|].
    2:{ intros [= <- <-]. split; [done|]. left. split; [done|].
        right. right. done. }
    destruct (Py.truthy (GOOGLE_CLIENT_ID env)) eqn:Hcid; cbn [andb].
    + case_bool_decide as Haud.
      { intros [= <- <-]. split; [done|]. right. left. eexists. split; [done|].
        right. split; [done|]. right. exists payload. split; [done|]. by left. }
      case_bool_decide as Hiss.
      { intros [= <- <-]. split; [done|]. right. left. eexists. split; [done|].
        right. split; [done|]. right. exists payload. split; [done|]. right.
        split_and!; [|done|done]. right.
        destruct (decide (payload !! "aud" = Some (GOOGLE_CLIENT_ID env))); [done|].
        by destruct Haud. }
      destruct (payload !! "sub") as [sub|]; intros [= <- <-].
      split; [done|]. by right; right.
    + case_bool_decide as Hiss.
      { intros [= <- <-]. split; [done|]. right. left. eexists. split; [done|].
        right. split; [done|]. right. exists payload. split; [done|]. right.
        split_and!; [by left|done|done]. }
      destruct (payload !! "sub") as [sub|]; intros [= <- <-].
      split; [done|]. by right; right.
Qed.

Lemma rejection_message_differs env provider id_token msg :
  token_rejected env provider id_token msg →
  msg ≠ "Failed to verify " +:+ provider_name provider +:+ " token".
Proof.
  intros [(-> & status & keys & _ & _ & Hwhy)|(-> & Hwhy)].
  - destruct Hwhy as [(m & _ & ->)|(header & _ & [[_ ->]|(key & m & _ & _ & _ & ->)])];
      done.
  - destruct Hwhy as [(? & ? & _ & _ & ->)|(? & _ & [(_ & _ & ->)|(_ & _ & ->)])];
      done.
Qed.

(** C5, counterexample. With Apple out of reach the
    endpoint answers 401, not a server-side status, and that is the status
    it answers for a token Apple's keys do not verify. *)
Lemma unreachable_provider_example :
  ∃ unreachable invalid,
    UsersViews.sso_authenticate 0 (Example.request "apple")
      Example.env_unreachable Example.store
    = (Returned unreachable, Example.store)
    ∧ UsersViews.sso_authenticate 0 (Example.request "apple")
        Example.env_invalid Example.store
      = (Returned invalid, Example.store)
    ∧ status unreachable = 401%Z
    ∧ ¬ (500 ≤ status unreachable)%Z
    ∧ status unreachable = status invalid.
Proof.
  eexists _, _. split_and!; [by vm_compute | by vm_compute | done | | done].
  cbn. lia.
Qed.

(** C5, amended. For a request that passes validation and is verified for
    real. When the provider cannot be reached the verifier raises
    [TokenVerificationError], the exception it raises for an invalid token,
    with the message [Failed to verify Apple token] (or [Google]), and the
    endpoint answers 401 with that message and touches nothing. A token the
    provider rejects gets a 401 as well, carrying the message of its
    rejection, which is never that one. Every [TokenVerificationError] of
    the verifier is answered 401 with its own message, and it comes from a
    provider out of reach or answering something unusable, or from a
    rejected token. Every other exception of the verifier is answered 500
    with the fixed message; and a 401 answer always comes from a
    [TokenVerificationError] of the verifier, a 500 answer always from
    another exception, raised by the verifier, the resolver or the
    serializer. *)
Theorem unreachable_provider_is_answered_401 fuel request provider id_token env w :
  SsoRequest.provider request = Some provider →
  provider ∈ ["apple"; "google"] →
  SsoRequest.id_token request = Some id_token →
  Py.truthy id_token = true →
  DEBUG env && SsoRequest.dev_mode request = false →
  let unreachable := "Failed to verify " +:+ provider_name provider +:+ " token" in
  let answer_401 msg := mkResponse (Detail msg) HTTP_401_UNAUTHORIZED in
  let answer_500 :=
    mkResponse (Detail "Authentication failed. Please try again.")
      HTTP_500_INTERNAL_SERVER_ERROR in
  (provider_unreachable env provider id_token →
   Services.verify_sso_token provider id_token env w
   = (Raised (TokenVerificationError unreachable), w)
   ∧ UsersViews.sso_authenticate fuel request env w
     = (Returned (answer_401 unreachable), w))
  ∧ (∀ msg, token_rejected env provider id_token msg →
       Services.verify_sso_token provider id_token env w
       = (Raised (TokenVerificationError msg), w)
       ∧ UsersViews.sso_authenticate fuel request env w
         = (Returned (answer_401 msg), w)
       ∧ msg ≠ unreachable)
  ∧ (∀ msg w',
       Services.verify_sso_token provider id_token env w
       = (Raised (TokenVerificationError msg), w') →
       w' = w
       ∧ UsersViews.sso_authenticate fuel request env w
         = (Returned (answer_401 msg), w)
       ∧ (msg = unreachable
          ∧ (provider_unreachable env provider id_token
             ∨ provider_unusable env provider id_token)
          ∨ token_rejected env provider id_token msg))
  ∧ (∀ e w',
       Services.verify_sso_token provider id_token env w = (Raised e, w') →
       (∀ msg, e ≠ TokenVerificationError msg) →
       w' = w
       ∧ UsersViews.sso_authenticate fuel request env w = (Returned answer_500, w))
  ∧ (∀ response w',
       UsersViews.sso_authenticate fuel request env w = (Returned response, w') →
       (status response = 401%Z →
        w' = w
        ∧ ∃ msg,
            Services.verify_sso_token provider id_token env w
            = (Raised (TokenVerificationError msg), w)
            ∧ response = answer_401 msg)
       ∧ (status response = 500%Z →
          response = answer_500
          ∧ ∃ e,
              (∀ msg, e ≠ TokenVerificationError msg)
              ∧ (Services.verify_sso_token provider id_token env w = (Raised e, w)
                 ∨ ∃ user_info,
                     Services.verify_sso_token provider id_token env w
                     = (Returned user_info, w)
                     ∧ (UsersViews.find_or_create_user fuel
                          (UsersViews.override_from_request request user_info) env w
                        = (Raised e, w')
                        ∨ ∃ user w1,
                            UsersViews.find_or_create_user fuel
                              (UsersViews.override_from_request request user_info)
                              env w
                            = (Returned user, w1)
                            ∧ UserSerializer user env w1 = (Raised e, w'))))).
Proof.
  intros Hp Hin Ht Htruthy Hdev unreachable answer_401 answer_500.
  assert (H401 : ∀ msg,
            Services.verify_sso_token provider id_token env w
            = (Raised (TokenVerificationError msg), w) →
            UsersViews.sso_authenticate fuel request env w
            = (Returned (answer_401 msg), w)).
  { intros msg Hverify. by eapply sso_authenticate_token_error. }
  split_and!.
  - intros Hun.
    pose proof (provider_failure_raises provider id_token env w (or_introl Hun))
      as Hverify.
    split; [exact Hverify | by apply H401].
  - intros msg Hrej.
    pose proof (token_rejected_raises provider id_token msg env w Hrej) as Hverify.
    split_and!; [exact Hverify | by apply H401 |].
    by eapply rejection_message_differs.
  - intros msg w' Hverify.
    apply verify_sso_token_raises in Hverify as Hwhy; [|done].
    destruct Hwhy as [-> Hwhy]. split_and!; [done | by apply H401 |].
    destruct Hwhy as [[[= ->] Hfail]|[(msg' & [= ->] & Hrej)|[=]]]; auto.
  - intros e w' Hverify Hother.
    apply verify_sso_token_raises in Hverify as Hwhy; [|done].
    destruct Hwhy as [-> _]. split; [done|].
    rewrite (sso_authenticate_valid _ _ _ _ Hp Hin Ht Htruthy).
    assert (UsersViews.verified_user_info provider id_token request env w
            = (Raised e, w)) as Hv.
    { by rewrite verified_user_info_real. }
    unfold try_except. rewrite (bind_raised _ _ _ _ _ _ Hv).
    destruct e; try reflexivity. by destruct (Hother msg).
  - intros response w' Hrun.
    pose proof (sso_authenticate_inv _ _ _ _ _ _ _ _ Hp Hin Ht Htruthy Hrun)
      as [_ Hcases].
    rewrite !verified_user_info_real in Hcases by done.
    destruct Hcases as [Hr|[(msg & Hr & Hw & Hv)|[(Hr & e & He & Hwhy)
                       |(user_info & user & w1 & _ & _ & _ & Hr)]]];
      [done | injection Hr as ->.. ]; cbn [status].
    + split; [|done]. intros _. split; [done|]. by exists msg.
    + split; [done|]. intros _. split; [done|]. exists e. split; [done|].
      destruct Hwhy as [[Hv ->]|Hwhy]; [by left | by right].
    + split; done.
Qed.

Lemma unreachable_provider_is_answered_401_witness :
  provider_unreachable Example.env_unreachable "google" "tok"
  ∧ token_rejected Example.env_invalid "google" "tok" "Invalid Google token"
  ∧ UsersViews.sso_authenticate 0 (Example.request "google")
      Example.env_unreachable Example.store
    = (Returned (mkResponse (Detail "Failed to verify Google token") 401),
       Example.store)
  ∧ UsersViews.sso_authenticate 0 (Example.request "google")
      Example.env_invalid Example.store
    = (Returned (mkResponse (Detail "Invalid Google token") 401), Example.store).
Proof.
  assert (Hun : provider_unreachable Example.env_unreachable "google" "tok").
  { right. split; [done|]. by eexists. }
  assert (Hrej : token_rejected Example.env_invalid "google" "tok"
                   "Invalid Google token").
  { right. split; [done|]. left. by eexists _, _. }
  split_and!; [done | done | |].
  - destruct (unreachable_provider_is_answered_401 0 (Example.request "google")
                "google" "tok" Example.env_unreachable Example.store
                eq_refl ltac:(by right; left) eq_refl eq_refl eq_refl)
      as (Hunreachable & _).
    by destruct (Hunreachable Hun) as [_ Hanswer].
  - destruct (unreachable_provider_is_answered_401 0 (Example.request "google")
                "google" "tok" Example.env_invalid Example.store
                eq_refl ltac:(by right; left) eq_refl eq_refl eq_refl)
      as (_ & Hrejected & _).
    by destruct (Hrejected _ Hrej) as (_ & Hanswer & _).
Defined.

(** C6, counterexample. Apple verifies the token as subject
    sub-123 of carol@example.com, the INSERT of the new account is refused
    because Alice holds that subject id, and the endpoint answers 500 at
    once. The trace holds one lookup sequence and one INSERT, where a
    retry would show two lookups. *)
Lemma uniqueness_violation_example :
  ∃ w',
    UsersViews.sso_authenticate 5 (Example.request "apple") Example.env Example.store
    = (Returned (mkResponse (Detail "Authentication failed. Please try again.") 500),
       w')
    ∧ lookups (trace w') = 1%nat
    ∧ inserts (trace w') = 1%nat
    ∧ users w' = users Example.store.
Proof.
  eexists. split; [vm_compute; reflexivity|].
  split_and!; vm_compute; reflexivity.
Qed.

(** C6, amended. When a write of the resolver is refused for a uniqueness
    violation, the endpoint answers 500 with the fixed message straight
    away: the lookup sequence ran once, nothing is retried, and the table
    is as it was. *)
Theorem uniqueness_violation_is_answered_500_without_retry
    fuel request provider id_token env w user_info w1 w' :
  SsoRequest.provider request = Some provider →
  provider ∈ ["apple"; "google"] →
  SsoRequest.id_token request = Some id_token →
  Py.truthy id_token = true →
  UsersViews.verified_user_info provider id_token request env w
  = (Returned user_info, w1) →
  UsersViews.find_or_create_user fuel
    (UsersViews.override_from_request request user_info) env w1
  = (Raised IntegrityError, w') →
  UsersViews.sso_authenticate fuel request env w
  = (Returned (mkResponse (Detail "Authentication failed. Please try again.")
                 HTTP_500_INTERNAL_SERVER_ERROR), w')
  ∧ lookups (trace w') = S (lookups (trace w))
  ∧ users w' = users w
  ∧ profiles w' = profiles w.
Proof.
  intros Hp Hin Ht Htruthy Hverify Hrun.
  pose proof (read_only_verified_user_info _ _ _ _ _ _ _ Hverify) as ->.
  split.
  - rewrite (sso_authenticate_valid _ _ _ _ Hp Hin Ht Htruthy).
    unfold try_except. rewrite (bind_returned _ _ _ _ _ _ Hverify).
    cbn zeta. by rewrite (bind_raised _ _ _ _ _ _ Hrun).
  - apply find_or_create_user_inv in Hrun as (Hprof & Hl & Hcases).
    split_and!; [done| |done].
    destruct Hcases as [(? & _)|[(u & _ & ? & _)|[Hlink|Hprov]]]; [done..| |].
    + by destruct Hlink as (b & _ & _ & _ & _ & [(_ & ? & _)|(? & _)]).
    + destruct Hprov as (_ & _ & w2 & Hu2 & _ & _ & _ & _ & Hrun).
      apply create_new_user_inv in Hrun as (_ & _ & Hcases). rewrite Hu2 in Hcases.
      destruct Hcases as [[? _]|Hdone]; [done|].
      by destruct Hdone as (? & ? & ? & _ & _ & _ & _ & [(? & _)|(? & _)]).
Qed.

Lemma uniqueness_violation_is_answered_500_without_retry_witness :
  ∃ w',
    UsersViews.sso_authenticate 5 (Example.request "apple") Example.env Example.store
    = (Returned (mkResponse (Detail "Authentication failed. Please try again.") 500),
       w')
    ∧ lookups (trace w') = S (lookups (trace Example.store))
    ∧ users w' = users Example.store.
Proof.
  assert (Hin : "apple" ∈ ["apple"; "google"]) by left.
  destruct (UsersViews.find_or_create_user 5
              (UsersViews.override_from_request (Example.request "apple")
                 Example.apple_carol) Example.env Example.store)
    as [r w'] eqn:Hrun.
  assert (r = Raised IntegrityError) as ->.
  { vm_compute in Hrun. by injection Hrun as <- _. }
  destruct (uniqueness_violation_is_answered_500_without_retry 5
              (Example.request "apple") "apple" "tok" Example.env Example.store
              Example.apple_carol Example.store w'
              eq_refl Hin eq_refl eq_refl eq_refl Hrun)
    as (Hresp & Hl & Hu & _).
  exists w'. split; [exact Hresp|]. split; [exact Hl | exact Hu].
Defined.

(** C7, counterexample. The connection is lost after the
    INSERT of Dave's account and before the UPDATE that stores the unusable
    password. The resolver raises, and the table keeps a row for Dave
    whose password is blank, which Django counts as usable. *)
Lemma partial_account_example :
  ∃ row w',
    UsersViews.find_or_create_user 1 Example.google_dave (Example.env_outage 4)
      Example.store
    = (Raised OperationalError, w')
    ∧ users w' = [Example.alice; Example.bob; row]
    ∧ User.sso_id row = Some "sub-456"
    ∧ User.password row = EmptyString
    ∧ User.has_usable_password row = true.
Proof.
  eexists _, _. split; [vm_compute; reflexivity|].
  split_and!; vm_compute; reflexivity.
Qed.

(** C7, amended. Provisioning writes the account in two statements: an
    INSERT of the whole row, its provider and subject id set and its
    password blank, then an UPDATE that stores the unusable password. A
    run that fails before or at the INSERT adds no row; a run that returns
    has added the finished account; a run in which the UPDATE finds the
    connection broken leaves the inserted row, password blank. *)
Theorem provisioning_is_an_insert_then_an_update fuel user_info env w r w' :
  UsersViews.create_new_user fuel user_info env w = (r, w') →
  (users w' = users w ∧ ∀ u, r ≠ Returned u)
  ∨ ∃ u,
      User.sso_provider u = Some (SSOUserInfo.provider user_info)
      ∧ User.sso_id u = Some (SSOUserInfo.sso_id user_info)
      ∧ User.has_usable_password u = false
      ∧ User.has_usable_password (with_password EmptyString u) = true
      ∧ writes (trace w')
        = (writes (trace w)
           ++ [InsertUser (with_password EmptyString u);
               UpdateUser User.columns u])%list
      ∧ (r = Returned u ∧ users w' = (users w ++ [u])%list
         ∨ r = Raised OperationalError ∧ ¬ healthy env
           ∧ users w' = (users w ++ [with_password EmptyString u])%list).
Proof.
  intros Hrun. apply create_new_user_inv in Hrun as (_ & _ & [[Hu Hr]|Hdone]).
  - left. split; [done|]. intros u ->.
    by destruct Hr as [[? _]|[[? _]|[? _]]].
  - right. destruct Hdone as (name & start & pstart & _ & _ & _ & Hw & Hr).
    exists (with_password (unusable_password env pstart)
              (inserted_row (users w) user_info name)).
    split_and!; [done | done | done | done | exact Hw |].
    destruct Hr as [(-> & ? & ->)|[-> ->]]; [right|left]; done.
Qed.

Lemma provisioning_is_an_insert_then_an_update_witness :
  ∃ row w',
    UsersViews.create_new_user 1 Example.google_dave (Example.env_outage 2)
      Example.store
    = (Raised OperationalError, w')
    ∧ users w' = (users Example.store ++ [row])%list
    ∧ User.has_usable_password row = true.
Proof.
  destruct (UsersViews.create_new_user 1 Example.google_dave (Example.env_outage 2)
              Example.store) as [r w'] eqn:Hrun.
  destruct (provisioning_is_an_insert_then_an_update _ _ _ _ _ _ Hrun)
    as [[Hu _]|(u & _ & _ & _ & Hpw & _ & [[-> _]|(-> & _ & Hu)])].
  - exfalso. vm_compute in Hrun. injection Hrun as _ <-. discriminate.
  - exfalso. vm_compute in Hrun. discriminate.
  - eauto.
Defined.

(** * Further properties *)

(** ** The resolver *)

Lemma find_or_create_user_returned fuel user_info env w u w' :
  UsersViews.find_or_create_user fuel user_info env w = (Returned u, w') →
  sso_match user_info u ∧ u ∈ users w'.
Proof.
  intros [[-> Hu]|[(b & _ & Hb & _ & [= ->] & ->)|(x & _ & -> & Hx & _ & _ & _ & Hu)]]
    %find_or_create_user_table.
  - specialize (Hu u eq_refl). by apply first_elem_of, list_elem_of_filter in Hu.
  - split; [done|]. apply list_elem_of_fmap. exists b.
    by rewrite bool_decide_eq_true_2.
  - rewrite (Hu u eq_refl). split; [done|]. apply elem_of_app. right. left.
Qed.

(** X1. Every run of [find_or_create_user], whatever its outcome and
    whether or not the database connection breaks on the way, takes a
    table that satisfies its constraints (distinct primary keys, usernames,
    emails and subject ids) to one that does; the profiles are not
    touched. *)
Theorem resolver_keeps_table_constraints fuel user_info env w r w' :
  consistent (users w) →
  UsersViews.find_or_create_user fuel user_info env w = (r, w') →
  consistent (users w') ∧ profiles w' = profiles w.
Proof.
  intros Hcons Hrun. split; [by eapply find_or_create_user_consistent|].
  by apply find_or_create_user_inv in Hrun as (? & _).
Qed.

Lemma resolver_keeps_table_constraints_witness :
  consistent (users Example.store)
  ∧ consistent
      (users (UsersViews.find_or_create_user 1 Example.google_dave Example.env
                Example.store).2).
Proof.
  assert (Hcons : consistent (users Example.store)).
  { intros [|[|i]] [|[|j]] a c Ha Hc Hk; try done;
      cbn in Ha, Hc; simplify_eq; exfalso;
      destruct Hk as [?|[?|[?|(? & ? & ?)]]]; done. }
  split; [done|].
  destruct (UsersViews.find_or_create_user 1 Example.google_dave Example.env
              Example.store) as [r w'] eqn:Hrun.
  exact (proj1 (resolver_keeps_table_constraints _ _ _ _ _ _ Hcons Hrun)).
Defined.

(** X2. No run of [find_or_create_user] deletes an account or alters one
    beyond its SSO link: every row of the table is found again, in the
    same order, either as it was or with [sso_provider] and [sso_id] set to
    the assertion's and every other column kept, and at most one row is
    added after them. *)
Theorem resolver_only_links_or_appends fuel user_info env w r w' :
  UsersViews.find_or_create_user fuel user_info env w = (r, w') →
  ∃ new,
    (length new ≤ 1)%nat
    ∧ length (users w') = (length (users w) + length new)%nat
    ∧ (∀ i a, users w !! i = Some a →
         ∃ a', users w' !! i = Some a'
               ∧ (a' = a ∨ a' = linked user_info a))
    ∧ ∀ x, x ∈ new → (users w' = users w ++ new)%list ∧ sso_match user_info x.
Proof.
  intros [[-> _]|[(b & _ & _ & _ & _ & ->)|(x & _ & -> & Hx & _)]]%find_or_create_user_table.
  - exists []. split_and!; [cbn; lia | cbn; lia | eauto | by intros x ?%elem_of_nil].
  - exists []. split_and!; [cbn; lia | | | by intros x ?%elem_of_nil].
    + unfold relink. rewrite length_fmap. cbn. lia.
    + intros i a Ha. unfold relink. rewrite list_lookup_fmap, Ha. cbn.
      eexists. split; [done|]. case_bool_decide; auto.
  - exists [x]. split_and!; [cbn; lia | by rewrite length_app | |].
    + intros i a Ha. exists a. split; [|by left].
      by apply lookup_app_l_Some.
    + by intros ? ->%list_elem_of_singleton.
Qed.

(** X3. The account [find_or_create_user] returns always carries the
    assertion's provider and subject id and is a row of the table the run
    leaves. *)
Theorem resolver_returns_a_stored_matching_account fuel user_info env w u w' :
  UsersViews.find_or_create_user fuel user_info env w = (Returned u, w') →
  sso_match user_info u ∧ u ∈ users w'.
Proof. apply find_or_create_user_returned. Qed.

Lemma resolver_returns_a_stored_matching_account_witness :
  ∃ u w',
    UsersViews.find_or_create_user 0 Example.google_bob Example.env Example.store
    = (Returned u, w')
    ∧ sso_match Example.google_bob u ∧ u ∈ users w'.
Proof.
  destruct (UsersViews.find_or_create_user 0 Example.google_bob Example.env
              Example.store) as [r w'] eqn:Hrun.
  assert (∃ u, r = Returned u) as [u ->].
  { vm_compute in Hrun. injection Hrun as <- _. eauto. }
  exists u, w'. split; [done|].
  exact (resolver_returns_a_stored_matching_account _ _ _ _ _ _ Hrun).
Defined.

(** X4. An assertion without an email is never linked to an existing
    account through the email lookup, even when an account with a blank
    email exists: no row of the table changes, and the account returned, if
    any, either already carried the assertion's provider and subject id or
    is the one new row. *)
Theorem blank_email_never_links fuel user_info env w r w' :
  Py.truthy (SSOUserInfo.email user_info) = false →
  UsersViews.find_or_create_user fuel user_info env w = (r, w') →
  (users w' = users w
   ∧ ∀ u, r = Returned u → u ∈ users w ∧ sso_match user_info u)
  ∨ ∃ x, users w' = (users w ++ [x])%list
         ∧ (∀ a, a ∈ users w → User.id a ≠ User.id x)
         ∧ ∀ u, r = Returned u → u = x.
Proof.
  intros Hblank Hrun.
  apply find_or_create_user_inv in Hrun as (_ & _ & Hcases).
  destruct Hcases as [(-> & -> & _)|[(u & Hu & -> & -> & _)|[Hlink|Hprov]]].
  - left. split; [done|]. by intros u.
  - left. split; [done|]. intros ? [= <-].
    apply first_elem_of, list_elem_of_filter in Hu as [? ?]. done.
  - destruct Hlink as (b & _ & Ht & _). congruence.
  - destruct Hprov as (_ & _ & w2 & Hu2 & _ & _ & _ & _ & Hrun).
    apply create_new_user_inv in Hrun as (_ & _ & Hcases). rewrite Hu2 in Hcases.
    destruct Hcases as [[-> Hr]|Hdone].
    + left. split; [done|]. intros u ->.
      by destruct Hr as [[? _]|[[? _]|[? _]]].
    + destruct Hdone as (name & start & pstart & _ & _ & _ & _
                         & [(-> & _ & ->)|(-> & ->)]).
      * right. eexists. split_and!; [done| |done].
        intros a Ha%next_id_fresh. cbn. lia.
      * right. eexists. split_and!; [done| |by intros ? [= <-]].
        intros a Ha%next_id_fresh. cbn. lia.
Qed.

Lemma blank_email_never_links_witness :
  ∃ x w',
    UsersViews.find_or_create_user 1
      (SSOUserInfo.mk "apple" "sub-777" EmptyString None None) Example.env
      Example.store
    = (Returned x, w')
    ∧ users w' = (users Example.store ++ [x])%list.
Proof.
  destruct (UsersViews.find_or_create_user 1
              (SSOUserInfo.mk "apple" "sub-777" EmptyString None None) Example.env
              Example.store) as [r w'] eqn:Hrun.
  assert (∃ u, r = Returned u ∧ u ∉ users Example.store) as (u & -> & Hnew).
  { vm_compute in Hrun. injection Hrun as <- _. eexists. split; [done|].
    intros [[=]|[[=]|[]%elem_of_nil]%elem_of_cons]%elem_of_cons. }
  destruct (blank_email_never_links 1
              (SSOUserInfo.mk "apple" "sub-777" EmptyString None None)
              Example.env Example.store _ w' eq_refl Hrun)
    as [[_ Hold]|(x & Hx & _ & Hu)].
  - destruct (Hold u eq_refl) as [Hin _]. by destruct Hnew.
  - rewrite <- (Hu u eq_refl) in Hx. eauto.
Defined.

Lemma resolver_only_links_or_appends_witness :
  ∃ new : list User.t,
    length new = 1%nat
    ∧ length (users (UsersViews.find_or_create_user 1 Example.google_dave
                       Example.env Example.store).2)
      = (length (users Example.store) + length new)%nat.
Proof.
  destruct (UsersViews.find_or_create_user 1 Example.google_dave Example.env
              Example.store) as [r w'] eqn:Hrun.
  destruct (resolver_only_links_or_appends _ _ _ _ _ _ Hrun)
    as (new & Hle & Hlen & _).
  exists new. split; [|exact Hlen].
  vm_compute in Hrun. injection Hrun as _ <-. cbn in Hlen. lia.
Defined.

(** ** The verifier and the request *)

Lemma override_from_request_provider request user_info :
  SSOUserInfo.provider (UsersViews.override_from_request request user_info)
  = SSOUserInfo.provider user_info.
Proof.
  unfold UsersViews.override_from_request.
  repeat case_match; reflexivity.
Qed.

(** X5. What the request may override: [override_from_request] never
    changes the provider or the subject id the verifier established, and
    it replaces the email only when the verified one is empty; a request
    cannot put another address in place of a verified one. The names of
    the request win whenever they are non-empty. *)
Theorem request_cannot_override_verified_identity request user_info :
  let user_info' := UsersViews.override_from_request request user_info in
  SSOUserInfo.provider user_info' = SSOUserInfo.provider user_info
  ∧ SSOUserInfo.sso_id user_info' = SSOUserInfo.sso_id user_info
  ∧ (Py.truthy (SSOUserInfo.email user_info) = true →
     SSOUserInfo.email user_info' = SSOUserInfo.email user_info)
  ∧ (Py.truthy (SSOUserInfo.email user_info) = false →
     SSOUserInfo.email user_info'
     = Py.or_else (SsoRequest.email request) (SSOUserInfo.email user_info))
  ∧ (Py.truthy_opt (SsoRequest.first_name request) = true →
     SSOUserInfo.first_name user_info' = SsoRequest.first_name request)
  ∧ (Py.truthy_opt (SsoRequest.first_name request) = false →
     SSOUserInfo.first_name user_info' = SSOUserInfo.first_name user_info)
  ∧ (Py.truthy_opt (SsoRequest.last_name request) = true →
     SSOUserInfo.last_name user_info' = SsoRequest.last_name request)
  ∧ (Py.truthy_opt (SsoRequest.last_name request) = false →
     SSOUserInfo.last_name user_info' = SSOUserInfo.last_name user_info).
Proof.
  unfold UsersViews.override_from_request.
  destruct request as [p t [e|] fn ln dm], user_info as [ip isid ie ifn iln]; cbn;
    destruct (Py.truthy_opt fn), (Py.truthy_opt ln); cbn;
    try destruct (Py.truthy e) eqn:He; cbn;
    destruct (Py.truthy ie) eqn:Hie; cbn;
    rewrite ?Hie, ?He; cbn; split_and!; try done; intros; try done.
Qed.

Lemma request_cannot_override_verified_identity_witness :
  SSOUserInfo.email
    (UsersViews.override_from_request
       (SsoRequest.mk (Some "google") (Some "tok") (Some "mallory@example.com")
          None None false)
       Example.google_bob)
  = "bob@example.com".
Proof.
  apply (request_cannot_override_verified_identity
           (SsoRequest.mk (Some "google") (Some "tok") (Some "mallory@example.com")
              None None false) Example.google_bob).
  reflexivity.
Defined.

(** X6. [verify_google_token] returns an identity exactly when Google
    answers 200 with a JSON body whose issuer is one of Google's two, whose
    audience is the configured client id (any audience when none is
    configured) and which has a subject; the identity is then (google,
    that subject), with the email of the body or the empty string and the
    given and family names of the body. It never changes the world. *)
Theorem verify_google_token_accepts_iff id_token env w user_info w' :
  Services.verify_google_token id_token env w = (Returned user_info, w')
  ↔ w' = w
    ∧ ∃ payload sub,
        google_tokeninfo env id_token = HttpResponse 200 (Some payload)
        ∧ (GOOGLE_CLIENT_ID env = EmptyString
           ∨ payload !! "aud" = Some (GOOGLE_CLIENT_ID env))
        ∧ (payload !! "iss" = Some "accounts.google.com"
           ∨ payload !! "iss" = Some "https://accounts.google.com")
        ∧ payload !! "sub" = Some sub
        ∧ user_info
          = SSOUserInfo.mk "google" sub (default EmptyString (payload !! "email"))
              (payload !! "given_name") (payload !! "family_name").
Proof.
  unfold Services.verify_google_token, Services.requests_get,
    Services.response_json, Services.getitem, try_except, bind, ask, ret, raise.
  destruct (google_tokeninfo env id_token) as [msg|status body] eqn:Hg; cbn [fst snd].
  { split; [done|]. by intros (_ & ? & ? & ? & _). }
  case_bool_decide as Hstatus.
  { split; [done|]. intros (_ & ? & ? & [= -> _] & _). done. }
  subst status. destruct body as [payload|].
  2:{ split; [done|]. by intros (_ & ? & ? & ? & _). }
  destruct (Py.truthy (GOOGLE_CLIENT_ID env)) eqn:Hcid; cbn [andb].
  - case_bool_decide as Haud.
    { split; [done|]. intros (_ & ? & ? & [= <-] & [Hc|?] & _); [|done].
      rewrite Hc in Hcid. done. }
    case_bool_decide as Hiss.
    { split; [done|]. intros (_ & ? & ? & [= <-] & _ & [Hi|Hi] & _);
        destruct Hiss; rewrite Hi; [left | right; left]. }
    destruct (payload !! "sub") as [sub|] eqn:Hsub.
    + split.
      * intros [= <- <-]. split; [done|]. exists payload, sub.
        split_and!; [done | by right | | done | done].
        apply elem_of_cons in Hiss as [->|Hiss]; [by left|].
        apply list_elem_of_singleton in Hiss as ->. by right.
      * intros (-> & p & s & [= <-] & _ & _ & Hs & ->).
        rewrite Hsub in Hs. by injection Hs as ->.
    + split; [done|]. intros (_ & ? & ? & [= <-] & _ & _ & Hs & _). congruence.
  - case_bool_decide as Hiss.
    { split; [done|]. intros (_ & ? & ? & [= <-] & _ & [Hi|Hi] & _);
        destruct Hiss; rewrite Hi; [left | right; left]. }
    destruct (payload !! "sub") as [sub|] eqn:Hsub.
    + split.
      * intros [= <- <-]. split; [done|]. exists payload, sub.
        split_and!; [done | left; by destruct (GOOGLE_CLIENT_ID env) | | done | done].
        apply elem_of_cons in Hiss as [->|Hiss]; [by left|].
        apply list_elem_of_singleton in Hiss as ->. by right.
      * intros (-> & p & s & [= <-] & _ & _ & Hs & ->).
        rewrite Hsub in Hs. by injection Hs as ->.
    + split; [done|]. intros (_ & ? & ? & [= <-] & _ & _ & Hs & _). congruence.
Qed.

(** X7. [verify_apple_token] returns an identity exactly when the keys
    request is answered with a status outside 400..599 and a JSON body, the
    token header can be read, the first key whose [kid] equals the header's
    exists and is not empty, the token decodes under that key for the
    configured audience ([com.hearsay.app] when none is configured) and
    Apple's issuer, and the decoded claims have a subject. The identity is
    (apple, that subject) with the email of the claims or the empty string,
    and never carries a name. It never changes the world. *)
Theorem verify_apple_token_accepts_iff id_token env w user_info w' :
  Services.verify_apple_token id_token env w = (Returned user_info, w')
  ↔ w' = w
    ∧ ∃ status keys header key payload sub,
        apple_keys env = HttpResponse status (Some keys)
        ∧ ¬ (400 ≤ status < 600)%Z
        ∧ jwt_get_unverified_header env id_token = inr header
        ∧ head (filter (λ k : gmap string string, k !! "kid" = header !! "kid") keys)
          = Some key
        ∧ key ≠ ∅
        ∧ jwt_decode env id_token key
            (if Py.truthy (APPLE_CLIENT_ID env) then APPLE_CLIENT_ID env
             else "com.hearsay.app")
            "https://appleid.apple.com" = inr payload
        ∧ payload !! "sub" = Some sub
        ∧ user_info
          = SSOUserInfo.mk "apple" sub (default EmptyString (payload !! "email"))
              None None.
Proof.
  unfold Services.verify_apple_token, Services.requests_get,
    Services.raise_for_status, Services.response_json, Services.jose,
    Services.getitem, try_except, bind, ask, ret, raise.
  destruct (apple_keys env) as [msg|status body] eqn:Hk; cbn [fst snd].
  { split; [done|]. by intros (_ & ? & ? & ? & ? & ? & ? & ? & _). }
  case_bool_decide as Hstatus.
  { split; [done|]. intros (_ & ? & ? & ? & ? & ? & ? & [= <- _] & ? & _). done. }
  destruct body as [keys|].
  2:{ split; [done|]. by intros (_ & ? & ? & ? & ? & ? & ? & ? & _). }
  destruct (jwt_get_unverified_header env id_token) as [msg|header] eqn:Hh.
  { split; [done|]. by intros (_ & ? & ? & ? & ? & ? & ? & _ & _ & ? & _). }
  destruct (head (filter _ keys)) as [key|] eqn:Hkey.
  2:{ split; [done|].
      intros (_ & ? & ? & ? & ? & ? & ? & [= _ <-] & _ & [= <-] & Hk' & _).
      congruence. }
  case_bool_decide as Hempty.
  { split; [done|].
    intros (_ & ? & ? & ? & ? & ? & ? & [= _ <-] & _ & [= <-] & Hk' & Hne & _).
    congruence. }
  destruct (jwt_decode env id_token key _ _) as [msg|payload] eqn:Hd.
  { split; [done|].
    intros (_ & ? & ? & ? & ? & ? & ? & [= _ <-] & _ & [= <-] & Hk' & _ & Hd' & _).
    congruence. }
  destruct (payload !! "sub") as [sub|] eqn:Hsub.
  - split.
    + intros [= <- <-]. split; [done|].
      exists status, keys, header, key, payload, sub. done.
    + intros (-> & st & ks & hd & k & p & s & [= _ <-] & _ & [= <-] & Hk' & _ & Hd'
              & Hs & ->).
      assert (k = key) as -> by congruence.
      assert (p = payload) as -> by congruence.
      assert (s = sub) as -> by congruence. done.
  - split; [done|].
    intros (_ & st & ks & hd & k & p & s & [= _ <-] & _ & [= <-] & Hk' & _ & Hd'
            & Hs & _).
    assert (k = key) as -> by congruence.
    assert (p = payload) as -> by congruence. congruence.
Qed.

(** X8. Outside [DEBUG] the development verifier is out of reach: it
    refuses when called, and the endpoint ignores the [dev_mode] of the
    request, answering exactly as it does without it. *)
Theorem dev_mode_is_ignored_outside_debug fuel request provider id_token email env w :
  DEBUG env = false →
  Services.verify_sso_token_dev provider id_token email env w
  = (Raised (TokenVerificationError "Dev verification not allowed in production"), w)
  ∧ UsersViews.sso_authenticate fuel request env w
    = UsersViews.sso_authenticate fuel
        (SsoRequest.mk (SsoRequest.provider request) (SsoRequest.id_token request)
           (SsoRequest.email request) (SsoRequest.first_name request)
           (SsoRequest.last_name request) false) env w.
Proof.
  intros Hdebug. split.
  - unfold Services.verify_sso_token_dev, bind, ask. by rewrite Hdebug.
  - unfold UsersViews.sso_authenticate. cbn [SsoRequest.provider SsoRequest.id_token].
    destruct (SsoRequest.provider request) as [p|]; [|done].
    destruct (_ || _); [done|].
    destruct (SsoRequest.id_token request) as [t|]; [|done].
    destruct (negb _); [done|].
    unfold try_except, bind at 1 3, UsersViews.verified_user_info, bind, ask.
    rewrite Hdebug. done.
Qed.

Lemma dev_mode_is_ignored_outside_debug_witness :
  UsersViews.sso_authenticate 1
    (SsoRequest.mk (Some "google") (Some "tok") None None None true)
    Example.env Example.store
  = UsersViews.sso_authenticate 1 (Example.request "google") Example.env
      Example.store.
Proof.
  apply (dev_mode_is_ignored_outside_debug 1
           (SsoRequest.mk (Some "google") (Some "tok") None None None true)
           "google" "tok" None Example.env Example.store eq_refl).
Defined.

(** ** The authentication endpoint, for every run *)

Lemma yields_ret {A} (P : A → Prop) a : P a → yields P (ret a).
Proof. intros HP env w a' w1 [= <- _]. done. Qed.

Lemma yields_raise {A} (P : A → Prop) e : yields P (raise e).
Proof. intros env w a w1 [=]. Qed.

Lemma yields_bind {A B} (P : B → Prop) (m : M A) (k : A → M B) :
  (∀ a, yields P (k a)) → yields P (bind m k).
Proof.
  intros Hk env w b w1 Hrun.
  apply bind_inv in Hrun as [(a & w2 & _ & Hr)|[(e & _ & ?)|[_ ?]]]; [|done..].
  by apply (Hk a env w2 b w1).
Qed.

Lemma yields_try_except {A} (P : A → Prop) (body : M A) handler :
  yields P body → (∀ e h, handler e = Some h → yields P h) →
  yields P (try_except body handler).
Proof.
  intros Hb Hh env w a w1. unfold try_except.
  destruct (body env w) as [[a'|e|] w2] eqn:Hbody.
  - intros [= <- <-]. by eapply Hb.
  - destruct (handler e) as [h|] eqn:He; [|done]. by apply (Hh e h He).
  - done.
Qed.

Ltac yields_step :=
  first
    [ apply yields_ret | apply yields_raise
    | apply yields_bind; intros ?
    | apply yields_try_except; [|intros ? ? ?] ].

Lemma verify_google_token_provider id_token :
  yields (λ user_info, SSOUserInfo.provider user_info = "google")
    (Services.verify_google_token id_token).
Proof.
  unfold Services.verify_google_token, Services.getitem.
  yields_step.
  - repeat first [yields_step | case_match | progress cbv zeta]. reflexivity.
  - repeat case_match; simplify_eq; yields_step.
Qed.

Lemma verify_apple_token_provider id_token :
  yields (λ user_info, SSOUserInfo.provider user_info = "apple")
    (Services.verify_apple_token id_token).
Proof.
  unfold Services.verify_apple_token, Services.getitem.
  yields_step.
  - repeat first [yields_step | case_match | progress cbv zeta]. reflexivity.
  - repeat case_match; simplify_eq; yields_step.
Qed.

Lemma verified_user_info_provider provider id_token request :
  provider ∈ ["apple"; "google"] →
  yields (λ user_info, SSOUserInfo.provider user_info = provider)
    (UsersViews.verified_user_info provider id_token request).
Proof.
  intros Hin. unfold UsersViews.verified_user_info.
  yields_step. case_match.
  - unfold Services.verify_sso_token_dev.
    repeat (yields_step || case_match); reflexivity.
  - apply elem_of_cons in Hin as [->|Hin].
    { apply verify_apple_token_provider. }
    apply list_elem_of_singleton in Hin as ->.
    apply verify_google_token_provider.
Qed.

Lemma valid_sso_request_dec request :
  valid_sso_request request
  ∨ (¬ valid_sso_request request
     ∧ ∀ fuel env w, ∃ detail,
         UsersViews.sso_authenticate fuel request env w
         = (Returned (mkResponse (Detail detail) HTTP_400_BAD_REQUEST), w)).
Proof.
  unfold valid_sso_request, UsersViews.sso_authenticate.
  destruct (SsoRequest.provider request) as [provider|].
  2:{ right. split; [by intros (? & ? & ? & _)|]. intros. by eexists. }
  destruct (decide (provider ∈ ["apple"; "google"])) as [Hin|Hin].
  2:{ right. split; [intros (? & ? & [= <-] & ? & _); done|]. intros.
      rewrite (bool_decide_eq_false_2 _ Hin), orb_true_r. by eexists. }
  rewrite (bool_decide_eq_true_2 _ Hin).
  assert (Py.truthy provider = true) as ->.
  { apply elem_of_cons in Hin as [->|Hin]; [done|].
    by apply list_elem_of_singleton in Hin as ->. }
  cbn [negb orb].
  destruct (SsoRequest.id_token request) as [id_token|].
  2:{ right. split; [by intros (? & ? & _ & _ & ? & _)|]. intros. by eexists. }
  destruct (Py.truthy id_token) eqn:Htruthy; cbn [negb].
  - left. by exists provider, id_token.
  - right. split; [intros (? & ? & _ & _ & [= <-] & ?); congruence|].
    intros. by eexists.
Qed.

(** X9. [sso_authenticate] never lets an exception out: every run that
    ends answers 200, 400, 401 or 500. The answer is 400 exactly when the
    request names no supported provider or carries no token; a 400 and a
    401 leave the world as it was, to the last statement; every answer but
    a 200 carries a detail message; and no run touches a profile. *)
Theorem sso_authenticate_always_answers fuel request env w r w' :
  UsersViews.sso_authenticate fuel request env w = (r, w') →
  (r = Diverged
   ∨ ∃ response, r = Returned response
       ∧ status response ∈ [200; 400; 401; 500]%Z
       ∧ (status response = 400%Z ↔ ¬ valid_sso_request request)
       ∧ (status response = 400%Z ∨ status response = 401%Z → w' = w)
       ∧ (status response ≠ 200%Z → ∃ detail, data response = Detail detail))
  ∧ profiles w' = profiles w.
Proof.
  intros Hrun.
  destruct (valid_sso_request_dec request)
    as [(provider & id_token & Hp & Hin & Ht & Htruthy)|[Hinvalid H400]].
  - assert (Hvalid : valid_sso_request request) by by exists provider, id_token.
    pose proof (sso_authenticate_inv _ _ _ _ _ _ _ _ Hp Hin Ht Htruthy Hrun)
      as [Hprof [Hr|[(msg & Hr & Hw & _)|[[Hr _]|(user_info & user & w1 & _ & _ & Hw & Hr)]]]];
      subst r; (split; [|done]); [by left|right; eexists; split; [done|]..]; cbn.
    + split_and!; [repeat constructor | | done | by eexists].
      split; [done|]. by intros [].
    + split_and!; [repeat constructor | | by intros [|] | by eexists].
      split; [done|]. by intros [].
    + split_and!; [repeat constructor | | by intros [|] | done].
      split; [done|]. by intros [].
  - destruct (H400 fuel env w) as [detail H]. rewrite H in Hrun.
    injection Hrun as <- <-. split; [|done]. right. eexists. split; [done|]. cbn.
    split_and!; [repeat constructor | done | done | by eexists].
Qed.

Lemma sso_authenticate_always_answers_witness :
  ∃ response,
    UsersViews.sso_authenticate 1 (Example.request "google") Example.env
      Example.store
    = (Returned response,
       (UsersViews.sso_authenticate 1 (Example.request "google") Example.env
          Example.store).2)
    ∧ status response ∈ [200; 400; 401; 500]%Z.
Proof.
  destruct (UsersViews.sso_authenticate 1 (Example.request "google") Example.env
              Example.store) as [r w'] eqn:Hrun.
  destruct (sso_authenticate_always_answers _ _ _ _ _ _ Hrun)
    as [[->|(response & -> & Hstatus & _)] _].
  - vm_compute in Hrun. discriminate Hrun.
  - exists response. split; [reflexivity | exact Hstatus].
Defined.

(** X10. A 200 answer of [sso_authenticate] is about an account that is
    stored when the run ends and carries the provider the request named:
    the body holds the tokens [RefreshToken.for_user] issues for that
    account and the account's own fields, and the last statement sent is
    the read of its profile. *)
Theorem sso_authenticate_200_is_for_a_stored_account fuel request env w response w' :
  UsersViews.sso_authenticate fuel request env w = (Returned response, w') →
  status response = 200%Z →
  ∃ provider user,
    SsoRequest.provider request = Some provider
    ∧ user ∈ users w'
    ∧ User.sso_provider user = Some provider
    ∧ data response
      = Tokens (RefreshToken_for_user env user).1 (RefreshToken_for_user env user).2
          (UserData.mk (User.id user) (User.email user) (User.username user)
             (User.first_name user) (User.last_name user) (User.sso_provider user)
             (User.onboarding_completed user)
             (head (filter (λ p, UserProfile.user_id p = User.id user) (profiles w'))))
    ∧ last (trace w') = Some (SelectProfileByUser (User.id user)).
Proof.
  intros Hrun Hstatus.
  destruct (valid_sso_request_dec request)
    as [(provider & id_token & Hp & Hin & Ht & Htruthy)|[_ H400]].
  2:{ destruct (H400 fuel env w) as [detail H]. rewrite H in Hrun.
      injection Hrun as <- _. done. }
  pose proof (sso_authenticate_inv _ _ _ _ _ _ _ _ Hp Hin Ht Htruthy Hrun)
    as [Hprof [Hr|[(msg & Hr & _)|[[Hr _]|(user_info & user & w1 & Hv & Hf & Hw & Hr)]]]];
    [done | injection Hr as ->; done | injection Hr as ->; done |].
  injection Hr as ->. subst w'.
  apply (verified_user_info_provider _ _ _ Hin) in Hv.
  apply find_or_create_user_returned in Hf as [[Hup _] Hu].
  rewrite override_from_request_provider, Hv in Hup.
  exists provider, user. split_and!; [done | exact Hu | done | | ].
  - cbn [data]. by rewrite Hprof.
  - cbn [trace log]. apply last_snoc.
Qed.

Lemma sso_authenticate_200_is_for_a_stored_account_witness :
  ∃ user,
    user ∈ users (UsersViews.sso_authenticate 1
                    (SsoRequest.mk (Some "google") (Some "tok") None None None false)
                    Example.env Example.store).2
    ∧ User.sso_provider user = Some "google".
Proof.
  destruct (UsersViews.sso_authenticate 1
              (SsoRequest.mk (Some "google") (Some "tok") None None None false)
              Example.env Example.store) as [r w'] eqn:Hrun.
  assert (∃ response, r = Returned response ∧ status response = 200%Z)
    as (response & -> & Hstatus).
  { vm_compute in Hrun. injection Hrun as <- _. by eexists. }
  destruct (sso_authenticate_200_is_for_a_stored_account _ _ _ _ _ _ Hrun Hstatus)
    as (provider & user & Hreq & Hu & Hp & _).
  exists user. split; [exact Hu|]. rewrite Hp. symmetry. exact Hreq.
Defined.

(** X11. A Google verdict that passes the audience and issuer checks but
    has no [sub] makes [payload['sub']] raise [KeyError], which no handler
    of the verifier catches: the endpoint answers it as a server error
    (500), not as a rejected token (401), and touches nothing. *)
Theorem google_verdict_without_subject_is_answered_500
    fuel request id_token payload env w :
  SsoRequest.provider request = Some "google" →
  SsoRequest.id_token request = Some id_token →
  Py.truthy id_token = true →
  DEBUG env && SsoRequest.dev_mode request = false →
  google_tokeninfo env id_token = HttpResponse 200 (Some payload) →
  (GOOGLE_CLIENT_ID env = EmptyString
   ∨ payload !! "aud" = Some (GOOGLE_CLIENT_ID env)) →
  payload !! "iss" ∈ [Some "accounts.google.com"; Some "https://accounts.google.com"] →
  payload !! "sub" = None →
  Services.verify_google_token id_token env w = (Raised (KeyError "sub"), w)
  ∧ UsersViews.sso_authenticate fuel request env w
    = (Returned (mkResponse (Detail "Authentication failed. Please try again.")
                   HTTP_500_INTERNAL_SERVER_ERROR), w).
Proof.
  intros Hp Ht Htruthy Hdev Hg Haud Hiss Hsub.
  assert (Hverify : Services.verify_google_token id_token env w
                    = (Raised (KeyError "sub"), w)).
  { unfold Services.verify_google_token, Services.requests_get,
      Services.response_json, Services.getitem, try_except, bind, ask, ret, raise.
    rewrite Hg. cbn [fst snd]. rewrite bool_decide_eq_false_2 by (by intros []).
    assert (Py.truthy (GOOGLE_CLIENT_ID env)
            && bool_decide (payload !! "aud" ≠ Some (GOOGLE_CLIENT_ID env)) = false)
      as ->.
    { destruct Haud as [->|Haud]; [done|].
      rewrite (bool_decide_eq_false_2 _ (λ H, H Haud)). apply andb_false_r. }
    rewrite (bool_decide_eq_false_2 _ (λ H, H Hiss)), Hsub. done. }
  split; [exact Hverify|].
  rewrite (sso_authenticate_valid _ _ _ _ Hp ltac:(by right; left) Ht Htruthy).
  assert (UsersViews.verified_user_info "google" id_token request env w
          = (Raised (KeyError "sub"), w)) as Hv.
  { unfold UsersViews.verified_user_info, bind, ask. by rewrite Hdev. }
  unfold try_except. by rewrite (bind_raised _ _ _ _ _ _ Hv).
Qed.

Lemma google_verdict_without_subject_is_answered_500_witness :
  UsersViews.sso_authenticate 0 (Example.request "google") env_no_subject
    Example.store
  = (Returned (mkResponse (Detail "Authentication failed. Please try again.")
                 HTTP_500_INTERNAL_SERVER_ERROR), Example.store).
Proof.
  apply (google_verdict_without_subject_is_answered_500 0
           (Example.request "google") "tok" {[ "iss" := "accounts.google.com" ]}
           env_no_subject Example.store eq_refl eq_refl eq_refl eq_refl eq_refl
           (or_introl eq_refl)).
  - vm_compute. left.
  - reflexivity.
Defined.

(** ** Onboarding: [parse_time] *)

Lemma parse_time_str s env w :
  OnboardingViews.parse_time (JStr s) env w = (parsed_time s, w).
Proof.
  unfold OnboardingViews.parse_time. cbn [Json.truthy].
  unfold parsed_time.
  destruct s as [|c s]; [done|]. cbn [Py.truthy negb].
  unfold try_except, bind, OnboardingViews.item, OnboardingViews.int,
    OnboardingViews.time, Py.item.
  destruct (Py.split ":" (String c s)) as [|p0 [|p1 rest]]; cbn; [done| |].
  - by destruct (PyInt.int p0).
  - destruct (PyInt.int p0) as [hour|]; cbn; [|done].
    destruct (PyInt.int p1) as [minute|]; cbn; [|done].
    destruct (OnboardingViews.fits_c_int hour && OnboardingViews.fits_c_int minute);
      cbn; [|done].
    by destruct (bool_decide _ && bool_decide _).
Qed.

Lemma parse_time_inv time_str env w r w' :
  OnboardingViews.parse_time time_str env w = (r, w') →
  w' = w
  ∧ (r = Returned None
     ∨ (∃ s hour minute, time_str = JStr s ∧ r = Returned (Some (hour, minute))
          ∧ (0 ≤ hour ≤ 23)%Z ∧ (0 ≤ minute ≤ 59)%Z)
     ∨ (r = Raised AttributeError ∧ Json.truthy time_str = true
        ∧ ∀ s, time_str ≠ JStr s)
     ∨ (r = Raised OverflowError ∧ overflowing_time time_str)).
Proof.
  destruct time_str as [|b|n|s|l|d].
  4:{ rewrite parse_time_str. unfold parsed_time. intros [= <- <-]. split; [done|].
      destruct (Py.split ":" s) as [|p0 [|p1 rest]] eqn:Hsplit; [by left..|].
      destruct (PyInt.int p0) as [hour|] eqn:H0; [|by left].
      destruct (PyInt.int p1) as [minute|] eqn:H1; [|by left].
      destruct (OnboardingViews.fits_c_int hour && OnboardingViews.fits_c_int minute)
        eqn:Hfits; cbn [negb].
      2:{ do 3 right. split; [done|]. by exists s, p0, p1, rest, hour, minute. }
      destruct (bool_decide (0 ≤ hour ≤ 23)%Z) eqn:Hh; [|by left].
      destruct (bool_decide (0 ≤ minute ≤ 59)%Z) eqn:Hm; [|by left].
      apply bool_decide_eq_true_1 in Hh, Hm. right. left. by exists s, hour, minute. }
  all: unfold OnboardingViews.parse_time;
    destruct (Json.truthy _) eqn:Htruthy; cbn [negb];
    intros [= <- <-]; (split; [done|]); [right; right; left; by split_and!|by left].
Qed.



(** X12. [calculate_proficiency] on every integer, in range or not: the
    level is one of four, a score of at most 1 (negative ones included) is
    a beginner, 2 and 3 elementary, exactly 4 intermediate and every score
    from 5 on upper intermediate; the model's fifth level, [advanced], is
    never assigned. *)
Theorem calculate_proficiency_never_advanced quiz_score :
  OnboardingViews.calculate_proficiency quiz_score
    ∈ ["beginner"; "elementary"; "intermediate"; "upper_intermediate"]
  ∧ OnboardingViews.calculate_proficiency quiz_score ≠ "advanced"
  ∧ (OnboardingViews.calculate_proficiency quiz_score = "beginner"
     ↔ (quiz_score ≤ 1)%Z)
  ∧ (OnboardingViews.calculate_proficiency quiz_score = "elementary"
     ↔ (2 ≤ quiz_score ≤ 3)%Z)
  ∧ (OnboardingViews.calculate_proficiency quiz_score = "intermediate"
     ↔ quiz_score = 4%Z)
  ∧ (OnboardingViews.calculate_proficiency quiz_score = "upper_intermediate"
     ↔ (5 ≤ quiz_score)%Z).
Proof.
  unfold OnboardingViews.calculate_proficiency.
  destruct (Z.leb_spec quiz_score 1); [|destruct (Z.leb_spec quiz_score 3);
    [|destruct (Z.eqb_spec quiz_score 4)]];
    (split; [repeat constructor|]); (split; [done|]);
    split_and!; split; intros; first [lia | done].
Qed.



Lemma parsed_time_hh_mm :
  forallb (λ hour,
      forallb (λ minute,
          match parsed_time (hh_mm hour minute) with
          | Returned (Some (h, m)) =>
              (h =? Z.of_nat hour)%Z && (m =? Z.of_nat minute)%Z
          | _ => false
          end)
        (seq 0 60))
    (seq 0 24) = true.
Proof. vm_compute. reflexivity. Qed.

(** X14. Every time of day written [HH:MM] is read back by [parse_time]
    as that hour and minute. *)
Theorem parse_time_reads_hh_mm hour minute env w :
  (hour < 24)%nat → (minute < 60)%nat →
  OnboardingViews.parse_time (JStr (hh_mm hour minute)) env w
  = (Returned (Some (Z.of_nat hour, Z.of_nat minute)), w).
Proof.
  intros Hh Hm. rewrite parse_time_str. f_equal.
  assert (Hrow := proj1 (forallb_forall _ _) parsed_time_hh_mm hour).
  cbv beta in Hrow. rewrite in_seq in Hrow. specialize (Hrow ltac:(lia)).
  assert (Hcell := proj1 (forallb_forall _ _) Hrow minute).
  cbv beta in Hcell. rewrite in_seq in Hcell. specialize (Hcell ltac:(lia)).
  destruct (parsed_time (hh_mm hour minute)) as [[[h m]|]| |]; try done.
  apply andb_true_iff in Hcell as [->%Z.eqb_eq ->%Z.eqb_eq]. done.
Qed.

Lemma parse_time_reads_hh_mm_witness :
  OnboardingViews.parse_time (JStr "07:30") Example.env Example.store
  = (Returned (Some (7, 30)%Z), Example.store).
Proof. apply (parse_time_reads_hh_mm 7 30); lia. Defined.

(** ** Onboarding: [complete_onboarding] *)

Lemma head_filter_elem_of {A} (P : A → Prop) `{!∀ x, Decision (P x)} l x :
  head (filter P l) = Some x → x ∈ l ∧ P x.
Proof.
  intros Hhead. apply head_Some_elem_of in Hhead.
  by apply list_elem_of_filter in Hhead as [? ?].
Qed.

Lemma head_filter_None {A} (P : A → Prop) `{!∀ x, Decision (P x)} l :
  head (filter P l) = None → ∀ x, x ∈ l → ¬ P x.
Proof.
  intros Hhead x Hx HP.
  assert (x ∈ filter P l) as Hin by by apply list_elem_of_filter.
  destruct (filter P l); [by apply elem_of_nil in Hin|done].
Qed.

(** Every way a run of [update_or_create] ends. *)
Lemma update_or_create_inv user target_language proficiency_level goals
    sessions_per_week notifications_enabled reminder_time env w r w' :
  OnboardingViews.update_or_create user target_language proficiency_level goals
    sessions_per_week notifications_enabled reminder_time env w = (r, w') →
  users w' = users w
  ∧ drawn w' = drawn w
  ∧ ((∃ e, r = Raised e ∧ profiles w' = profiles w)
     ∨ ∃ p created notifications,
         r = Returned (p, created)
         ∧ Json.boolean_to_python notifications_enabled = Some notifications
         ∧ p ∈ profiles w'
         ∧ UserProfile.user_id p = User.id user
         ∧ UserProfile.target_language p = target_language
         ∧ UserProfile.proficiency_level p = proficiency_level
         ∧ UserProfile.goals p = goals
         ∧ UserProfile.sessions_per_week p = sessions_per_week
         ∧ UserProfile.notifications_enabled p = notifications
         ∧ UserProfile.reminder_time p = reminder_time
         ∧ (created = false
            ∧ (∃ old, profile_of user (profiles w) = Some old
                 ∧ UserProfile.id p = UserProfile.id old
                 ∧ profiles w'
                   = (λ r, if bool_decide (UserProfile.id r = UserProfile.id old)
                           then p else r) <$> profiles w)
            ∨ created = true
              ∧ profile_of user (profiles w) = None
              ∧ UserProfile.id p = S (max_list (UserProfile.id <$> profiles w))
              ∧ profiles w' = (profiles w ++ [p])%list)).
Proof.
  unfold OnboardingViews.update_or_create, profile_of.
  unfold bind at 1. rewrite statement_run.
  destruct (db_fault env (length (trace w))).
  { intros [= <- <-]. split_and!; [done..|]. left. eauto. }
  unfold bind at 1, get_world.
  change (profiles (log ?s w)) with (profiles w).
  destruct (Json.boolean_to_python notifications_enabled) as [notifications|].
  2:{ intros [= <- <-]. split_and!; [done..|]. left. eauto. }
  destruct (head (filter _ (profiles w))) as [old|] eqn:Hold.
  - unfold bind at 1. rewrite statement_run.
    destruct (db_fault env _).
    { intros [= <- <-]. split_and!; [done..|]. left. eauto. }
    unfold bind, OnboardingViews.set_profiles, ret. cbn.
    intros [= <- <-]. split_and!; [done..|]. right.
    apply head_filter_elem_of in Hold as Hin. destruct Hin as [Hin Huser].
    eexists _, false, notifications. cbn.
    split_and!; [done | done | | done..|].
    + apply list_elem_of_fmap. exists old. by rewrite bool_decide_eq_true_2.
    + left. split; [done|]. by exists old.
  - unfold bind at 1. rewrite statement_run.
    destruct (db_fault env _).
    { intros [= <- <-]. split_and!; [done..|]. left. eauto. }
    unfold bind, OnboardingViews.set_profiles, ret. cbn.
    intros [= <- <-]. split_and!; [done..|]. right.
    eexists _, true, notifications. cbn.
    split_and!; [done | done | | done..|].
    + apply elem_of_app. right. left.
    + right. done.
Qed.

Lemma flag_collides new other :
  User.collides ["onboarding_completed"] new other = false.
Proof. reflexivity. Qed.

Lemma flag_assign src dst :
  User.onboarding_completed src = true →
  User.assign ["onboarding_completed"] src dst = onboarded dst.
Proof. intros Hsrc. unfold User.assign, onboarded. cbn. by rewrite Hsrc. Qed.

(** The checks at the head of [complete_onboarding]: either one of them
    answers 400, or the request is valid and the view goes on. *)
Lemma complete_onboarding_guards user data :
  ((User.onboarding_completed user = true
    ∨ ¬ ∃ target_language quiz_score,
          valid_onboarding_request data target_language quiz_score)
   ∧ ∃ detail, ∀ env w,
       OnboardingViews.complete_onboarding user data env w
       = (Returned (mkResponse (Detail detail) HTTP_400_BAD_REQUEST), w))
  ∨ (User.onboarding_completed user = false
     ∧ ∃ target_language quiz_score,
         valid_onboarding_request data target_language quiz_score
         ∧ OnboardingViews.complete_onboarding user data
           = (reminder_time <- OnboardingViews.parse_time
                                 (default JNull (data !! "reminder_time")) ;;
              try_except
                (pc <- OnboardingViews.update_or_create user target_language
                         (OnboardingViews.calculate_proficiency quiz_score)
                         (default (JList []) (data !! "goals"))
                         (sessions_stored data)
                         (default (JBool true) (data !! "notifications_enabled"))
                         reminder_time ;;
                 Orm.save (Some ["onboarding_completed"]) (onboarded user) ;;;
                 user_data <- UserSerializer (onboarded user) ;;
                 ret (mkResponse (Onboarded user_data pc.1) HTTP_200_OK))
                (fun _ =>
                   Some (ret (mkResponse
                                (Detail "Failed to complete onboarding. Please try again.")
                                HTTP_500_INTERNAL_SERVER_ERROR))))).
Proof.
  unfold OnboardingViews.complete_onboarding, valid_onboarding_request.
  cbv zeta.
  destruct (User.onboarding_completed user) eqn:Hdone.
  { left. split; [by left|]. by eexists. }
  destruct (data !! "target_language") as [[|b|n|tl|l|d]|] eqn:Htl; cbn [default from_option id].
  1-3,5-7: left; (split; [right; intros (? & ? & ? & _); done|]); cbn;
    rewrite ?orb_true_r; by eexists.
  cbn [Json.truthy Json.is_one_of].
  destruct (decide (tl ∈ ["es"; "fr"])) as [Hin|Hin].
  2:{ left. split; [right; intros (? & ? & [= <-] & ? & _); done|].
      eexists. intros env w.
      rewrite (bool_decide_eq_false_2 _ Hin), orb_true_r. reflexivity. }
  rewrite (bool_decide_eq_true_2 _ Hin).
  assert (Py.truthy tl = true) as ->.
  { apply elem_of_cons in Hin as [->|Hin]; [done|].
    by apply list_elem_of_singleton in Hin as ->. }
  cbn [negb orb].
  destruct (Json.as_int (default (JInt 0) (data !! "quiz_score"))) as [q|] eqn:Hq.
  2:{ left. split; [right; intros (? & ? & _ & _ & ? & _); done|]. by eexists. }
  destruct ((q <? 0)%Z || (q >? 5)%Z) eqn:Hrange.
  { left. split; [|by eexists]. right. intros (? & q' & _ & _ & [= <-] & ? & _).
    apply orb_true_iff in Hrange as [?%Z.ltb_lt|?%Z.gtb_lt]; lia. }
  apply orb_false_iff in Hrange as [Hlo%Z.ltb_ge Hhi].
  rewrite Z.gtb_ltb in Hhi. apply Z.ltb_ge in Hhi.
  destruct (Json.is_list (default (JList []) (data !! "goals"))) eqn:Hgoals;
    cbn [negb].
  2:{ left. split; [right; intros (? & ? & _ & _ & _ & _ & ?); done|]. by eexists. }
  right. split; [done|]. exists tl, q. split; [|reflexivity].
  split_and!; [done | done | done | lia | lia | done].
Qed.

Lemma save_flag_inv user env w r w' :
  Orm.save (Some ["onboarding_completed"]) (onboarded user) env w = (r, w') →
  profiles w' = profiles w
  ∧ drawn w' = drawn w
  ∧ ((∃ e, r = Raised e ∧ users w' = users w)
     ∨ (r = Returned tt
        ∧ Exists (λ row, User.id row = User.id user) (users w)
        ∧ users w' = flag_onboarded user (users w))).
Proof.
  destruct (decide (Exists (λ row, User.id row = User.id user) (users w)))
    as [Hex|Hex].
  - rewrite (save_run ["onboarding_completed"] (onboarded user) env w
               ltac:(done) _ (or_intror eq_refl) Hex).
    destruct (db_fault env (length (trace w))).
    { intros [= <- <-]. split_and!; [done..|]. left. eauto. }
    assert (existsb (User.collides ["onboarding_completed"] (onboarded user))
              (filter (λ row, User.id row ≠ User.id (onboarded user)) (users w))
            = false) as ->.
    { apply existsb_false. intros x _. apply flag_collides. }
    intros [= <- <-]. split_and!; [done..|]. right. split_and!; [done..|].
    cbn. unfold flag_onboarded. apply list_fmap_ext. intros i row _.
    cbn. case_bool_decide; [|done]. by apply flag_assign.
  - unfold Orm.save. unfold bind at 1. rewrite statement_run.
    destruct (db_fault env (length (trace w))).
    { intros [= <- <-]. split_and!; [done..|]. left. eauto. }
    unfold bind, get_world.
    change (users (log ?s w)) with (users w).
    rewrite (bool_decide_eq_false_2 _ Hex).
    intros [= <- <-]. split_and!; [done..|]. left. eauto.
Qed.

Lemma UserSerializer_inv user env w r w' :
  UserSerializer user env w = (r, w') →
  users w' = users w
  ∧ profiles w' = profiles w
  ∧ drawn w' = drawn w
  ∧ (r = Raised OperationalError
     ∨ r = Returned
             (UserData.mk (User.id user) (User.email user) (User.username user)
                (User.first_name user) (User.last_name user)
                (User.sso_provider user) (User.onboarding_completed user)
                (profile_of user (profiles w)))).
Proof.
  unfold UserSerializer. unfold bind at 1. rewrite statement_run.
  destruct (db_fault env (length (trace w))); intros [= <- <-];
    split_and!; auto.
Qed.

(** Every way a run of [complete_onboarding] ends. *)
Lemma complete_onboarding_inv user data env w r w' :
  OnboardingViews.complete_onboarding user data env w = (r, w') →
  let failed :=
    Returned (mkResponse (Detail "Failed to complete onboarding. Please try again.")
                HTTP_500_INTERNAL_SERVER_ERROR) in
  (∃ detail,
     r = Returned (mkResponse (Detail detail) HTTP_400_BAD_REQUEST) ∧ w' = w
     ∧ (User.onboarding_completed user = true
        ∨ ¬ ∃ target_language quiz_score,
              valid_onboarding_request data target_language quiz_score))
  ∨ (User.onboarding_completed user = false
     ∧ ∃ target_language quiz_score,
         valid_onboarding_request data target_language quiz_score
         ∧ ((w' = w
             ∧ (r = Raised AttributeError
                ∧ Json.truthy (default JNull (data !! "reminder_time")) = true
                ∧ (∀ s, default JNull (data !! "reminder_time") ≠ JStr s)
                ∨ r = Raised OverflowError
                  ∧ overflowing_time (default JNull (data !! "reminder_time"))))
            ∨ ∃ reminder_time r1 w1,
                OnboardingViews.parse_time (default JNull (data !! "reminder_time"))
                  env w = (Returned reminder_time, w)
                ∧ OnboardingViews.update_or_create user target_language
                    (OnboardingViews.calculate_proficiency quiz_score)
                    (default (JList []) (data !! "goals")) (sessions_stored data)
                    (default (JBool true) (data !! "notifications_enabled"))
                    reminder_time env w = (r1, w1)
                ∧ profiles w' = profiles w1
                ∧ drawn w' = drawn w
                ∧ ((∃ e, r1 = Raised e ∧ r = failed ∧ users w' = users w)
                   ∨ ∃ p created,
                       r1 = Returned (p, created)
                       ∧ (r = failed ∧ users w' = users w
                          ∨ Exists (λ row, User.id row = User.id user) (users w)
                            ∧ users w' = flag_onboarded user (users w)
                            ∧ (r = failed
                               ∨ r = Returned
                                       (mkResponse
                                          (Onboarded
                                             (UserData.mk (User.id user)
                                                (User.email user) (User.username user)
                                                (User.first_name user)
                                                (User.last_name user)
                                                (User.sso_provider user) true
                                                (profile_of user (profiles w1)))
                                             p)
                                          HTTP_200_OK)))))).
Proof.
  intros Hrun failed.
  destruct (complete_onboarding_guards user data)
    as [[Hwhy [detail H400]]|(Hdone & tl & q & Hvalid & Heq)].
  { left. exists detail. rewrite H400 in Hrun. by injection Hrun as <- <-. }
  right. split; [done|]. exists tl, q. split; [done|].
  rewrite Heq in Hrun. clear Heq. unfold bind at 1 in Hrun.
  destruct (OnboardingViews.parse_time (default JNull (data !! "reminder_time")) env w)
    as [rp wp] eqn:Hparse.
  apply parse_time_inv in Hparse as Hp. destruct Hp as [-> Hp].
  destruct rp as [reminder_time|e|].
  2:{ left. injection Hrun as <- <-. split; [done|].
      destruct Hp as [?|[(? & ? & ? & _ & ? & _)|[(Hr & Ht & Hs)|(Hr & Ho)]]];
        [done | done | left | right]; injection Hr as ->; by split_and!. }
  2:{ by destruct Hp as [?|[(? & ? & ? & _ & ? & _)|[(? & _)|(? & _)]]]. }
  clear Hp. right.
  unfold try_except in Hrun. unfold bind at 1 in Hrun.
  destruct (OnboardingViews.update_or_create user tl
              (OnboardingViews.calculate_proficiency q)
              (default (JList []) (data !! "goals")) (sessions_stored data)
              (default (JBool true) (data !! "notifications_enabled"))
              reminder_time env w) as [r1 w1] eqn:Hupdate.
  apply update_or_create_inv in Hupdate as Hu. destruct Hu as (Hu1 & Hd1 & Hu).
  exists reminder_time, r1, w1. split; [done|]. split; [done|].
  destruct r1 as [[p created]|e|].
  3:{ destruct Hu as [(? & ? & _)|(? & ? & ? & ? & _)]; done. }
  2:{ injection Hrun as <- <-. split_and!; [done..|]. left. eauto. }
  clear Hu. unfold bind at 1 in Hrun.
  destruct (Orm.save (Some ["onboarding_completed"]) (onboarded user) env w1)
    as [r2 w2] eqn:Hsave.
  apply save_flag_inv in Hsave as (Hp2 & Hd2 & [(e & -> & Hu2)|(-> & Hex & Hu2)]).
  { injection Hrun as <- <-. split_and!; [done | congruence |]. right.
    exists p, created. split; [done|]. left. split; [done|]. congruence. }
  unfold bind at 1 in Hrun.
  destruct (UserSerializer (onboarded user) env w2) as [r3 w3] eqn:Hser.
  apply UserSerializer_inv in Hser as (Hu3 & Hp3 & Hd3 & [-> | ->]);
    injection Hrun as <- <-.
  - split_and!; [congruence | congruence |]. right.
    exists p, created. split; [done|]. right.
    rewrite <- Hu1. split_and!; [done | congruence | by left].
  - split_and!; [congruence | congruence |]. right.
    exists p, created. split; [done|]. right.
    rewrite <- Hu1. split_and!; [done | congruence |]. right.
    cbn. unfold profile_of. cbn. by rewrite Hp2.
Qed.

Lemma NoDup_fmap_inj_on {A B} (f : A → B) (l : list A) x y :
  NoDup (f <$> l) → x ∈ l → y ∈ l → f x = f y → x = y.
Proof.
  intros Hnd [i Hi]%list_elem_of_lookup [j Hj]%list_elem_of_lookup Hf.
  assert (i = j) as ->; [|congruence].
  apply (NoDup_lookup (f <$> l) i j (f x) Hnd).
  - by rewrite list_lookup_fmap, Hi.
  - rewrite list_lookup_fmap, Hj. cbn. by rewrite Hf.
Qed.

Lemma update_or_create_consistent user target_language proficiency_level goals
    sessions_per_week notifications_enabled reminder_time env w r w' :
  profiles_consistent (profiles w) →
  OnboardingViews.update_or_create user target_language proficiency_level goals
    sessions_per_week notifications_enabled reminder_time env w = (r, w') →
  profiles_consistent (profiles w').
Proof.
  intros [Hids Huids] Hrun.
  apply update_or_create_inv in Hrun as (_ & _ & [(e & _ & ->)|Hdone]); [done|].
  destruct Hdone as (p & created & n & _ & _ & _ & Hpu & _ & _ & _ & _ & _ & _ & Hcase).
  destruct Hcase as [(_ & old & Hold & Hid & ->)|(_ & Hnone & Hid & ->)].
  - apply head_filter_elem_of in Hold as [Hin Hou].
    assert (Hsame : ∀ f : UserProfile.t → nat, f p = f old →
              f <$> ((λ r, if bool_decide (UserProfile.id r = UserProfile.id old)
                           then p else r) <$> profiles w)
              = f <$> profiles w).
    { intros f Hf. rewrite <- list_fmap_compose. apply list_fmap_ext.
      intros i q Hq. cbn. case_bool_decide as Hq_id; [|done].
      rewrite Hf. f_equal. symmetry.
      apply (NoDup_fmap_inj_on UserProfile.id (profiles w)); [done | | done | done].
      by apply list_elem_of_lookup_2 in Hq. }
    split; rewrite Hsame; [done | done | done | congruence].
  - split; rewrite fmap_app; apply NoDup_app; (split; [done|]);
      (split; [|apply NoDup_singleton]); intros x Hx ->%list_elem_of_singleton.
    + rewrite Hid in Hx. apply max_list_elem_of_le in Hx. lia.
    + apply list_elem_of_fmap in Hx as (q & Hq & Hin). rewrite Hpu in Hq.
      by apply (head_filter_None _ _ Hnone q Hin).
Qed.

Lemma sessions_stored_range data : (1 ≤ sessions_stored data ≤ 7)%Z.
Proof.
  unfold sessions_stored.
  destruct (Json.as_int _) as [n|]; [|lia].
  destruct ((n <? 1)%Z || (n >? 7)%Z) eqn:Hrange; [lia|].
  apply orb_false_iff in Hrange as [Hlo%Z.ltb_ge Hhi].
  rewrite Z.gtb_ltb in Hhi. apply Z.ltb_ge in Hhi. lia.
Qed.

Lemma flag_onboarded_row user rows row :
  row ∈ flag_onboarded user rows → User.id row = User.id user →
  User.onboarding_completed row = true.
Proof.
  intros (old & -> & _)%list_elem_of_fmap. by case_bool_decide.
Qed.

Lemma flag_onboarded_Exists user rows :
  Exists (λ row, User.id row = User.id user) rows →
  ∃ row, row ∈ flag_onboarded user rows ∧ User.id row = User.id user.
Proof.
  intros (old & Hin & Hid)%Exists_exists.
  exists (onboarded old). split; [|done].
  apply list_elem_of_fmap. exists old. by rewrite bool_decide_eq_true_2.
Qed.





(** X17. [sessions_per_week] is never answered with a 400. The profile
    of a 200 answer stores the request's value when it is an integer from
    1 to 7, 1 when it is the JSON [true] (a [bool] is an [int] for
    [isinstance], and [True] is 1), and 3 in every other case: absent, an
    integer out of range, [false], null, a string, a list or an object. The
    stored value is therefore always in 1..7. *)
Theorem sessions_per_week_falls_back_to_3 user body env w response w' :
  OnboardingViews.complete_onboarding user body env w = (Returned response, w') →
  status response = 200%Z →
  ∃ user_data profile,
    data response = Onboarded user_data profile
    ∧ (1 ≤ UserProfile.sessions_per_week profile ≤ 7)%Z
    ∧ UserProfile.sessions_per_week profile
      = match body !! "sessions_per_week" with
        | Some (JInt n) => if bool_decide (1 ≤ n ≤ 7)%Z then n else 3%Z
        | Some (JBool true) => 1%Z
        | _ => 3%Z
        end.
Proof.
  intros Hrun Hstatus. apply complete_onboarding_inv in Hrun. cbv zeta in Hrun.
  destruct Hrun as [(detail & [= ->] & _)|(Hdone & tl & q & Hvalid & Hrun)]; [done|].
  destruct Hrun as [(_ & [([=] & _)|([=] & _)])|(rt & r1 & w1 & Hparse & Hupdate & Hp & _ & Hcases)].
  destruct Hcases as [(e & _ & [= ->] & _)
                     |(p & created & -> & [[[= ->] _]|(Hex & Hu & [[= ->]|[= ->]])])];
    [done..|].
  apply update_or_create_inv in Hupdate as (_ & _ & [(? & ? & _)|Hdone1]); [done|].
  destruct Hdone1 as (p' & c' & n & [= <- <-] & _ & _ & _ & _ & _ & _ & Hs & _).
  eexists _, p. split; [reflexivity|]. rewrite Hs.
  split; [apply sessions_stored_range|]. unfold sessions_stored.
  destruct (body !! "sessions_per_week") as [[|[|]|k|s|l|d]|]; cbn; try reflexivity.
  case_bool_decide as Hk.
  - destruct (Z.ltb_spec k 1); [lia|]. rewrite Z.gtb_ltb.
    destruct (Z.ltb_spec 7 k); [lia|]. done.
  - destruct (Z.ltb_spec k 1); [done|]. rewrite Z.gtb_ltb.
    destruct (Z.ltb_spec 7 k); [done|]. lia.
Qed.

Lemma sessions_per_week_falls_back_to_3_witness :
  ∃ user_data profile,
    data (default (mkResponse (Detail EmptyString) 0)
            (match (OnboardingViews.complete_onboarding Example.bob french_learner
                      Example.env Example.store).1 with
             | Returned response => Some response
             | _ => None
             end))
    = Onboarded user_data profile
    ∧ UserProfile.sessions_per_week profile = 3%Z.
Proof.
  destruct (OnboardingViews.complete_onboarding Example.bob french_learner
              Example.env Example.store) as [r w'] eqn:Hrun.
  assert (∃ response, r = Returned response ∧ status response = 200%Z)
    as (response & -> & Hstatus).
  { vm_compute in Hrun. injection Hrun as <- _. by eexists. }
  destruct (sessions_per_week_falls_back_to_3 _ _ _ _ _ _ Hrun Hstatus)
    as (user_data & profile & Hdata & _ & Hstored).
  exists user_data, profile. split; [exact Hdata|].
  rewrite Hstored. reflexivity.
Defined.

(** X18. Every run of [complete_onboarding], whatever its outcome, keeps
    the constraints of the profile table: distinct primary keys and at most
    one profile per user. A retry after a failure therefore updates the
    profile the first attempt stored instead of adding a second one. *)
Theorem complete_onboarding_keeps_one_profile_per_user user body env w r w' :
  profiles_consistent (profiles w) →
  OnboardingViews.complete_onboarding user body env w = (r, w') →
  profiles_consistent (profiles w').
Proof.
  intros Hcons Hrun. apply complete_onboarding_inv in Hrun. cbv zeta in Hrun.
  destruct Hrun as [(detail & _ & -> & _)|(_ & tl & q & _ & Hrun)]; [done|].
  destruct Hrun as [(-> & _)|(rt & r1 & w1 & _ & Hupdate & -> & _)]; [done|].
  by eapply update_or_create_consistent.
Qed.

Lemma complete_onboarding_keeps_one_profile_per_user_witness :
  profiles_consistent (profiles Example.store)
  ∧ profiles_consistent
      (profiles (OnboardingViews.complete_onboarding Example.bob french_learner
                   Example.env Example.store).2).
Proof.
  assert (Hcons : profiles_consistent (profiles Example.store)).
  { split; apply NoDup_nil_2. }
  split; [exact Hcons|].
  destruct (OnboardingViews.complete_onboarding Example.bob french_learner
              Example.env Example.store) as [r w'] eqn:Hrun.
  exact (complete_onboarding_keeps_one_profile_per_user _ _ _ _ _ _ Hcons Hrun).
Defined.

(** X19. Onboarding is completed once: after a 200 answer, a further
    request for the same user, loaded again from the table, is answered
    400 whatever it holds and changes nothing. *)
Theorem onboarding_is_completed_once user body env w response w' user' body' env' :
  OnboardingViews.complete_onboarding user body env w = (Returned response, w') →
  status response = 200%Z →
  user' ∈ users w' → User.id user' = User.id user →
  OnboardingViews.complete_onboarding user' body' env' w'
  = (Returned (mkResponse (Detail "Onboarding already completed.")
                 HTTP_400_BAD_REQUEST), w').
Proof.
  intros Hrun Hstatus Hin Hid.
  apply complete_onboarding_inv in Hrun. cbv zeta in Hrun.
  destruct Hrun as [(detail & [= ->] & _)|(Hdone & tl & q & Hvalid & Hrun)]; [done|].
  destruct Hrun as [(_ & [([=] & _)|([=] & _)])|(rt & r1 & w1 & _ & _ & _ & _ & Hcases)].
  destruct Hcases as [(e & _ & [= ->] & _)
                     |(p & created & -> & [[[= ->] _]|(Hex & Hu & [[= ->]|[= ->]])])];
    [done..|].
  rewrite Hu in Hin. apply flag_onboarded_row in Hin; [|done].
  unfold OnboardingViews.complete_onboarding. by rewrite Hin.
Qed.

Lemma onboarding_is_completed_once_witness :
  ∃ w',
    (OnboardingViews.complete_onboarding Example.bob french_learner Example.env
       Example.store).2 = w'
    ∧ OnboardingViews.complete_onboarding (onboarded Example.bob) french_learner
        Example.env w'
      = (Returned (mkResponse (Detail "Onboarding already completed.")
                     HTTP_400_BAD_REQUEST), w').
Proof.
  destruct (OnboardingViews.complete_onboarding Example.bob french_learner
              Example.env Example.store) as [r w'] eqn:Hrun.
  exists w'. split; [reflexivity|].
  assert (∃ response, r = Returned response ∧ status response = 200%Z
                      ∧ onboarded Example.bob ∈ users w')
    as (response & -> & Hstatus & Hin).
  { vm_compute in Hrun. injection Hrun as <- <-.
    eexists. split_and!; [done..|]. right. left. }
  exact (onboarding_is_completed_once _ _ _ _ _ _ _ french_learner Example.env
           Hrun Hstatus Hin eq_refl).
Defined.

(** X20. [complete_onboarding] is not atomic, and a 500 answer does not
    tell what was applied: the run has left either nothing changed, or the
    profile stored and the user's flag not set, or the profile stored and
    the flag set (when only the last read, made to build the answer,
    failed). In every case the stored profile belongs to the user. *)
Theorem failed_onboarding_leaves_one_of_three_states user body env w response w' :
  OnboardingViews.complete_onboarding user body env w = (Returned response, w') →
  status response = 500%Z →
  (users w' = users w ∧ profiles w' = profiles w)
  ∨ ((∃ profile, profile ∈ profiles w' ∧ UserProfile.user_id profile = User.id user)
     ∧ (users w' = users w
        ∨ users w' = flag_onboarded user (users w)
          ∧ ∃ row, row ∈ users w' ∧ User.id row = User.id user
                   ∧ User.onboarding_completed row = true)).
Proof.
  intros Hrun Hstatus. apply complete_onboarding_inv in Hrun. cbv zeta in Hrun.
  destruct Hrun as [(detail & [= ->] & _)|(Hdone & tl & q & Hvalid & Hrun)]; [done|].
  destruct Hrun as [(_ & [([=] & _)|([=] & _)])|(rt & r1 & w1 & _ & Hupdate & Hp & _ & Hcases)].
  apply update_or_create_inv in Hupdate as (_ & _ & Hupdate).
  destruct Hcases as [(e & -> & _ & Hu)|(p & created & -> & Hcases)].
  { left. destruct Hupdate as [(? & _ & Hp1)|(? & ? & ? & ? & _)]; [|done].
    split; [done | congruence]. }
  destruct Hupdate as [(? & ? & _)|Hstored]; [done|].
  destruct Hstored as (p' & c' & n & [= <- <-] & _ & Hin & Hpu & _).
  right. split; [exists p; by rewrite Hp|].
  destruct Hcases as [[_ Hu]|(Hex & Hu & Hr)]; [by left|]. right.
  split; [done|]. rewrite Hu.
  destruct (flag_onboarded_Exists _ _ Hex) as (row & Hrow & Hid).
  exists row. split_and!; [done..|]. by eapply flag_onboarded_row.
Qed.

Lemma failed_onboarding_leaves_one_of_three_states_witness :
  ∃ response w' row,
    OnboardingViews.complete_onboarding Example.bob french_learner
      (Example.env_outage 3) store_with_profile = (Returned response, w')
    ∧ status response = 500%Z
    ∧ row ∈ users w' ∧ User.id row = User.id Example.bob
    ∧ User.onboarding_completed row = true.
Proof.
  destruct (OnboardingViews.complete_onboarding Example.bob french_learner
              (Example.env_outage 3) store_with_profile) as [r w'] eqn:Hrun.
  assert (∃ response, r = Returned response ∧ status response = 500%Z
                      ∧ users w' ≠ users store_with_profile)
    as (response & -> & Hstatus & Hchanged).
  { vm_compute in Hrun. injection Hrun as <- <-. eexists. split_and!; done. }
  destruct (failed_onboarding_leaves_one_of_three_states _ _ _ _ _ _ Hrun Hstatus)
    as [[Hu _]|[_ [Hu|(_ & row & Hrow & Hid & Hflag)]]]; [done | done |].
  by exists response, w', row.
Defined.

(** ** The current user *)

Lemma save_names_inv fields u env w r w' :
  fields ≠ [] →
  (∀ new other, User.collides fields new other = false) →
  Orm.save (Some fields) u env w = (r, w') →
  profiles w' = profiles w
  ∧ drawn w' = drawn w
  ∧ trace w' = (trace w ++ [UpdateUser fields u])%list
  ∧ (r = Raised OperationalError ∧ users w' = users w
     ∨ r = Raised DatabaseError ∧ users w' = users w
       ∧ ¬ Exists (λ row, User.id row = User.id u) (users w)
     ∨ r = Returned tt
       ∧ Exists (λ row, User.id row = User.id u) (users w)
       ∧ users w'
         = (λ row, if bool_decide (User.id row = User.id u)
                   then User.assign fields u row else row) <$> users w).
Proof.
  intros Hne Hfree.
  destruct (decide (Exists (λ row, User.id row = User.id u) (users w)))
    as [Hex|Hex].
  - rewrite (save_run fields u env w Hne _ (or_intror eq_refl) Hex).
    destruct (db_fault env (length (trace w))).
    { intros [= <- <-]. split_and!; auto. }
    assert (existsb (User.collides fields u)
              (filter (λ row, User.id row ≠ User.id u) (users w)) = false) as ->.
    { apply existsb_false. intros x _. apply Hfree. }
    intros [= <- <-]. split_and!; [done..|]. right. right. done.
  - destruct fields as [|f fields]; [done|].
    unfold Orm.save. unfold bind at 1. rewrite statement_run.
    destruct (db_fault env (length (trace w))).
    { intros [= <- <-]. split_and!; auto. }
    unfold bind, get_world.
    change (users (log ?s w)) with (users w).
    rewrite (bool_decide_eq_false_2 _ Hex).
    intros [= <- <-]. split_and!; [done..|]. right. left. done.
Qed.

Lemma update_current_user_eq user data :
  UsersViews.update_current_user user data
  = (Orm.save (Some (match data !! "first_name" with
                     | Some _ => ["first_name"]
                     | None => []
                     end
                     ++ match data !! "last_name" with
                        | Some _ => ["last_name"]
                        | None => []
                        end)%list)
       (renamed data user) ;;;
     UserSerializer (renamed data user)).
Proof.
  unfold UsersViews.update_current_user, renamed. cbn [foldl].
  rewrite !filter_cons, filter_nil.
  destruct (data !! "first_name") as [first_name|],
    (data !! "last_name") as [last_name|]; reflexivity.
Qed.

(** Every way a run of [update_current_user] ends. *)
Lemma update_current_user_inv user data env w r w' :
  UsersViews.update_current_user user data env w = (r, w') →
  profiles w' = profiles w
  ∧ drawn w' = drawn w
  ∧ (data !! "first_name" = None ∧ data !! "last_name" = None
     ∧ UsersViews.get_current_user user env w = (r, w')
     ∨ (is_Some (data !! "first_name") ∨ is_Some (data !! "last_name"))
       ∧ ((r = Raised OperationalError
           ∨ r = Raised DatabaseError
             ∧ ¬ Exists (λ row, User.id row = User.id user) (users w))
          ∧ users w' = users w
          ∨ Exists (λ row, User.id row = User.id user) (users w)
            ∧ users w' = rename_rows data user (users w)
            ∧ (r = Raised OperationalError
               ∨ r = Returned (serialized (renamed data user) (profiles w))))).
Proof.
  rewrite update_current_user_eq.
  destruct (data !! "first_name") as [first_name|] eqn:Hfirst,
    (data !! "last_name") as [last_name|] eqn:Hlast.
  4:{ assert (renamed data user = user) as ->.
      { unfold renamed. rewrite Hfirst, Hlast. by destruct user. }
      cbn [app Orm.save]. unfold bind at 1, ret. intros Hrun.
      apply UserSerializer_inv in Hrun as Hser.
      destruct Hser as (_ & ? & ? & _). split_and!; [done..|]. by left. }
  all: intros Hrun; apply bind_inv in Hrun
         as [([] & w1 & Hsave & Hser)|[(e & Hsave & ->)|[Hsave ->]]];
    (apply save_names_inv in Hsave; [|done|reflexivity]);
    destruct Hsave as (Hp1 & Hd1 & _ & Hsave).
  all: try (destruct Hsave as [[[=] _]|[[[=] _]|[[=] _]]]; fail).
  all: try (apply UserSerializer_inv in Hser as (Hu2 & Hp2 & Hd2 & Hser);
            destruct Hsave as [[[=] _]|[[[=] _]|(_ & Hex & Hu1)]];
            split_and!; [congruence | congruence |]; right;
            (split; [eauto|]); right;
            split; [exact Hex|]; split;
            [ rewrite Hu2, Hu1; apply list_fmap_ext; intros i row _; cbn;
              case_bool_decide; [|done]; unfold renamed, User.assign;
              rewrite ?Hfirst, ?Hlast; reflexivity
            | destruct Hser as [-> | ->]; [by left|right];
              unfold serialized, profile_of; cbn; by rewrite Hp1 ]).
  all: split_and!; [done | done |]; right; (split; [eauto|]); left;
    destruct Hsave as [[[= ->] Hu]|[([= ->] & Hu & Hno)|[[=] _]]]; auto.
Qed.

Lemma rename_rows_lookup data user rows i row :
  rows !! i = Some row →
  rename_rows data user rows !! i
  = Some (if bool_decide (User.id row = User.id user) then renamed data row else row).
Proof. intros Hrow. unfold rename_rows. by rewrite list_lookup_fmap, Hrow. Qed.

(** X21. [update_current_user] changes nothing but the two names of the
    user's own row, whatever keys the request holds ([email],
    [onboarding_completed], [sso_id], ... are ignored): every row stays at
    its place with its key, username, email, password, SSO link and
    onboarding flag, a row of another user stays as it is, and a name that
    changes becomes the one the request gives. Profiles are not touched. If
    the view raises, it is for a broken connection or a user row that is
    gone, never for a uniqueness violation. *)
Theorem update_current_user_changes_only_names user data env w r w' :
  UsersViews.update_current_user user data env w = (r, w') →
  profiles w' = profiles w
  ∧ length (users w') = length (users w)
  ∧ (∀ i row, users w !! i = Some row →
       ∃ row', users w' !! i = Some row'
         ∧ User.id row' = User.id row
         ∧ User.username row' = User.username row
         ∧ User.email row' = User.email row
         ∧ User.password row' = User.password row
         ∧ User.sso_provider row' = User.sso_provider row
         ∧ User.sso_id row' = User.sso_id row
         ∧ User.onboarding_completed row' = User.onboarding_completed row
         ∧ (User.id row ≠ User.id user → row' = row)
         ∧ (User.first_name row' = User.first_name row
            ∨ data !! "first_name" = Some (User.first_name row'))
         ∧ (User.last_name row' = User.last_name row
            ∨ data !! "last_name" = Some (User.last_name row')))
  ∧ (∀ e, r = Raised e → e = OperationalError ∨ e = DatabaseError).
Proof.
  intros Hrun. apply update_current_user_inv in Hrun as (Hp & _ & Hcases).
  split; [done|].
  assert (Hsame : users w' = users w →
            length (users w') = length (users w)
            ∧ ∀ i row, users w !! i = Some row →
                ∃ row', users w' !! i = Some row'
                  ∧ User.id row' = User.id row
                  ∧ User.username row' = User.username row
                  ∧ User.email row' = User.email row
                  ∧ User.password row' = User.password row
                  ∧ User.sso_provider row' = User.sso_provider row
                  ∧ User.sso_id row' = User.sso_id row
                  ∧ User.onboarding_completed row' = User.onboarding_completed row
                  ∧ (User.id row ≠ User.id user → row' = row)
                  ∧ (User.first_name row' = User.first_name row
                     ∨ data !! "first_name" = Some (User.first_name row'))
                  ∧ (User.last_name row' = User.last_name row
                     ∨ data !! "last_name" = Some (User.last_name row'))).
  { intros ->. split; [done|]. intros i row Hrow. exists row.
    split_and!; auto. }
  destruct Hcases as [(_ & _ & Hget)|[_ [[Hr Hu]|(_ & Hu & Hr)]]].
  - apply UserSerializer_inv in Hget as (Hu & _ & _ & Hr).
    destruct (Hsame Hu) as [? ?]. split_and!; [done..|].
    intros e ->. destruct Hr as [[= ->]|[=]]. by left.
  - destruct (Hsame Hu) as [? ?]. split_and!; [done..|].
    intros e ->. destruct Hr as [[= ->]|[[= ->] _]]; auto.
  - split_and!.
    + rewrite Hu. unfold rename_rows. by rewrite length_fmap.
    + intros i row Hrow. rewrite Hu, (rename_rows_lookup _ _ _ _ _ Hrow).
      eexists. split; [done|]. case_bool_decide as Hid; [|split_and!; auto].
      unfold renamed. cbn. split_and!; try done.
      * destruct (data !! "first_name"); cbn; auto.
      * destruct (data !! "last_name"); cbn; auto.
    + intros e ->. destruct Hr as [[= ->]|[=]]. by left.
Qed.

Lemma update_current_user_changes_only_names_witness :
  ∃ row,
    users (UsersViews.update_current_user Example.bob rename_and_more Example.env
             Example.store).2 !! 1%nat = Some row
    ∧ User.email row = "bob@example.com"
    ∧ User.sso_id row = None
    ∧ User.onboarding_completed row = false.
Proof.
  destruct (UsersViews.update_current_user Example.bob rename_and_more Example.env
              Example.store) as [r w'] eqn:Hrun.
  destruct (update_current_user_changes_only_names _ _ _ _ _ _ Hrun)
    as (_ & _ & Hrows & _).
  destruct (Hrows 1%nat Example.bob eq_refl)
    as (row & Hrow & _ & _ & Hemail & _ & _ & Hsso & Hflag & _).
  exists row. split_and!; [exact Hrow | exact Hemail | exact Hsso | exact Hflag].
Defined.

(** X22. A request that names neither [first_name] nor [last_name] makes
    [update_current_user] behave exactly as [get_current_user]: the save
    with an empty [update_fields] sends no UPDATE, so the only statement is
    the read of the profile and no table changes. *)
Theorem update_without_names_is_a_read user data env w :
  data !! "first_name" = None → data !! "last_name" = None →
  UsersViews.update_current_user user data env w
  = UsersViews.get_current_user user env w
  ∧ ∀ r w', UsersViews.get_current_user user env w = (r, w') →
      users w' = users w ∧ profiles w' = profiles w
      ∧ trace w' = (trace w ++ [SelectProfileByUser (User.id user)])%list
      ∧ writes (trace w') = writes (trace w).
Proof.
  intros Hfirst Hlast. split.
  - rewrite update_current_user_eq, Hfirst, Hlast.
    assert (renamed data user = user) as ->.
    { unfold renamed. rewrite Hfirst, Hlast. by destruct user. }
    reflexivity.
  - intros r w'. unfold UsersViews.get_current_user, UserSerializer.
    unfold bind at 1. rewrite statement_run.
    destruct (db_fault env (length (trace w))); intros [= <- <-];
      (split_and!; [done..|]); cbn [trace log];
      rewrite writes_app; cbn; apply app_nil_r.
Qed.

Lemma update_without_names_is_a_read_witness :
  UsersViews.update_current_user Example.bob {[ "email" := "root@example.com" ]}
    Example.env Example.store
  = UsersViews.get_current_user Example.bob Example.env Example.store.
Proof.
  apply (update_without_names_is_a_read Example.bob
           {[ "email" := "root@example.com" ]} Example.env Example.store);
    reflexivity.
Defined.

(** X23. When [update_current_user] returns and the request gave a name,
    the user's row exists and every row with the user's key stores the
    names given; the answer shows those names, the other fields of the
    instance the request was authenticated with, and the user's profile. *)
Theorem update_current_user_stores_and_shows_the_names user data env w user_data w' :
  UsersViews.update_current_user user data env w = (Returned user_data, w') →
  user_data = serialized (renamed data user) (profiles w)
  ∧ UserData.first_name user_data = default (User.first_name user) (data !! "first_name")
  ∧ UserData.last_name user_data = default (User.last_name user) (data !! "last_name")
  ∧ (is_Some (data !! "first_name") ∨ is_Some (data !! "last_name") →
     (∃ row, row ∈ users w' ∧ User.id row = User.id user)
     ∧ ∀ row, row ∈ users w' → User.id row = User.id user →
         (∀ name, data !! "first_name" = Some name → User.first_name row = name)
         ∧ (∀ name, data !! "last_name" = Some name → User.last_name row = name)).
Proof.
  intros Hrun. apply update_current_user_inv in Hrun as (_ & _ & Hcases).
  destruct Hcases as [(Hfirst & Hlast & Hget)|[_ [[Hr _]|(Hex & Hu & Hr)]]].
  - apply UserSerializer_inv in Hget as (_ & _ & _ & [[=]|[= ->]]).
    assert (renamed data user = user) as ->.
    { unfold renamed. rewrite Hfirst, Hlast. by destruct user. }
    rewrite Hfirst, Hlast. split_and!; [done..|].
    intros [[? ?]|[? ?]]; congruence.
  - destruct Hr as [[=]|[[=] _]].
  - destruct Hr as [[=]|[= ->]]. split_and!; [done..|]. intros _. split.
    + apply Exists_exists in Hex as (old & Hin & Hid).
      exists (renamed data old). split; [|done]. rewrite Hu.
      apply list_elem_of_fmap. exists old. by rewrite bool_decide_eq_true_2.
    + intros row Hrow Hid. rewrite Hu in Hrow.
      apply list_elem_of_fmap in Hrow as (old & -> & _).
      case_bool_decide as Hold; [|done].
      unfold renamed. cbn. split; intros name ->; reflexivity.
Qed.

Lemma update_current_user_stores_and_shows_the_names_witness :
  ∃ row,
    row ∈ users (UsersViews.update_current_user Example.bob rename_and_more
                   Example.env Example.store).2
    ∧ User.id row = 2%nat ∧ User.first_name row = "Robert".
Proof.
  destruct (UsersViews.update_current_user Example.bob rename_and_more Example.env
              Example.store) as [r w'] eqn:Hrun.
  assert (∃ user_data, r = Returned user_data) as [user_data ->].
  { vm_compute in Hrun. injection Hrun as <- _. by eexists. }
  destruct (update_current_user_stores_and_shows_the_names _ _ _ _ _ _ Hrun)
    as (_ & _ & _ & Hstored).
  destruct (Hstored (or_introl (ex_intro _ "Robert" eq_refl)))
    as [(row & Hrow & Hid) Hnames].
  exists row. split_and!; [exact Hrow | exact Hid |].
  by apply (Hnames row Hrow Hid).
Defined.

(** ** The verifier, for every run *)

Lemma verify_apple_token_outcome id_token env w r w' :
  Services.verify_apple_token id_token env w = (r, w') →
  w' = w
  ∧ match r with
    | Returned user_info => SSOUserInfo.provider user_info = "apple"
    | Raised e => (∃ msg, e = TokenVerificationError msg) ∨ e = KeyError "sub"
    | Diverged => False
    end.
Proof.
  unfold Services.verify_apple_token, Services.requests_get,
    Services.raise_for_status, Services.response_json, Services.jose,
    Services.getitem, try_except, bind, ask, ret, raise.
  destruct (apple_keys env) as [msg|status body]; cbn [fst snd].
  { intros [= <- <-]. eauto. }
  case_bool_decide; [intros [= <- <-]; eauto|].
  destruct body as [keys|]; [|intros [= <- <-]; eauto].
  destruct (jwt_get_unverified_header env id_token) as [msg|header];
    [intros [= <- <-]; eauto|].
  destruct (head (filter _ keys)) as [key|]; [|intros [= <- <-]; eauto].
  case_bool_decide; [intros [= <- <-]; eauto|].
  destruct (jwt_decode env id_token key _ _) as [msg|payload];
    [intros [= <- <-]; eauto|].
  destruct (payload !! "sub") as [sub|]; intros [= <- <-]; eauto.
Qed.

Lemma verify_google_token_outcome id_token env w r w' :
  Services.verify_google_token id_token env w = (r, w') →
  w' = w
  ∧ match r with
    | Returned user_info => SSOUserInfo.provider user_info = "google"
    | Raised e => (∃ msg, e = TokenVerificationError msg) ∨ e = KeyError "sub"
    | Diverged => False
    end.
Proof.
  unfold Services.verify_google_token, Services.requests_get,
    Services.response_json, Services.getitem, try_except, bind, ask, ret, raise.
  destruct (google_tokeninfo env id_token) as [msg|status body]; cbn [fst snd].
  { intros [= <- <-]. eauto. }
  case_bool_decide; [intros [= <- <-]; eauto|].
  destruct body as [payload|]; [|intros [= <- <-]; eauto].
  destruct (Py.truthy (GOOGLE_CLIENT_ID env) && _); [intros [= <- <-]; eauto|].
  case_bool_decide; [intros [= <- <-]; eauto|].
  destruct (payload !! "sub") as [sub|]; intros [= <- <-]; eauto.
Qed.

(** X24. Every run of [verify_sso_token] ends, and leaves the world as it
    was. For a supported provider it returns an identity of that provider
    or raises [TokenVerificationError] or, for claims without a subject,
    [KeyError]: the [JWTError] and [RequestException] of the libraries
    never get out. For any other provider it raises [ValueError] without
    contacting anyone. *)
Theorem verify_sso_token_outcomes provider id_token env w r w' :
  Services.verify_sso_token provider id_token env w = (r, w') →
  w' = w
  ∧ match r with
    | Returned user_info =>
        provider ∈ ["apple"; "google"]
        ∧ SSOUserInfo.provider user_info = provider
    | Raised e =>
        (provider ∈ ["apple"; "google"]
         ∧ ((∃ msg, e = TokenVerificationError msg) ∨ e = KeyError "sub"))
        ∨ ((provider ∉ ["apple"; "google"])
           ∧ e = ValueError ("Unsupported SSO provider: " +:+ provider))
    | Diverged => False
    end.
Proof.
  unfold Services.verify_sso_token.
  destruct (String.eqb_spec provider "apple") as [->|Happle].
  { intros [-> Hr]%verify_apple_token_outcome. split; [done|].
    destruct r; [split; [by left|done] | left; split; [by left|done] | done]. }
  destruct (String.eqb_spec provider "google") as [->|Hgoogle].
  { intros [-> Hr]%verify_google_token_outcome. split; [done|].
    destruct r; [split; [by right; left|done] | left; split; [by right; left|done]
                | done]. }
  intros [= <- <-]. split; [done|]. right. split; [|done].
  intros Hin. apply elem_of_cons in Hin as [->|Hin]; [done|].
  by apply list_elem_of_singleton in Hin as ->.
Qed.

Lemma verify_sso_token_outcomes_witness :
  (Services.verify_sso_token "facebook" "tok" Example.env Example.store).2
  = Example.store.
Proof.
  destruct (Services.verify_sso_token "facebook" "tok" Example.env Example.store)
    as [r w'] eqn:Hrun.
  exact (proj1 (verify_sso_token_outcomes _ _ _ _ _ _ Hrun)).
Defined.

Lemma length_append s t :
  String.length (s +:+ t) = (String.length s + String.length t)%nat.
Proof. induction s as [|c s IH]; simpl; [done|]. f_equal. exact IH. Qed.

(** X25. Under [DEBUG] the development verifier accepts every token
    without contacting a provider: the identity has the provider asked
    for, a subject id that starts with [dev_] and is at most 24 characters
    long, a non-empty email ([dev@example.com] when the request has none)
    and the names Dev User. Only the first 20 characters of the token
    count: two non-empty tokens that agree on them are the same identity. *)
Theorem dev_verifier_accepts_every_token provider id_token email env w :
  DEBUG env = true →
  ∃ user_info,
    Services.verify_sso_token_dev provider id_token email env w
    = (Returned user_info, w)
    ∧ SSOUserInfo.provider user_info = provider
    ∧ Py.startswith "dev_" (SSOUserInfo.sso_id user_info) = true
    ∧ (String.length (SSOUserInfo.sso_id user_info) ≤ 24)%nat
    ∧ Py.truthy (SSOUserInfo.email user_info) = true
    ∧ SSOUserInfo.email user_info = Py.or_else email "dev@example.com"
    ∧ SSOUserInfo.first_name user_info = Some "Dev"
    ∧ SSOUserInfo.last_name user_info = Some "User"
    ∧ ∀ id_token',
        Py.truthy id_token = true → Py.truthy id_token' = true →
        Py.slice_to 20 id_token' = Py.slice_to 20 id_token →
        Services.verify_sso_token_dev provider id_token' email env w
        = (Returned user_info, w).
Proof.
  intros Hdebug. unfold Services.verify_sso_token_dev, bind, ask.
  rewrite Hdebug. cbn [negb]. eexists. split; [reflexivity|].
  cbn [SSOUserInfo.provider SSOUserInfo.sso_id SSOUserInfo.email
       SSOUserInfo.first_name SSOUserInfo.last_name].
  split_and!; [done | | | | done | done | done |].
  - destruct (Py.truthy id_token); [|reflexivity].
    by destruct (Py.slice_to 20 id_token).
  - destruct (Py.truthy id_token); [|cbn; lia].
    rewrite length_append, slice_to_length.
    change (String.length "dev_") with 4%nat. lia.
  - unfold Py.or_else. destruct email as [[|c s]|]; reflexivity.
  - intros id_token' -> -> ->. reflexivity.
Qed.

Lemma dev_verifier_accepts_every_token_witness :
  Services.verify_sso_token_dev "apple" "0123456789abcdefghij-first" None
    env_debug Example.store
  = Services.verify_sso_token_dev "apple" "0123456789abcdefghij-second" None
      env_debug Example.store.
Proof.
  destruct (dev_verifier_accepts_every_token "apple" "0123456789abcdefghij-second"
              None env_debug Example.store eq_refl)
    as (user_info & -> & _ & _ & _ & _ & _ & _ & _ & Hsame).
  apply (Hsame "0123456789abcdefghij-first"); reflexivity.
Defined.
